(** * hossam.classification: the multi-model comparison harness

    A shallow embedding of [src/hossam/classification.py]: the metric
    reporter [my_classification_result], the single-model trainer
    [__my_classification] with its six per-algorithm wrappers, and the
    dispatcher [my_classification].

    Python floats and numpy [float64] scalars are IEEE binary64 numbers, the
    kernel's primitive floats.  The estimator, search and metrics libraries
    (scikit-learn, pandas) are interfaces: a development that uses this file
    instantiates them; the theorems hold for every instance. *)

From Stdlib Require Import List String ZArith Bool Lia Permutation.
From Stdlib Require Import Floats Uint63.
Import ListNotations.

Open Scope string_scope.
Open Scope list_scope.

Set Implicit Arguments.
Set Warnings "-register-all,-inexact-float".

(** ** Exceptions and results *)

(** The exception classes the source itself can raise, plus whatever a
    library call raises. All of them derive from [Exception], so the
    [except Exception] clause of the trainer catches every constructor. *)
Inductive PyExn : Type :=
| ValueError (msg : string)
| IndexError (msg : string)
| UnboundLocalError (name : string)
| AttributeError (name : string)
| TypeError (msg : string)
| LibraryError (msg : string).

Inductive result (A : Type) : Type :=
| Ok (a : A)
| Raise (e : PyExn).

Arguments Ok {A} a.
Arguments Raise {A} e.

(** ** Python values, dicts and tables *)

(** What a scorecard cell can hold: the integer literal [0] of the
    pseudo-R2 default, a float, or the explanatory text of the last row. *)
Inductive pyval : Type :=
| PyInt (z : Z)
| PyFloat (f : float)
| PyStr (s : string).

(** A Python [dict] with string keys keeps insertion order: an association
    list whose keys are pairwise distinct. *)
Definition dict (V : Type) : Type := list (string * V).

Fixpoint dict_get {V} (k : string) (d : dict V) : option V :=
  match d with
  | [] => None
  | (k', v) :: d' => if String.eqb k k' then Some v else dict_get k d'
  end.

(** [d[k] = v]: overwrite in place when the key exists, append otherwise. *)
Fixpoint dict_set {V} (k : string) (v : V) (d : dict V) : dict V :=
  match d with
  | [] => [(k, v)]
  | (k', v') :: d' =>
      if String.eqb k k' then (k', v) :: d' else (k', v') :: dict_set k v d'
  end.

Definition keys {V} (d : dict V) : list string := map fst d.

Definition dict_has {V} (k : string) (d : dict V) : bool :=
  existsb (String.eqb k) (keys d).

Definition scorecard : Type := dict pyval.

(** [DataFrame(records, index=names)]: one row per record, the columns are
    the keys of the records in order of first appearance. *)
Record Table : Type := mkTable {
  index : list string;
  columns : list string;
  rows : list scorecard
}.

Fixpoint add_new (seen ks : list string) : list string :=
  match ks with
  | [] => seen
  | k :: ks' =>
      if existsb (String.eqb k) seen then add_new seen ks'
      else add_new (seen ++ [k]) ks'
  end.

Definition union_keys (records : list scorecard) : list string :=
  fold_left (fun seen r => add_new seen (keys r)) records [].

Definition DataFrame_of (records : list scorecard) (names : list string) : Table :=
  {| index := names; columns := union_keys records; rows := records |}.

(** [result_df.drop(columns=[c], inplace=True)] *)
Definition drop_column (c : string) (t : Table) : Table :=
  {| index := index t;
     columns := filter (fun k => negb (String.eqb k c)) (columns t);
     rows := map (filter (fun kv => negb (String.eqb (fst kv) c))) (rows t) |}.

(** [result_df.T] *)
Inductive Rendered : Type :=
| Plain (t : Table)
| Transposed (t : Table).

(** ** Data sets *)

Definition DataFrame : Type := list (list float).   (* rows of features *)
Definition Series : Type := list Z.                 (* one label per sample *)
Definition Proba : Type := list (list float).       (* one row of class probabilities per sample *)

(** A numpy array handed to a metric: a vector or a matrix. *)
Inductive ndarray : Type :=
| Arr1 (v : list float)
| Arr2 (m : Proba).

(** ** numpy scalar arithmetic *)

(** A count taken out of a confusion matrix is a non-negative [int64]; true
    division converts both operands to [float64] and never raises: a zero
    divisor gives [nan] or an infinity (with a warning). *)
Definition int64_to_float (z : Z) : float := PrimFloat.of_uint63 (Uint63.of_Z z).

Definition np_true_divide (a b : Z) : float :=
  PrimFloat.div (int64_to_float a) (int64_to_float b).

Definition one : float := int64_to_float 1.

(** ** Effects: an event log and exceptions *)

(** What a run leaves behind besides its value: console output, rendering
    requests and the prediction passes made on the estimator. The rendering
    collaborators ([my_pretty_table], the plot helpers) are taken not to
    raise. *)
Inductive Event : Type :=
| Print (msg : string)
| PrettyTable (t : Rendered)
| Plot (what : string)
| Predict (x : DataFrame)
| PredictProba (x : DataFrame).

Definition M (A : Type) : Type := (list Event * result A)%type.

Definition ret {A} (a : A) : M A := ([], Ok a).

Definition bind {A B} (m : M A) (f : A -> M B) : M B :=
  match m with
  | (l, Ok a) => let (l', r) := f a in (l ++ l', r)
  | (l, Raise e) => (l, Raise e)
  end.

Definition emit (ev : Event) : M unit := ([ev], Ok tt).
Definition raise {A} (e : PyExn) : M A := ([], Raise e).
Definition lift {A} (r : result A) : M A := ([], r).
Definition when (b : bool) (m : M unit) : M unit := if b then m else ret tt.

Declare Scope py_scope.
Delimit Scope py_scope with py.
Notation "x <- m ;; k" := (bind m (fun x => k))
  (at level 61, m at next level, right associativity) : py_scope.
Notation "' p <- m ;; k" := (bind m (fun p => k))
  (at level 61, p pattern, m at next level, right associativity) : py_scope.
Notation "m ;; k" := (bind m (fun _ => k))
  (at level 61, right associativity) : py_scope.
Open Scope py_scope.

Definition outcome {A} (m : M A) : result A := snd m.
Definition log {A} (m : M A) : list Event := fst m.

(** ** The estimator library *)

Inductive Algorithm : Type :=
| LogisticRegression
| KNeighborsClassifier
| LinearSVC
| SVC
| GaussianNB
| DecisionTreeClassifier
| SGDClassifier.

(** [estimator.__class__.__name__] *)
Definition class_name (a : Algorithm) : string :=
  match a with
  | LogisticRegression => "LogisticRegression"
  | KNeighborsClassifier => "KNeighborsClassifier"
  | LinearSVC => "LinearSVC"
  | SVC => "SVC"
  | GaussianNB => "GaussianNB"
  | DecisionTreeClassifier => "DecisionTreeClassifier"
  | SGDClassifier => "SGDClassifier"
  end.

(** Hyperparameter values; a search space maps a name to a [PList]. *)
Inductive ParamVal : Type :=
| PStr (s : string)
| PInt (z : Z)
| PFloat (f : float)
| PBool (b : bool)
| PList (l : list ParamVal).

Definition Params : Type := dict ParamVal.

(** An estimator that has not been fitted: the class called on its
    keyword arguments. *)
Record Prototype : Type := mkPrototype {
  proto_class : Algorithm;
  proto_params : Params
}.

(** What fitting leaves on the estimator: the class list and the prediction
    methods; [predict_proba] is [None] when [hasattr(estimator,
    "predict_proba")] is false. *)
Record Fitted : Type := mkFitted {
  classes_ : list Z;
  predict : DataFrame -> Series;
  predict_proba : option (DataFrame -> Proba)
}.

Record SearchResult : Type := mkSearchResult {
  best_estimator_ : Fitted;
  best_params_ : Params;
  cv_results_ : Table
}.

Class EstimatorLibrary : Type := {
  (** the names in [inspect.signature(classname.__init__).parameters] *)
  init_parameters : Algorithm -> list string;
  (** the constructor call: the class applied to keyword arguments *)
  construct : Algorithm -> Params -> result Prototype;
  (** [estimator.fit(x_train, y_train)] *)
  fit : Prototype -> DataFrame -> Series -> result Fitted;
  (** [RandomizedSearchCV(prototype, param_distributions, cv, n_jobs,
      n_iter).fit(x_train, y_train)] *)
  randomized_search_fit :
    Prototype -> Params -> Z -> Z -> Z -> DataFrame -> Series -> result SearchResult
}.

(** ** The metrics library *)

Inductive Average : Type := Binary | Micro | Macro.

(** The metric functions are taken to return a number. scikit-learn's own
    refusals (the default [pos_label=1] missing from the labels of a binary
    split, a single class handed to [roc_auc_score] or [log_loss]) are outside
    this interface: what is concluded about a scorecard is concluded for the
    runs in which the library returns. *)
Class MetricsLibrary : Type := {
  accuracy_score : Series -> Series -> float;
  precision_score : Series -> Series -> Average -> float;
  recall_score : Series -> Series -> Average -> float;
  f1_score : Series -> Series -> Average -> float;
  (** [log_loss(y_true, y_pred, normalize=b)] *)
  log_loss : Series -> ndarray -> bool -> float;
  (** [roc_auc_score(y_true, y_score, average=a, multi_class=m)];
      [None] is the library default of [multi_class]. *)
  roc_auc_score : Series -> ndarray -> Average -> option string -> float;
  (** [y.mean()] *)
  series_mean : Series -> float
}.

(** [sklearn.metrics.confusion_matrix(y_true, y_pred)] with no [labels]
    argument: the rows and columns are the sorted distinct labels that occur
    in [y_true] or in [y_pred]; cell (i, j) counts the samples of true label i
    predicted as j. Inputs of different lengths are refused. *)
Fixpoint insert_label (z : Z) (l : list Z) : list Z :=
  match l with
  | [] => [z]
  | h :: t =>
      if (z <? h)%Z then z :: l
      else if (z =? h)%Z then l
      else h :: insert_label z t
  end.

Definition unique_labels (y_true y_pred : Series) : list Z :=
  fold_right insert_label [] (y_true ++ y_pred).

Definition count_pairs (y_true y_pred : Series) (a b : Z) : Z :=
  Z.of_nat (List.length (filter (fun tp => (fst tp =? a)%Z && (snd tp =? b)%Z)
                           (combine y_true y_pred))).

Definition confusion_matrix (y_true y_pred : Series) : result (list (list Z)) :=
  if Nat.eqb (List.length y_true) (List.length y_pred) then
    let labels := unique_labels y_true y_pred in
    Ok (map (fun a => map (fun b => count_pairs y_true y_pred a b) labels) labels)
  else Raise (ValueError "Found input variables with inconsistent numbers of samples").

(** [((TN, FP), (FN, TP)) = conf_mat]: the tuple pattern needs exactly two
    rows of exactly two cells. *)
Definition unpack_2x2 (m : list (list Z)) : result (Z * Z * Z * Z) :=
  match m with
  | [[TN; FP]; [FN; TP]] => Ok (TN, FP, FN, TP)
  | _ => Raise (ValueError "not enough values to unpack, or too many")
  end.

(** [proba[:, 1]] *)
Definition column_1 (p : Proba) : result (list float) :=
  if forallb (fun row => Nat.ltb 1 (List.length row)) p
  then Ok (map (fun row => nth 1 row nan) p)
  else Raise (IndexError "index 1 is out of bounds for axis 1").

(** [np.ones_like(y) * m] *)
Definition ones_like_times (y : Series) (m : float) : list float :=
  map (fun _ => PrimFloat.mul one m) y.

(** [l[-2]] *)
Definition last_but_one {A} (l : list A) : result A :=
  match rev l with
  | _ :: a :: _ => Ok a
  | _ => Raise (IndexError "list index out of range")
  end.

(** ** The fitted estimator and the attributes attached to it *)

(** The source attaches its results to the estimator object itself
    ([estimator.x], [estimator.scores], ...); an attribute that has not been set
    is [None] here. [cls] is the class the object was built from. *)
Record Estimator : Type := mkEstimator {
  cls : Algorithm;
  fitted : Fitted;
  est_best_params : option Params;
  est_x : option DataFrame;
  est_y : option Series;
  est_y_pred : option Series;
  est_y_pred_proba : option Proba;
  est_scores : option scorecard
}.

Definition new_estimator (c : Algorithm) (f : Fitted) (bp : option Params) : Estimator :=
  mkEstimator c f bp None None None None None.

Definition set_results (e : Estimator) (x : DataFrame) (y : Series)
    (y_pred : Series) (y_pred_proba : option Proba) : Estimator :=
  mkEstimator (cls e) (fitted e) (est_best_params e)
    (Some x) (Some y) (Some y_pred) y_pred_proba (est_scores e).

Definition set_scores (e : Estimator) (s : scorecard) : Estimator :=
  mkEstimator (cls e) (fitted e) (est_best_params e)
    (est_x e) (est_y e) (est_y_pred e) (est_y_pred_proba e) (Some s).

(** The keyword arguments shared by the trainer, the reporter and the
    dispatcher. [figsize] and [dpi] only reach the plot helpers. *)
Record Options : Type := mkOptions {
  conf_matrix : bool;
  cv : Z;
  hist : bool;
  roc : bool;
  pr : bool;
  multiclass : option string;
  learning_curve : bool;
  report : bool;
  figsize : Z * Z;
  dpi : Z;
  sort : option string;
  is_print : bool
}.

(** ** Scorecard keys *)

Definition K_PSEUDO_R2 : string := "의사결정계수(Pseudo R2)".
Definition K_ACCURACY : string := "정확도(Accuracy)".
Definition K_PRECISION : string := "정밀도(Precision)".
Definition K_RECALL : string := "재현율(Recall)".
Definition K_FALLOUT : string := "위양성율(Fallout)".
Definition K_TNR : string := "특이성(TNR)".
Definition K_F1 : string := "F1 Score".
Definition K_AUC : string := "AUC".
Definition K_AUC_OVO : string := "AUC(ovo)".
Definition K_AUC_OVR : string := "AUC(ovr)".

(** [multiclass == which or multiclass == None] *)
Definition selects (which : string) (multiclass : option string) : bool :=
  match multiclass with
  | Some m => String.eqb m which
  | None => true
  end.

Definition is_class (name : string) (e : Estimator) : bool :=
  String.eqb (class_name (cls e)) name.

Definition has_predict_proba (e : Estimator) : bool :=
  match predict_proba (fitted e) with Some _ => true | None => false end.

(** [len(labels) == 2] *)
Definition is_binary (e : Estimator) : bool :=
  Nat.eqb (List.length (classes_ (fitted e))) 2.

Definition call_predict (e : Estimator) (x : DataFrame) : M Series :=
  emit (Predict x) ;; ret (predict (fitted e) x).

(** [estimator.predict_proba(x)] under [if hasattr(estimator,
    "predict_proba")]. *)
Definition call_predict_proba (e : Estimator) (x : DataFrame) : M (option Proba) :=
  match predict_proba (fitted e) with
  | Some pp => emit (PredictProba x) ;; ret (Some (pp x))
  | None => ret None
  end.

(** The reporter also takes column 1 of the probabilities. *)
Definition call_predict_proba_1 (e : Estimator) (x : DataFrame)
    : M (option (Proba * list float)) :=
  proba <- call_predict_proba e x ;;
  match proba with
  | Some p => p1 <- lift (column_1 p) ;; ret (Some (p, p1))
  | None => ret None
  end.

(** The explanatory row appended after the scorecards. *)
Definition description (e : Estimator) (multiclass : option string) : scorecard :=
  if is_binary e then
    let result :=
      [ (K_PSEUDO_R2, PyStr "로지스틱회귀의 성능 측정 지표로, 1에 가까울수록 좋은 모델");
        (K_ACCURACY, PyStr "예측 결과(TN,FP,TP,TN)가 실제 결과(TP,TN)와 일치하는 정도");
        (K_PRECISION, PyStr "양성으로 예측한 결과(TP,FP) 중 실제 양성(TP)인 비율");
        (K_RECALL, PyStr "실제 양성(TP,FN) 중 양성(TP)으로 예측한 비율");
        (K_FALLOUT, PyStr "실제 음성(FP,TN) 중 양성(FP)으로 잘못 예측한 비율");
        (K_TNR, PyStr "실제 음성(FP,TN) 중 음성(TN)으로 정확히 예측한 비율");
        (K_F1, PyStr "정밀도와 재현율의 조화평균") ] in
    if has_predict_proba e
    then dict_set K_AUC (PyStr "ROC Curve의 면적으로, 1에 가까울수록 좋은 모델") result
    else result
  else
    let result :=
      [ (K_ACCURACY, PyStr "예측 결과(TN,FP,TP,TN)가 실제 결과(TP,TN)와 일치하는 정도");
        (K_PRECISION, PyStr "양성으로 예측한 결과(TP,FP) 중 실제 양성(TP)인 비율");
        (K_RECALL, PyStr "실제 양성(TP,FN) 중 양성(TP)으로 예측한 비율");
        (K_F1, PyStr "정밀도와 재현율의 조화평균") ] in
    if has_predict_proba e then
      let result :=
        if selects "ovo" multiclass
        then dict_set K_AUC_OVO (PyStr "One vs One에 대한 AUC로, 1에 가까울수록 좋은 모델") result
        else result in
      if selects "ovr" multiclass
      then dict_set K_AUC_OVR (PyStr "One vs Rest에 대한 AUC로, 1에 가까울수록 좋은 모델") result
      else result
    else result.

Section Reporter.

Context {ML : MetricsLibrary}.

(** The pseudo-R2 of a split: [1 - (-log_loss(fitted) / -log_loss(null))]
    with both losses unnormalized, for a binary [LogisticRegression]; the
    literal [0] otherwise. *)
Definition pseudo_r2 (e : Estimator) (y : Series)
    (proba : option (Proba * list float)) (var : string) : M pyval :=
  if is_binary e && is_class "LogisticRegression" e then
    match proba with
    | Some (y_pred_proba, _) =>
        let log_loss_test := PrimFloat.opp (log_loss y (Arr2 y_pred_proba) false) in
        let y_null := ones_like_times y (series_mean y) in
        let log_loss_null := PrimFloat.opp (log_loss y (Arr1 y_null) false) in
        ret (PyFloat (PrimFloat.sub one (PrimFloat.div log_loss_test log_loss_null)))
    | None => raise (UnboundLocalError var)
    end
  else ret (PyInt 0).

(** The scorecard of a binary split, once the confusion matrix is unpacked. *)
Definition binary_result (pseudo : pyval) (y y_pred : Series) (FP TN : Z)
    (proba : option (Proba * list float)) : scorecard :=
  let result :=
    [ (K_PSEUDO_R2, pseudo);
      (K_ACCURACY, PyFloat (accuracy_score y y_pred));
      (K_PRECISION, PyFloat (precision_score y y_pred Binary));
      (K_RECALL, PyFloat (recall_score y y_pred Binary));
      (K_FALLOUT, PyFloat (np_true_divide FP (TN + FP)));
      (K_TNR, PyFloat (PrimFloat.sub one (np_true_divide FP (TN + FP))));
      (K_F1, PyFloat (f1_score y y_pred Binary)) ] in
  match proba with
  | Some (_, y_pred_proba_1) =>
      dict_set K_AUC (PyFloat (roc_auc_score y (Arr1 y_pred_proba_1) Macro None)) result
  | None => result
  end.

(** The two AUC entries of a multi-class split, each behind its selector. *)
Definition multiclass_auc (multiclass : option string) (y : Series)
    (proba : option (Proba * list float)) (result : scorecard) : scorecard :=
  match proba with
  | Some (y_pred_proba, _) =>
      let result :=
        if selects "ovo" multiclass
        then dict_set K_AUC_OVO
               (PyFloat (roc_auc_score y (Arr2 y_pred_proba) Macro (Some "ovo"))) result
        else result in
      if selects "ovr" multiclass
      then dict_set K_AUC_OVR
             (PyFloat (roc_auc_score y (Arr2 y_pred_proba) Macro (Some "ovr"))) result
      else result
  | None => result
  end.

(** The block under [if x_train is not None and y_train is not None]. *)
Definition train_scores (e : Estimator) (multiclass : option string)
    (x_train : DataFrame) (y_train : Series) : M scorecard :=
  y_train_pred <- call_predict e x_train ;;
  proba <- call_predict_proba_1 e x_train ;;
  y_train_pseudo_r2 <- pseudo_r2 e y_train proba "y_train_pred_proba" ;;
  y_train_conf_mat <- lift (confusion_matrix y_train y_train_pred) ;;
  if is_binary e then
    '(TN, FP, FN, TP) <- lift (unpack_2x2 y_train_conf_mat) ;;
    ret (binary_result y_train_pseudo_r2 y_train y_train_pred FP TN proba)
  else
    ret (multiclass_auc multiclass y_train proba
           [ (K_ACCURACY, PyFloat (accuracy_score y_train y_train_pred));
             (K_PRECISION, PyFloat (precision_score y_train y_train_pred Macro));
             (K_RECALL, PyFloat (recall_score y_train y_train_pred Micro));
             (K_F1, PyFloat (f1_score y_train y_train_pred Macro)) ]).

(** The block under [if x_test is not None and y_test is not None]. *)
Definition test_scores (e : Estimator) (multiclass : option string)
    (x_test : DataFrame) (y_test : Series) : M scorecard :=
  y_test_pred <- call_predict e x_test ;;
  proba <- call_predict_proba_1 e x_test ;;
  y_test_pseudo_r2 <- pseudo_r2 e y_test proba "y_test_pred_proba" ;;
  y_test_conf_mat <- lift (confusion_matrix y_test y_test_pred) ;;
  if is_binary e then
    '(TN, FP, FN, TP) <- lift (unpack_2x2 y_test_conf_mat) ;;
    ret (binary_result y_test_pseudo_r2 y_test y_test_pred FP TN proba)
  else
    ret (multiclass_auc multiclass y_test proba
           [ (K_ACCURACY, PyFloat (accuracy_score y_test y_test_pred));
             (K_PRECISION, PyFloat (precision_score y_test y_test_pred Macro));
             (K_RECALL, PyFloat (recall_score y_test y_test_pred Macro));
             (K_F1, PyFloat (f1_score y_test y_test_pred Macro)) ]).

End Reporter.

Section Harness.

Context {EL : EstimatorLibrary} {ML : MetricsLibrary}.

(** The coefficient report [my_classification_report] (standard errors,
    p-values, VIF): its linear algebra is left to the caller of this
    development; it may print, and it may raise. *)
Variable my_classification_report :
  Estimator -> DataFrame -> Series -> option DataFrame -> option Series ->
  option string -> M unit.

(** *** The metric reporter *)

Definition both {A B} (a : option A) (b : option B) : option (A * B) :=
  match a, b with
  | Some a', Some b' => Some (a', b')
  | _, _ => None
  end.

(** The table printed under [if is_print]: the pseudo-R2 column is dropped
    for every estimator that is not a [LogisticRegression]. *)
Definition performance_table (estimator : Estimator) (scores : list scorecard)
    (score_names : list string) : Table :=
  let result_df := DataFrame_of scores score_names in
  if negb (is_class "LogisticRegression" estimator)
     && existsb (String.eqb K_PSEUDO_R2) (columns result_df)
  then drop_column K_PSEUDO_R2 result_df
  else result_df.

Definition my_classification_result (estimator : Estimator)
    (x_train : option DataFrame) (y_train : option Series)
    (x_test : option DataFrame) (y_test : option Series)
    (o : Options) : M Estimator :=
  (* scores = []; score_names = [] *)
  train <- match both x_train y_train with
           | Some (xt, yt) =>
               result <- train_scores estimator (multiclass o) xt yt ;;
               ret [("훈련데이터", result)]
           | None => ret []
           end ;;
  test <- match both x_test y_test with
          | Some (xs, ys) =>
              result <- test_scores estimator (multiclass o) xs ys ;;
              ret [("검증데이터", result)]
          | None => ret []
          end ;;
  let named := train ++ test ++ [("설명", description estimator (multiclass o))] in
  let scores := map snd named in
  let score_names := map fst named in
  when (is_print o)
    (emit (Print "[분류분석 성능평가]") ;;
     emit (PrettyTable (Transposed (performance_table estimator scores score_names)))) ;;
  (* estimator.scores = scores[-2] *)
  s <- lift (last_but_one scores) ;;
  let estimator := set_scores estimator s in
  when (conf_matrix o && is_print o)
    (emit (Print "[혼동행렬]") ;; emit (Plot "my_confusion_matrix")) ;;
  when (is_print o)
    (when (has_predict_proba estimator)
       (emit (Print "[Roc Curve]") ;; emit (Plot "my_roc_curve")) ;;
     when (learning_curve o)
       (emit (Print "[학습곡선]") ;;
        match y_train with
        | None => raise (AttributeError "name")
        | Some _ =>
            match both x_test y_test, x_train with
            | None, None => raise (AttributeError "copy")
            | _, _ => emit (Plot "my_learing_curve")
            end
        end) ;;
     when (is_class "DecisionTreeClassifier" estimator) (emit (Plot "my_tree"))) ;;
  ret estimator.

(** *** The single-model trainer *)

Definition accepts (classname : Algorithm) (name : string) : bool :=
  existsb (String.eqb name) (init_parameters classname).

(** The overrides of the search branch: a fresh [args] dict. *)
Definition search_args (classname : Algorithm) : M Params :=
  let cn := class_name classname in
  let args : Params := [] in
  args <- (if accepts classname "n_jobs"
           then emit (Print (cn ++ "의 n_jobs 설정됨")) ;;
                ret (dict_set "n_jobs" (PInt (-1)) args)
           else ret args) ;;
  args <- (if accepts classname "random_state"
           then emit (Print (cn ++ "의 random_state 설정됨")) ;;
                ret (dict_set "random_state" (PInt 1234) args)
           else ret args) ;;
  (if accepts classname "early_stopping"
   then emit (Print (cn ++ "의 early_stopping 설정됨")) ;;
        ret (dict_set "early_stopping" (PBool true) args)
   else ret args).

(** The overrides of the direct branch: written into the caller's [params]. *)
Definition direct_params (classname : Algorithm) (params : Params) : M Params :=
  params <- (if accepts classname "n_jobs"
             then ret (dict_set "n_jobs" (PInt (-1)) params)
             else emit (Print (class_name classname ++ "는 n_jobs를 허용하지 않음")) ;;
                  ret params) ;;
  (if accepts classname "random_state"
   then ret (dict_set "random_state" (PInt 1234) params)
   else emit (Print (class_name classname ++ "는 random_state를 허용하지 않음")) ;;
        ret params).

(** The model-building half of [__my_classification]: [None] is the
    [return None] of the [except] clause around the search. *)
Definition build_estimator (classname : Algorithm)
    (x_train : DataFrame) (y_train : Series) (o : Options) (params : Params)
    : M (option Estimator) :=
  if (cv o >? 0)%Z then
    args <- search_args classname ;;
    prototype_estimator <- lift (construct classname args) ;;
    emit (Print (class_name classname ++ " params")) ;;
    match randomized_search_fit prototype_estimator params (cv o) (-1) 500
            x_train y_train with
    | Raise e =>
        (* except Exception as e: print(...); return None *)
        emit (Print (class_name classname ++ "에서 에러발생")) ;;
        ret None
    | Ok grid =>
        let estimator :=
          new_estimator classname (best_estimator_ grid) (Some (best_params_ grid)) in
        when (is_print o)
          (emit (Print "[교차검증 TOP5]") ;;
           emit (PrettyTable (Plain (cv_results_ grid))) ;;
           emit (Print "[Best Params]")) ;;
        ret (Some estimator)
    end
  else
    params <- direct_params classname params ;;
    estimator <- lift (construct classname params) ;;
    f <- lift (fit estimator x_train y_train) ;;
    ret (Some (new_estimator classname f None)).

Definition or_else {A} (a : option A) (b : A) : A :=
  match a with Some a' => a' | None => b end.

Definition __my_classification (classname : Algorithm)
    (x_train : DataFrame) (y_train : Series)
    (x_test : option DataFrame) (y_test : option Series)
    (o : Options) (params : Params) : M (option Estimator) :=
  built <- build_estimator classname x_train y_train o params ;;
  match built with
  | None => ret None
  | Some estimator =>
      (* the first prediction pass: on x_test when it is given *)
      y_pred <- call_predict estimator (or_else x_test x_train) ;;
      y_pred_prob <- call_predict_proba estimator (or_else x_test x_train) ;;
      (* the attributes attached to the estimator *)
      y_pred' <- match y_test with
                 | Some _ => ret y_pred
                 | None => call_predict estimator x_train
                 end ;;
      y_pred_proba' <- match y_test with
                       | Some _ => ret y_pred_prob
                       | None => call_predict_proba estimator x_train
                       end ;;
      let estimator :=
        set_results estimator (or_else x_test x_train) (or_else y_test y_train)
          y_pred' y_pred_proba' in
      estimator <-
        match both x_test y_test with
        | Some (xs, ys) =>
            my_classification_result estimator (Some x_train) (Some y_train)
              (Some xs) (Some ys) o
        | None =>
            my_classification_result estimator (Some x_train) (Some y_train)
              None None o
        end ;;
      when (report o && is_print o)
        (my_classification_report estimator x_train y_train x_test y_test (sort o)) ;;
      ret (Some estimator)
  end.

(** *** The per-algorithm wrappers

    The hyperparameters of a wrapper are the keyword arguments it does not
    name itself, handed on with [**params]. They are taken not to hold
    [classname], which would repeat the first keyword of the trainer's call,
    nor, for the two SVM wrappers, [multiclass] or [sort], which Python would
    bind to the trainer's options; the dispatcher cannot hand on the last
    two. *)

(** [if cv > 0: if not params: params = grid] *)
Definition default_grid (o : Options) (params grid : Params) : Params :=
  if (cv o >? 0)%Z then
    match params with
    | [] => grid
    | _ => params
    end
  else params.

Definition strs (l : list string) : ParamVal := PList (map PStr l).
Definition ints (l : list Z) : ParamVal := PList (map PInt l).
Definition floats (l : list float) : ParamVal := PList (map PFloat l).

Definition my_logistic_classification x_train y_train x_test y_test
    (o : Options) (params : Params) : M (option Estimator) :=
  let params := default_grid o params
    [ ("penalty", strs ["l1"; "l2"; "elasticnet"]);
      ("C", PList [PFloat 0.001; PFloat 0.01; PFloat 0.1; PInt 1; PInt 10; PInt 100]);
      ("max_iter", ints [1000]%Z) ] in
  __my_classification LogisticRegression x_train y_train x_test y_test o params.

Definition my_knn_classification x_train y_train x_test y_test
    (o : Options) (params : Params) : M (option Estimator) :=
  let params := default_grid o params
    [ ("n_neighbors", ints [3; 5; 7]%Z);
      ("weights", strs ["uniform"; "distance"]);
      ("metric", strs ["euclidean"; "manhattan"]) ] in
  __my_classification KNeighborsClassifier x_train y_train x_test y_test o params.

(** The trainer's own defaults, for the keywords a wrapper does not forward. *)
Definition trainer_defaults (o : Options) : Options :=
  {| conf_matrix := true; cv := 5; hist := true; roc := true; pr := true;
     multiclass := None; learning_curve := true; report := false;
     figsize := figsize o; dpi := dpi o; sort := None; is_print := true |}.

(** The naive Bayes wrapper forwards everything but [conf_matrix]. *)
Definition my_nb_classification x_train y_train x_test y_test
    (o : Options) (params : Params) : M (option Estimator) :=
  let params := default_grid o params
    [ ("var_smoothing", floats [1e-9; 1e-8; 1e-7; 1e-6; 1e-5]%float) ] in
  let o' :=
    {| conf_matrix := conf_matrix (trainer_defaults o);
       cv := cv o; hist := hist o; roc := roc o; pr := pr o;
       multiclass := multiclass o; learning_curve := learning_curve o;
       report := report o; figsize := figsize o; dpi := dpi o;
       sort := sort o; is_print := is_print o |} in
  __my_classification GaussianNB x_train y_train x_test y_test o' params.

Definition my_dtree_classification x_train y_train x_test y_test
    (o : Options) (params : Params) : M (option Estimator) :=
  let params := default_grid o params
    [ ("criterion", strs ["gini"; "entropy"]) ] in
  __my_classification DecisionTreeClassifier x_train y_train x_test y_test o params.

Definition dict_del {V} (k : string) (d : dict V) : dict V :=
  filter (fun kv => negb (String.eqb (fst kv) k)) d.

(** [if "hist" in params: del(params['hist'])], and so on *)
Definition drop_display_keys (params : Params) : Params :=
  dict_del "report" (dict_del "pr" (dict_del "roc" (dict_del "hist" params))).

(** The two SVM wrappers take and forward only [conf_matrix], [cv],
    [learning_curve], [figsize], [dpi] and [is_print]: the trainer runs with
    its own defaults for the rest, [multiclass] among them. *)
Definition svm_options (o : Options) : Options :=
  {| conf_matrix := conf_matrix o; cv := cv o;
     hist := hist (trainer_defaults o); roc := roc (trainer_defaults o);
     pr := pr (trainer_defaults o); multiclass := multiclass (trainer_defaults o);
     learning_curve := learning_curve o; report := report (trainer_defaults o);
     figsize := figsize o; dpi := dpi o; sort := sort (trainer_defaults o);
     is_print := is_print o |}.

Definition my_linear_svc_classification x_train y_train x_test y_test
    (o : Options) (params : Params) : M (option Estimator) :=
  let params := drop_display_keys params in
  let params := default_grid o params
    [ ("penalty", strs ["l1"; "l2"]);
      ("loss", strs ["squared_hinge"; "hinge"]);
      ("C", PList [PFloat 0.01; PFloat 0.1; PInt 1; PInt 10]);
      ("max_iter", ints [1000]%Z);
      ("dual", PList [PBool true; PBool false]) ] in
  __my_classification LinearSVC x_train y_train x_test y_test (svm_options o) params.

Definition my_svc_classification x_train y_train x_test y_test
    (o : Options) (params : Params) : M (option Estimator) :=
  let params := drop_display_keys params in
  let params := default_grid o params
    [ ("C", PList [PFloat 0.1; PInt 1; PInt 10]);
      ("kernel", strs ["rbf"; "poly"; "sigmoid"]);
      ("degree", ints [2; 3; 4; 5]%Z) ] in
  __my_classification SVC x_train y_train x_test y_test (svm_options o) params.

Definition my_sgd_classification x_train y_train x_test y_test
    (o : Options) (params : Params) : M (option Estimator) :=
  let params := default_grid o params
    [ ("loss", strs ["hinge"; "log"; "modified_huber"]);
      ("penalty", strs ["l2"; "l1"; "elasticnet"]);
      ("alpha", floats [0.0001; 0.001; 0.01; 0.1]%float);
      ("max_iter", ints [1000; 2000; 3000; 4000; 5000]%Z);
      ("learning_rate", strs ["optimal"; "constant"; "invscaling"; "adaptive"]);
      ("eta0", floats [0.01; 0.1; 0.5]%float) ] in
  __my_classification SGDClassifier x_train y_train x_test y_test o params.

(** *** The dispatcher *)

(** A job handed to the thread pool: the algorithm identifier it was
    submitted under, the estimator class its wrapper trains, and its run. The
    jobs share nothing but the read-only inputs, so a run is the wrapper's own
    result; what a job prints stays on its future. *)
Record Future : Type := mkFuture {
  fut_id : string;
  fut_class : Algorithm;
  fut_run : M (option Estimator)
}.

(** [p.result()]: the value the job returned, or the exception it raised,
    raised again in the caller. *)
Definition fut_result (p : Future) : result (option Estimator) := outcome (fut_run p).

(** [futures.as_completed(processes)]: the iterator hands the jobs over in
    an order of its own, a parameter here; [futures_as_completed] below is
    the order CPython gives. *)
Variable as_completed : list Future -> list Future.

(** [not algorithm or id in algorithm] *)
Definition requested (algorithm : option (list string)) (id : string) : bool :=
  match algorithm with
  | None => true
  | Some [] => true
  | Some l => existsb (String.eqb id) l
  end.

Definition submit_if (algorithm : option (list string)) (p : Future)
    (processes : list Future) : list Future :=
  if requested algorithm (fut_id p) then processes ++ [p] else processes.

(** The dispatcher runs every job with [is_print=False]. *)
Definition quiet (o : Options) : Options :=
  {| conf_matrix := conf_matrix o; cv := cv o; hist := hist o; roc := roc o;
     pr := pr o; multiclass := multiclass o; learning_curve := learning_curve o;
     report := report o; figsize := figsize o; dpi := dpi o; sort := sort o;
     is_print := false |}.

(** The calls of [executor.submit] that the six tests select, in source
    order, each with the job it starts. Evaluating a call is
    [executor_submit] below. *)
Definition submitted (x_train : DataFrame) (y_train : Series)
    (x_test : option DataFrame) (y_test : option Series)
    (o : Options) (algorithm : option (list string)) (params : Params)
    : list Future :=
  let o := quiet o in
  let processes := [] in
  let processes := submit_if algorithm
    (mkFuture "logistic" LogisticRegression
       (my_logistic_classification x_train y_train x_test y_test o params)) processes in
  let processes := submit_if algorithm
    (mkFuture "knn" KNeighborsClassifier
       (my_knn_classification x_train y_train x_test y_test o params)) processes in
  let processes := submit_if algorithm
    (mkFuture "svc" SVC
       (my_svc_classification x_train y_train x_test y_test o params)) processes in
  let processes := submit_if algorithm
    (mkFuture "nb" GaussianNB
       (my_nb_classification x_train y_train x_test y_test o params)) processes in
  let processes := submit_if algorithm
    (mkFuture "dtree" DecisionTreeClassifier
       (my_dtree_classification x_train y_train x_test y_test o params)) processes in
  submit_if algorithm
    (mkFuture "sgd" SGDClassifier
       (my_sgd_classification x_train y_train x_test y_test o params)) processes.

(** A call [f(k1=v1, ..., **kwargs)] raises TypeError before [f] is entered
    when a key of [kwargs] repeats a keyword written out in the call. *)
Definition duplicate_keyword (written : list string) (kwargs : Params)
    : option string :=
  find (fun k => existsb (String.eqb k) written) (keys kwargs).

(** The keywords the dispatcher writes out in its call of [executor.submit]
    for the job of a class: the svc call leaves out [hist], [roc], [pr],
    [multiclass], [report] and [sort]. *)
Definition submit_keywords (c : Algorithm) : list string :=
  match c with
  | SVC =>
      ["x_train"; "y_train"; "x_test"; "y_test"; "conf_matrix"; "cv";
       "learning_curve"; "figsize"; "dpi"; "is_print"]
  | _ =>
      ["x_train"; "y_train"; "x_test"; "y_test"; "conf_matrix"; "cv"; "hist";
       "roc"; "pr"; "multiclass"; "learning_curve"; "report"; "figsize"; "dpi";
       "sort"; "is_print"]
  end.

Definition duplicate_keyword_error (k : string) : PyExn :=
  TypeError
    ("concurrent.futures.thread.ThreadPoolExecutor.submit() got multiple values for keyword argument '"
     ++ k ++ "'").

(** [executor.submit(wrapper, x_train=x_train, ..., is_print=False,
    **params)]: the job is handed to the pool unless [params] repeats a
    keyword of the call; [is_print], which [my_classification] does not take
    itself, is the one a caller can get there. *)
Definition executor_submit (params : Params) (p : Future) : result Future :=
  match duplicate_keyword (submit_keywords (fut_class p)) params with
  | Some k => Raise (duplicate_keyword_error k)
  | None => Ok p
  end.

(** The selected calls evaluated in source order: the first one that raises
    ends the dispatcher, whatever was submitted before it. *)
Fixpoint submit_each (params : Params) (calls : list Future)
    : result (list Future) :=
  match calls with
  | [] => Ok []
  | p :: rest =>
      match executor_submit params p with
      | Raise e => Raise e
      | Ok process =>
          match submit_each params rest with
          | Ok processes => Ok (process :: processes)
          | Raise e => Raise e
          end
      end
  end.

(** The locals the collecting loop updates. *)
Record Collected : Type := mkCollected {
  results : list scorecard;
  estimators : dict Estimator;
  estimator_names : list string
}.

Definition nothing_collected : Collected := mkCollected [] [] [].

(** One turn of [for p in futures.as_completed(processes)]. *)
Definition collect (acc : Collected) (p : Future) : result Collected :=
  match fut_result p with
  | Raise e => Raise e
  | Ok None => Ok acc
  | Ok (Some estimator) =>
      match est_scores estimator with
      | None => Raise (AttributeError "scores")
      | Some scores =>
          let n := class_name (cls estimator) in
          Ok {| estimator_names := estimator_names acc ++ [n];
                estimators := dict_set n estimator (estimators acc);
                results := results acc ++ [scores] |}
      end
  end.

Fixpoint drain (completed : list Future) (acc : Collected) : result Collected :=
  match completed with
  | [] => Ok acc
  | p :: rest =>
      match collect acc p with
      | Ok acc' => drain rest acc'
      | Raise e => Raise e
      end
  end.

(** The comparison report as the dispatcher has assembled it when its body
    ends: the mapping from class name to estimator and the table. *)
Record Report : Type := mkReport {
  mapping : dict Estimator;
  table : Table
}.

(** What a call hands back to its caller: [return estimators], the mapping
    from class name to estimator. *)
Definition Returned : Type := dict Estimator.

(** The body of [my_classification] renders the table with
    [my_pretty_table(result_df)] and ends with [return estimators]: the
    caller receives the mapping alone. The assembled report, mapping and
    table, is kept beside it for the statements about it. *)
Definition my_classification (x_train : DataFrame) (y_train : Series)
    (x_test : option DataFrame) (y_test : option Series)
    (o : Options) (algorithm : option (list string)) (params : Params)
    : M (Report * Returned) :=
  processes <- lift (submit_each params
                       (submitted x_train y_train x_test y_test o algorithm params)) ;;
  acc <- lift (drain (as_completed processes) nothing_collected) ;;
  let result_df := DataFrame_of (results acc) (estimator_names acc) in
  emit (PrettyTable (Plain result_df)) ;;
  (* return estimators *)
  ret (mkReport (estimators acc) result_df, estimators acc).

End Harness.

(** *** The order of [futures.as_completed]

    CPython's [as_completed] first collects the futures that have already
    finished into a [set] and yields them in an order that is the set's, not
    the pool's; the futures still pending are then yielded as they finish. A
    schedule says in which order the pool finishes the jobs, how many of them
    have finished when the collecting loop reaches [as_completed], and in
    which order a set of futures is walked. *)
Record Schedule : Type := mkSchedule {
  finishing : list Future -> list Future;
  finished_at_entry : nat;
  set_order : list Future -> list Future
}.

Definition yielded_first (s : Schedule) (fs : list Future) : list Future :=
  set_order s (firstn (finished_at_entry s) (finishing s fs)).

Definition yielded_as_finished (s : Schedule) (fs : list Future) : list Future :=
  skipn (finished_at_entry s) (finishing s fs).

Definition futures_as_completed (s : Schedule) (fs : list Future) : list Future :=
  yielded_first s fs ++ yielded_as_finished s fs.

(** ** A stand-in library for running the model *)

(** A small estimator and metrics library, enough to run the harness on
    concrete inputs: constructors refuse unknown keywords, fitting refuses a
    non-positive [C], searching refuses a space over unknown parameters and
    keeps the first candidate of every parameter, and the fitted model
    predicts the smallest class with uniform probabilities. *)
Module Demo.

Definition parameters (a : Algorithm) : list string :=
  match a with
  | LogisticRegression =>
      ["penalty"; "dual"; "tol"; "C"; "fit_intercept"; "class_weight";
       "random_state"; "solver"; "max_iter"; "verbose"; "warm_start"; "n_jobs";
       "l1_ratio"]
  | KNeighborsClassifier =>
      ["n_neighbors"; "weights"; "algorithm"; "leaf_size"; "p"; "metric";
       "metric_params"; "n_jobs"]
  | LinearSVC =>
      ["penalty"; "loss"; "dual"; "tol"; "C"; "fit_intercept"; "class_weight";
       "verbose"; "random_state"; "max_iter"]
  | SVC =>
      ["C"; "kernel"; "degree"; "gamma"; "coef0"; "shrinking"; "probability";
       "tol"; "class_weight"; "verbose"; "max_iter"; "random_state"]
  | GaussianNB => ["priors"; "var_smoothing"]
  | DecisionTreeClassifier =>
      ["criterion"; "splitter"; "max_depth"; "min_samples_split";
       "min_samples_leaf"; "max_features"; "random_state"; "max_leaf_nodes";
       "class_weight"; "ccp_alpha"]
  | SGDClassifier =>
      ["loss"; "penalty"; "alpha"; "l1_ratio"; "fit_intercept"; "max_iter";
       "tol"; "shuffle"; "verbose"; "n_jobs"; "random_state"; "learning_rate";
       "eta0"; "early_stopping"; "class_weight"; "warm_start"]
  end.

Definition known (a : Algorithm) (params : Params) : bool :=
  forallb (fun k => existsb (String.eqb k) (parameters a)) (keys params).

Definition demo_construct (a : Algorithm) (params : Params) : result Prototype :=
  if known a params then Ok (mkPrototype a params)
  else Raise (TypeError "got an unexpected keyword argument").

Definition bad_C (params : Params) : bool :=
  match dict_get "C" params with
  | Some (PInt z) => (z <=? 0)%Z
  | Some (PFloat f) => PrimFloat.leb f 0
  | _ => false
  end.

Definition with_proba (p : Prototype) : bool :=
  match proto_class p with
  | LogisticRegression | KNeighborsClassifier | GaussianNB
  | DecisionTreeClassifier => true
  | SVC =>
      match dict_get "probability" (proto_params p) with
      | Some (PBool true) => true
      | _ => false
      end
  | LinearSVC | SGDClassifier => false
  end.

Definition demo_model (p : Prototype) (y : Series) : Fitted :=
  let classes := unique_labels y [] in
  let k := int64_to_float (Z.of_nat (List.length classes)) in
  {| classes_ := classes;
     predict := fun x => map (fun _ => hd 0%Z classes) x;
     predict_proba :=
       if with_proba p
       then Some (fun x => map (fun _ => map (fun _ => PrimFloat.div one k) classes) x)
       else None |}.

Definition demo_fit (p : Prototype) (x : DataFrame) (y : Series) : result Fitted :=
  if bad_C (proto_params p)
  then Raise (ValueError "The C parameter must be a float in the range (0.0, inf)")
  else Ok (demo_model p y).

Definition first_candidate (kv : string * ParamVal) : string * ParamVal :=
  match kv with
  | (k, PList (v :: _)) => (k, v)
  | _ => kv
  end.

Definition demo_search (p : Prototype) (space : Params) (cv n_jobs n_iter : Z)
    (x : DataFrame) (y : Series) : result SearchResult :=
  let candidate :=
    mkPrototype (proto_class p) (proto_params p ++ map first_candidate space) in
  if negb (known (proto_class p) space)
  then Raise (ValueError "Invalid parameter for estimator")
  else if bad_C (proto_params candidate)
  then Raise (ValueError "All the fits failed")
  else Ok {| best_estimator_ := demo_model candidate y;
             best_params_ := map first_candidate space;
             cv_results_ := mkTable [] [] [] |}.

#[export] Instance sklearn : EstimatorLibrary :=
  {| init_parameters := parameters;
     construct := demo_construct;
     fit := demo_fit;
     randomized_search_fit := demo_search |}.

(** Metrics computed from counts; the loss is an absolute error, standing
    in for the logarithm that binary64 arithmetic does not offer here. *)
Definition count_eq (z : Z) (l : Series) : Z :=
  Z.of_nat (List.length (filter (Z.eqb z) l)).

Definition ratio (a b : Z) : float :=
  if (b =? 0)%Z then 0%float else np_true_divide a b.

Definition fsum (l : list float) : float := fold_right PrimFloat.add 0%float l.

Definition averaged (avg : Average) (y p : Series)
    (num den : Z -> Z) : float :=
  let labels := unique_labels y p in
  match avg with
  | Binary => ratio (num 1%Z) (den 1%Z)
  | Micro =>
      ratio (fold_right Z.add 0%Z (map num labels))
            (fold_right Z.add 0%Z (map den labels))
  | Macro =>
      PrimFloat.div (fsum (map (fun l => ratio (num l) (den l)) labels))
                    (int64_to_float (Z.of_nat (List.length labels)))
  end.

Definition demo_accuracy (y p : Series) : float :=
  ratio (Z.of_nat (List.length (filter (fun tp => (fst tp =? snd tp)%Z) (combine y p))))
        (Z.of_nat (List.length y)).

Definition demo_precision (y p : Series) (avg : Average) : float :=
  averaged avg y p (fun l => count_pairs y p l l) (fun l => count_eq l p).

Definition demo_recall (y p : Series) (avg : Average) : float :=
  averaged avg y p (fun l => count_pairs y p l l) (fun l => count_eq l y).

Definition demo_f1 (y p : Series) (avg : Average) : float :=
  averaged avg y p (fun l => (2 * count_pairs y p l l)%Z)
                   (fun l => (count_eq l p + count_eq l y)%Z).

Definition scores_of (a : ndarray) : list float :=
  match a with
  | Arr1 v => v
  | Arr2 m => map (fun row => nth 1 row 0%float) m
  end.

Definition demo_loss (y : Series) (a : ndarray) (normalize : bool) : float :=
  let total :=
    fsum (map (fun ys => PrimFloat.abs (PrimFloat.sub (int64_to_float (fst ys)) (snd ys)))
              (combine y (scores_of a))) in
  if normalize then PrimFloat.div total (int64_to_float (Z.of_nat (List.length y)))
  else total.

Definition demo_mean (y : Series) : float :=
  np_true_divide (fold_right Z.add 0%Z y) (Z.of_nat (List.length y)).

#[export] Instance metrics : MetricsLibrary :=
  {| accuracy_score := demo_accuracy;
     precision_score := demo_precision;
     recall_score := demo_recall;
     f1_score := demo_f1;
     log_loss := demo_loss;
     roc_auc_score := fun _ _ _ _ => 0.5%float;
     series_mean := demo_mean |}.

Definition coefficient_report (e : Estimator) (x_train : DataFrame)
    (y_train : Series) (x_test : option DataFrame) (y_test : option Series)
    (sort : option string) : M unit :=
  emit (Plot "my_classification_report").

(** Two orders: as submitted, or the other way round. *)
Definition fifo (ps : list Future) : list Future := ps.
Definition lifo (ps : list Future) : list Future := rev ps.

(** Two schedules of the pool. In the first the job submitted last finishes
    first and none has finished when the collecting loop starts. In the second
    the jobs finish in submission order, two of them before the collecting
    loop starts, and a set hands its members over last one first. *)
Definition last_in_first_out : Schedule := mkSchedule lifo 0 fifo.
Definition two_finished_early : Schedule := mkSchedule fifo 2 lifo.

(** The dispatcher's own defaults. *)
Definition defaults : Options :=
  {| conf_matrix := true; cv := 5; hist := false; roc := false; pr := false;
     multiclass := None; learning_curve := false; report := false;
     figsize := (10, 5)%Z; dpi := 100; sort := None; is_print := true |}.

Definition with_cv (n : Z) (o : Options) : Options :=
  {| conf_matrix := conf_matrix o; cv := n; hist := hist o; roc := roc o;
     pr := pr o; multiclass := multiclass o; learning_curve := learning_curve o;
     report := report o; figsize := figsize o; dpi := dpi o; sort := sort o;
     is_print := is_print o |}.

Definition with_multiclass (m : option string) (o : Options) : Options :=
  {| conf_matrix := conf_matrix o; cv := cv o; hist := hist o; roc := roc o;
     pr := pr o; multiclass := m; learning_curve := learning_curve o;
     report := report o; figsize := figsize o; dpi := dpi o; sort := sort o;
     is_print := is_print o |}.

(** Four samples of two features, two classes; and six samples, three
    classes. *)
Definition x4 : DataFrame :=
  [[0.0; 1.0]; [1.0; 0.0]; [1.0; 1.0]; [0.0; 0.0]]%float.
Definition y4 : Series := [0; 1; 1; 0]%Z.
Definition x6 : DataFrame :=
  [[0.0; 1.0]; [1.0; 0.0]; [1.0; 1.0]; [0.0; 0.0]; [2.0; 1.0]; [1.0; 2.0]]%float.
Definition y6 : Series := [0; 1; 2; 0; 1; 2]%Z.

Definition run : DataFrame -> Series -> option DataFrame -> option Series ->
    Options -> option (list string) -> Params -> M (Report * Returned) :=
  my_classification coefficient_report fifo.

(** The report a run assembled; empty when the run raised. *)
Definition report_of (r : M (Report * Returned)) : Report :=
  match outcome r with
  | Ok (rep, _) => rep
  | Raise _ => mkReport [] (mkTable [] [] [])
  end.

(** A fitted binary model without [predict_proba] that predicts the
    positive class for every sample, and one that predicts the negative
    class for the first sample only. *)
Definition always_positive : Fitted :=
  {| classes_ := [0; 1]%Z;
     predict := fun x => map (fun _ => 1%Z) x;
     predict_proba := None |}.

Definition negative_first : Fitted :=
  {| classes_ := [0; 1]%Z;
     predict := fun x => match x with
                         | [] => []
                         | _ :: rest => 0%Z :: map (fun _ => 1%Z) rest
                         end;
     predict_proba := None |}.

(** Estimators fitted without a search on the two sample problems. *)
Definition logistic4 : Estimator :=
  new_estimator LogisticRegression
    (demo_model (mkPrototype LogisticRegression []) y4) None.
Definition logistic6 : Estimator :=
  new_estimator LogisticRegression
    (demo_model (mkPrototype LogisticRegression []) y6) None.

(** The logistic job of the dispatcher on the three-class problem. *)
Definition logistic_job (o : Options) : Future :=
  mkFuture "logistic" LogisticRegression
    (my_logistic_classification coefficient_report x6 y6 None None (quiet o) []).

End Demo.

(** ** The vocabulary of the statements *)

(** The probabilities a split works with, without the event log. *)
Definition proba_1 (e : Estimator) (x : DataFrame)
    : result (option (Proba * list float)) :=
  match predict_proba (fitted e) with
  | Some pp =>
      match column_1 (pp x) with
      | Ok p1 => Ok (Some (pp x, p1))
      | Raise ex => Raise ex
      end
  | None => Ok None
  end.

(** The tables handed to [my_pretty_table], in order. *)
Definition displayed (l : list Event) : list Rendered :=
  flat_map (fun ev => match ev with PrettyTable t => [t] | _ => [] end) l.

(** A computation that hands no table to the console. *)
Definition tableless {A} (m : M A) : Prop := displayed (log m) = [].

(** The split whose scorecard ends up in [scores[-2]]: the validation split
    when both validation features and labels are given, the training split
    otherwise. *)
Definition stored_split (x_train : DataFrame) (y_train : Series)
    (x_test : option DataFrame) (y_test : option Series) : DataFrame * Series :=
  match both x_test y_test with
  | Some xy => xy
  | None => (x_train, y_train)
  end.

Definition binary_keys : list string :=
  [K_PSEUDO_R2; K_ACCURACY; K_PRECISION; K_RECALL; K_FALLOUT; K_TNR; K_F1].

(** The prediction passes of a run, in order. *)
Definition is_prediction (ev : Event) : bool :=
  match ev with
  | Predict _ | PredictProba _ => true
  | _ => false
  end.

Definition predictions (l : list Event) : list Event := filter is_prediction l.

(** The attributes the trainer attaches before it scores the estimator. *)
Definition attached (c : Algorithm) (f : Fitted) (bp : option Params)
    (xt : DataFrame) (yt : Series)
    (x_test : option DataFrame) (y_test : option Series) : Estimator :=
  set_results (new_estimator c f bp) (or_else x_test xt) (or_else y_test yt)
    (match y_test with
     | Some _ => predict f (or_else x_test xt)
     | None => predict f xt
     end)
    (match y_test with
     | Some _ => option_map (fun pp => pp (or_else x_test xt)) (predict_proba f)
     | None => option_map (fun pp => pp xt) (predict_proba f)
     end).

(** The estimators the jobs returned, in the order the iterator handed the
    jobs over. *)
Definition returned_estimators (completed : list Future) : list Estimator :=
  flat_map (fun p => match fut_result p with
                     | Ok (Some e) => [e]
                     | _ => []
                     end) completed.

(** A job succeeded when it returned an estimator. *)
Definition succeeded (p : Future) : bool :=
  match fut_result p with
  | Ok (Some _) => true
  | _ => false
  end.

Definition name_of (e : Estimator) : string := class_name (cls e).

Definition insert_all (es : list Estimator) (d : dict Estimator) : dict Estimator :=
  fold_left (fun d e => dict_set (name_of e) e d) es d.

Definition stored_scores (es : list Estimator) : list scorecard :=
  flat_map (fun e => match est_scores e with Some s => [s] | None => [] end) es.

(** The identifiers the dispatcher recognizes, with the class each trains. *)
Definition job_table : list (string * Algorithm) :=
  [ ("logistic", LogisticRegression); ("knn", KNeighborsClassifier);
    ("svc", SVC); ("nb", GaussianNB); ("dtree", DecisionTreeClassifier);
    ("sgd", SGDClassifier) ].

(** The selector a dispatched job runs with: the SVC wrapper takes no
    [multiclass] keyword, so its trainer keeps the default [None]. *)
Definition job_selector (c : Algorithm) (o : Options) : option string :=
  match c with
  | SVC => None
  | _ => multiclass o
  end.

(** The key set the scenario expects of a scorecard: the six rates, and
    AUC for the logistic model only. *)
Definition scenario_keys (c : Algorithm) : list string :=
  [K_ACCURACY; K_PRECISION; K_RECALL; K_FALLOUT; K_TNR; K_F1]
    ++ match c with
       | LogisticRegression => [K_AUC]
       | _ => []
       end.

Definition stored_keys (rep : Report) (name : string) : option (list string) :=
  match dict_get name (mapping rep) with
  | Some e => option_map (@keys pyval) (est_scores e)
  | None => None
  end.

Section Vocabulary.

Context {ML : MetricsLibrary}.

(** The four entries every multi-class scorecard starts with, by the
    averaging of its recall. *)
Definition multiclass_entries (recall_avg : Average) (y y_pred : Series) : scorecard :=
  [ (K_ACCURACY, PyFloat (accuracy_score y y_pred));
    (K_PRECISION, PyFloat (precision_score y y_pred Macro));
    (K_RECALL, PyFloat (recall_score y y_pred recall_avg));
    (K_F1, PyFloat (f1_score y y_pred Macro)) ].

(** What a split's scorecard is, whenever the split returns one. *)
Definition split_scorecard (recall_avg : Average) (e : Estimator)
    (multiclass : option string) (x : DataFrame) (y : Series)
    (var : string) (s : scorecard) : Prop :=
  exists proba pseudo,
    proba_1 e x = Ok proba /\
    outcome (pseudo_r2 e y proba var) = Ok pseudo /\
    ((is_binary e = true /\
      exists TN FP FN TP,
        confusion_matrix y (predict (fitted e) x) = Ok [[TN; FP]; [FN; TP]] /\
        s = binary_result pseudo y (predict (fitted e) x) FP TN proba)
     \/
     (is_binary e = false /\
      s = multiclass_auc multiclass y proba
            (multiclass_entries recall_avg y (predict (fitted e) x)))).

(** The scorecards of a run of the reporter, in the order of [scores]. *)
Definition reporter_scores (e : Estimator) (multiclass : option string)
    (xt : DataFrame) (yt : Series) (x_test : option DataFrame)
    (y_test : option Series) (named : list (string * scorecard)) : Prop :=
  exists s_train,
    outcome (train_scores e multiclass xt yt) = Ok s_train /\
    match both x_test y_test with
    | Some (xs, ys) =>
        exists s_test,
          outcome (test_scores e multiclass xs ys) = Ok s_test /\
          named = [("훈련데이터", s_train); ("검증데이터", s_test)]
    | None => named = [("훈련데이터", s_train)]
    end.

(** The value computed for the pseudo-R2 of a binary split. *)
Definition pseudo_r2_value (y : Series) (p : Proba) : pyval :=
  PyFloat
    (PrimFloat.sub one
       (PrimFloat.div (log_loss y (Arr2 p) false)
          (log_loss y (Arr1 (ones_like_times y (series_mean y))) false))).

End Vocabulary.

(** ** More vocabulary *)

(** An event that renders something: a table or a plot. *)
Definition is_rendering (ev : Event) : bool :=
  match ev with
  | PrettyTable _ | Plot _ => true
  | _ => false
  end.

(** The data the attached predictions are computed on. *)
Definition attached_input (x_train : DataFrame)
    (x_test : option DataFrame) (y_test : option Series) : DataFrame :=
  match y_test with
  | Some _ => or_else x_test x_train
  | None => x_train
  end.

(** The keys of a multi-class scorecard under a selector. *)
Definition multiclass_keys (has_proba : bool) (multiclass : option string)
    : list string :=
  [K_ACCURACY; K_PRECISION; K_RECALL; K_F1]
    ++ (if has_proba
        then (if selects "ovo" multiclass then [K_AUC_OVO] else [])
               ++ (if selects "ovr" multiclass then [K_AUC_OVR] else [])
        else []).

(** A computation that renders neither a table nor a plot. *)
Definition silent {A} (m : M A) : Prop := filter is_rendering (log m) = [].

(** The exception of the first job that raised, in the order the iterator
    handed the jobs over. *)
Fixpoint first_failure (completed : list Future) : option PyExn :=
  match completed with
  | [] => None
  | p :: rest =>
      match fut_result p with
      | Raise ex => Some ex
      | Ok _ => first_failure rest
      end
  end.

(** The scorecard a report's mapping holds under a row label. *)
Definition mapped_scores (rep : Report) (name : string) : option scorecard :=
  match dict_get name (mapping rep) with
  | Some e => est_scores e
  | None => None
  end.

(** The hyperparameters a wrapper hands to the trainer when there is no
    search: the caller's, less the display keywords for the SVM wrappers. *)
Definition job_params (c : Algorithm) (params : Params) : Params :=
  match c with
  | SVC | LinearSVC => drop_display_keys params
  | _ => params
  end.

(** The keywords the SVM wrappers delete from their hyperparameters. *)
Definition display_keyword (k : string) : bool :=
  existsb (String.eqb k) ["hist"; "roc"; "pr"; "report"].

(** One round of predictions on a data set: [predict], then [predict_proba]
    when the estimator has it. *)
Definition pass (e : Estimator) (x : DataFrame) : list Event :=
  Predict x :: (if has_predict_proba e then [PredictProba x] else []).

(** * Facts *)

(** ** Floating point *)

(** Negating both operands of a float division changes nothing, NaN and
    signed zeros included. *)
Lemma div_opp_opp (a b : float) :
  PrimFloat.div (PrimFloat.opp a) (PrimFloat.opp b) = PrimFloat.div a b.
Proof.
  apply Prim2SF_inj.
  rewrite !FloatAxioms.div_spec, !FloatAxioms.opp_spec.
  destruct (Prim2SF a) as [sa|sa| |sa ma ea], (Prim2SF b) as [sb|sb| |sb mb eb];
    simpl; try reflexivity; destruct sa, sb; reflexivity.
Qed.

Example zero_over_zero : np_true_divide 0 0 = nan.
Proof. reflexivity. Qed.

Example one_minus_nan : PrimFloat.sub one nan = nan.
Proof. reflexivity. Qed.

(** ** The effect monad *)

Lemma outcome_bind {A B} (m : M A) (f : A -> M B) :
  outcome (bind m f) =
  match outcome m with
  | Ok a => outcome (f a)
  | Raise e => Raise e
  end.
Proof.
  destruct m as [l [a|e]]; simpl; [destruct (f a); reflexivity | reflexivity].
Qed.

Lemma log_bind {A B} (m : M A) (f : A -> M B) :
  log (bind m f) =
  log m ++ match outcome m with
           | Ok a => log (f a)
           | Raise _ => []
           end.
Proof.
  destruct m as [l [a|e]]; simpl;
    [destruct (f a); reflexivity | symmetry; apply app_nil_r].
Qed.

Lemma outcome_when (b : bool) (m : M unit) :
  outcome (when b m) = if b then outcome m else Ok tt.
Proof. destruct b; reflexivity. Qed.

(** Splitting a run that returned normally at its first step. *)
Lemma bind_returns {A B} (m : M A) (f : A -> M B) (b : B) :
  outcome (bind m f) = Ok b ->
  exists a, outcome m = Ok a /\ outcome (f a) = Ok b.
Proof.
  rewrite outcome_bind. destruct (outcome m) as [a|e]; [eauto | discriminate].
Qed.

Ltac split_run H :=
  let a := fresh "a" in
  let Ha := fresh "Ha" in
  apply bind_returns in H; destruct H as (a & Ha & H).

(** ** Dicts *)

Lemma dict_get_set_other {V} (k k' : string) (v : V) (d : dict V) :
  String.eqb k k' = false -> dict_get k (dict_set k' v d) = dict_get k d.
Proof.
  intros Hk. induction d as [|[k0 v0] d IH]; simpl.
  - rewrite Hk. reflexivity.
  - destruct (String.eqb_spec k' k0) as [->|Hne]; simpl.
    + rewrite Hk. reflexivity.
    + rewrite IH. reflexivity.
Qed.

Lemma dict_get_set_same {V} (k : string) (v : V) (d : dict V) :
  dict_get k (dict_set k v d) = Some v.
Proof.
  induction d as [|[k0 v0] d IH]; simpl.
  - rewrite String.eqb_refl. reflexivity.
  - destruct (String.eqb_spec k k0) as [->|Hne]; simpl.
    + rewrite String.eqb_refl. reflexivity.
    + destruct (String.eqb_spec k k0); [contradiction | exact IH].
Qed.

Lemma keys_dict_set {V} (k : string) (v : V) (d : dict V) :
  keys (dict_set k v d) = if dict_has k d then keys d else keys d ++ [k].
Proof.
  unfold dict_has, keys. induction d as [|[k0 v0] d IH]; simpl.
  - reflexivity.
  - destruct (String.eqb k k0); simpl.
    + reflexivity.
    + rewrite IH. destruct (existsb (String.eqb k) (map fst d)); reflexivity.
Qed.

Lemma dict_has_In {V} (k : string) (d : dict V) :
  dict_has k d = true <-> In k (keys d).
Proof.
  unfold dict_has. rewrite existsb_exists. split.
  - intros (x & Hx & E). apply String.eqb_eq in E. subst. exact Hx.
  - intros H. exists k. split; [exact H | apply String.eqb_refl].
Qed.

Lemma dict_get_None {V} (k : string) (d : dict V) :
  ~ In k (keys d) -> dict_get k d = None.
Proof.
  induction d as [|[k0 v0] d IH]; simpl; intros H.
  - reflexivity.
  - destruct (String.eqb_spec k k0) as [->|Hne].
    + exfalso. apply H. left. reflexivity.
    + apply IH. intros Hin. apply H. right. exact Hin.
Qed.

(** ** The metric reporter *)

Lemma outcome_call_predict (e : Estimator) (x : DataFrame) :
  outcome (call_predict e x) = Ok (predict (fitted e) x).
Proof. reflexivity. Qed.

Lemma outcome_call_predict_proba (e : Estimator) (x : DataFrame) :
  outcome (call_predict_proba e x) =
  Ok (option_map (fun pp => pp x) (predict_proba (fitted e))).
Proof. unfold call_predict_proba. destruct (predict_proba (fitted e)); reflexivity. Qed.

Lemma outcome_call_predict_proba_1 (e : Estimator) (x : DataFrame) :
  outcome (call_predict_proba_1 e x) = proba_1 e x.
Proof.
  unfold call_predict_proba_1, call_predict_proba, proba_1.
  destruct (predict_proba (fitted e)) as [pp|]; simpl; [|reflexivity].
  destruct (column_1 (pp x)); reflexivity.
Qed.

Section ReporterFacts.

Context {ML : MetricsLibrary}.

Lemma unpack_2x2_Ok (m : list (list Z)) (TN FP FN TP : Z) :
  unpack_2x2 m = Ok (TN, FP, FN, TP) -> m = [[TN; FP]; [FN; TP]].
Proof.
  destruct m as [|[|a [|b [|? ?]]] [|[|c [|d [|? ?]]] [|? ?]]]; simpl;
    intros H; try discriminate.
  injection H as <- <- <- <-. reflexivity.
Qed.

Lemma train_scores_inv e multiclass x y s :
  outcome (train_scores e multiclass x y) = Ok s ->
  split_scorecard Micro e multiclass x y "y_train_pred_proba" s.
Proof.
  unfold train_scores. intros H.
  split_run H. rewrite outcome_call_predict in Ha. injection Ha as <-.
  split_run H. rewrite outcome_call_predict_proba_1 in Ha.
  split_run H. split_run H. simpl in Ha1.
  exists a, a0. split; [exact Ha | split; [exact Ha0 |]].
  destruct (is_binary e) eqn:B.
  - left. split; [reflexivity|].
    split_run H. destruct a2 as [[[TN FP] FN] TP]. simpl in Ha2.
    apply unpack_2x2_Ok in Ha2. subst a1.
    exists TN, FP, FN, TP. split; [exact Ha1 |].
    simpl in H. injection H as <-. reflexivity.
  - right. split; [reflexivity|].
    simpl in H. injection H as <-. reflexivity.
Qed.

Lemma test_scores_inv e multiclass x y s :
  outcome (test_scores e multiclass x y) = Ok s ->
  split_scorecard Macro e multiclass x y "y_test_pred_proba" s.
Proof.
  unfold test_scores. intros H.
  split_run H. rewrite outcome_call_predict in Ha. injection Ha as <-.
  split_run H. rewrite outcome_call_predict_proba_1 in Ha.
  split_run H. split_run H. simpl in Ha1.
  exists a, a0. split; [exact Ha | split; [exact Ha0 |]].
  destruct (is_binary e) eqn:B.
  - left. split; [reflexivity|].
    split_run H. destruct a2 as [[[TN FP] FN] TP]. simpl in Ha2.
    apply unpack_2x2_Ok in Ha2. subst a1.
    exists TN, FP, FN, TP. split; [exact Ha1 |].
    simpl in H. injection H as <-. reflexivity.
  - right. split; [reflexivity|].
    simpl in H. injection H as <-. reflexivity.
Qed.

End ReporterFacts.

(** ** Tables *)

Lemma add_new_In (k : string) (ks seen : list string) :
  In k (add_new seen ks) <-> In k seen \/ In k ks.
Proof.
  revert seen. induction ks as [|k0 ks IH]; intros seen; simpl.
  - tauto.
  - destruct (existsb (String.eqb k0) seen) eqn:E.
    + rewrite IH. apply existsb_exists in E. destruct E as (x & Hx & E).
      apply String.eqb_eq in E. subst x.
      split; [tauto | intros [H|[<-|H]]; auto].
    + rewrite IH, in_app_iff. simpl. tauto.
Qed.

Lemma union_keys_from (k : string) (records : list scorecard) (seen : list string) :
  In k (fold_left (fun seen r => add_new seen (keys r)) records seen) <->
  In k seen \/ exists r, In r records /\ In k (keys r).
Proof.
  revert seen. induction records as [|r records IH]; intros seen; simpl.
  - split; [tauto | intros [H|(r & [] & _)]; exact H].
  - rewrite IH, add_new_In. split.
    + intros [[H|H]|(r' & Hr & Hk)]; eauto.
    + intros [H|(r' & [<-|Hr] & Hk)]; eauto.
Qed.

Lemma union_keys_In (k : string) (records : list scorecard) :
  In k (union_keys records) <-> exists r, In r records /\ In k (keys r).
Proof.
  unfold union_keys. rewrite union_keys_from. simpl. tauto.
Qed.

Lemma drop_column_In (k c : string) (t : Table) :
  In k (columns (drop_column c t)) <-> In k (columns t) /\ k <> c.
Proof.
  simpl. rewrite filter_In, negb_true_iff.
  destruct (String.eqb_spec k c); split; intros [H1 H2]; split;
    auto; congruence.
Qed.

(** ** What a run displayed *)

Lemma displayed_app (l1 l2 : list Event) :
  displayed (l1 ++ l2) = displayed l1 ++ displayed l2.
Proof. apply flat_map_app. Qed.

Lemma tableless_bind {A B} (m : M A) (f : A -> M B) :
  tableless m -> (forall a, tableless (f a)) -> tableless (bind m f).
Proof.
  unfold tableless. intros Hm Hf. rewrite log_bind, displayed_app, Hm.
  destruct (outcome m); [apply Hf | reflexivity].
Qed.

Lemma tableless_when (b : bool) (m : M unit) :
  tableless m -> tableless (when b m).
Proof. destruct b; [auto | reflexivity]. Qed.

Lemma tableless_lift {A} (r : result A) : tableless (lift r).
Proof. reflexivity. Qed.

Lemma tableless_ret {A} (a : A) : tableless (ret a).
Proof. reflexivity. Qed.

Lemma tableless_raise {A} (e : PyExn) : tableless (@raise A e).
Proof. reflexivity. Qed.

Lemma tableless_call_predict e x : tableless (call_predict e x).
Proof. reflexivity. Qed.

Lemma tableless_call_predict_proba e x : tableless (call_predict_proba e x).
Proof. unfold call_predict_proba. destruct (predict_proba (fitted e)); reflexivity. Qed.

Lemma tableless_call_predict_proba_1 e x : tableless (call_predict_proba_1 e x).
Proof.
  unfold call_predict_proba_1. apply tableless_bind.
  - apply tableless_call_predict_proba.
  - intros [p|]; [|reflexivity].
    apply tableless_bind; [apply tableless_lift | intros; reflexivity].
Qed.

Create HintDb tableless.
#[export] Hint Resolve tableless_when tableless_lift tableless_ret tableless_raise
  tableless_call_predict tableless_call_predict_proba
  tableless_call_predict_proba_1 : tableless.

Lemma tableless_pseudo_r2 `{MetricsLibrary} e y proba var :
  tableless (pseudo_r2 e y proba var).
Proof.
  unfold pseudo_r2.
  destruct (is_binary e && is_class "LogisticRegression" e);
    [destruct proba as [[? ?]|] |]; reflexivity.
Qed.

Lemma tableless_train_scores `{MetricsLibrary} e multiclass x y :
  tableless (train_scores e multiclass x y).
Proof.
  unfold train_scores.
  apply tableless_bind; [auto with tableless | intros].
  apply tableless_bind; [auto with tableless | intros].
  apply tableless_bind; [apply tableless_pseudo_r2 | intros].
  apply tableless_bind; [auto with tableless | intros].
  destruct (is_binary e); [|reflexivity].
  apply tableless_bind; [auto with tableless | intros [[[? ?] ?] ?]; reflexivity].
Qed.

Lemma tableless_test_scores `{MetricsLibrary} e multiclass x y :
  tableless (test_scores e multiclass x y).
Proof.
  unfold test_scores.
  apply tableless_bind; [auto with tableless | intros].
  apply tableless_bind; [auto with tableless | intros].
  apply tableless_bind; [apply tableless_pseudo_r2 | intros].
  apply tableless_bind; [auto with tableless | intros].
  destruct (is_binary e); [|reflexivity].
  apply tableless_bind; [auto with tableless | intros [[[? ?] ?] ?]; reflexivity].
Qed.

(** Splitting a run that returned normally, log included. *)
Lemma bind_inv {A B} (m : M A) (f : A -> M B) (l : list Event) (b : B) :
  bind m f = (l, Ok b) ->
  exists l1 a l2, m = (l1, Ok a) /\ f a = (l2, Ok b) /\ l = l1 ++ l2.
Proof.
  destruct m as [l1 [a|e]]; simpl; [|discriminate].
  destruct (f a) as [l2 r] eqn:E. intros H. injection H as <- ->.
  exists l1, a, l2. auto.
Qed.

Lemma run_parts {A} (m : M A) (l : list Event) (r : result A) :
  m = (l, r) -> log m = l /\ outcome m = r.
Proof. intros ->. split; reflexivity. Qed.

Section ReporterRun.

Context {ML : MetricsLibrary}.

Lemma reporter_inv e xt yt x_test y_test o l e' :
  my_classification_result e (Some xt) (Some yt) x_test y_test o = (l, Ok e') ->
  exists named s,
    reporter_scores e (multiclass o) xt yt x_test y_test named /\
    last (map snd named) [] = s /\
    e' = set_scores e s /\
    displayed l =
      if is_print o
      then [Transposed (performance_table e
              (map snd (named ++ [("설명", description e (multiclass o))]))
              (map fst (named ++ [("설명", description e (multiclass o))])))]
      else [].
Proof.
  unfold my_classification_result. simpl both at 1. intros H.
  apply bind_inv in H. destruct H as (l1 & train & l2 & Htrain & H & ->).
  apply bind_inv in Htrain. destruct Htrain as (l1a & s_train & l1b & Hs & Hret & ->).
  injection Hret as <- <-.
  apply run_parts in Hs. destruct Hs as [Hl1 Hs].
  apply bind_inv in H. destruct H as (l3 & test & l4 & Htest & H & ->).
  assert (Ht : displayed l3 = [] /\
               match both x_test y_test with
               | Some (xs, ys) =>
                   exists s_test,
                     outcome (test_scores e (multiclass o) xs ys) = Ok s_test /\
                     test = [("검증데이터", s_test)]
               | None => test = []
               end).
  { destruct (both x_test y_test) as [[xs ys]|].
    - apply bind_inv in Htest. destruct Htest as (la & s_test & lb & Hs' & Hret & ->).
      injection Hret as <- <-. apply run_parts in Hs'. destruct Hs' as [Hl Hs'].
      split.
      + rewrite app_nil_r, <- Hl. apply tableless_test_scores.
      + exists s_test. auto.
    - injection Htest as <- <-. auto. }
  destruct Ht as [Hl3 Ht]. clear Htest.
  apply bind_inv in H. destruct H as (l5 & u & l6 & Hprint & H & ->).
  apply bind_inv in H. destruct H as (l7 & s & l8 & Hlast & H & ->).
  injection Hlast as <- Hlast.
  apply bind_inv in H. destruct H as (l9 & u1 & l10 & Hconf & H & ->).
  apply bind_inv in H. destruct H as (l11 & u2 & l12 & Hcurves & H & ->).
  injection H as <- <-.
  exists ([("훈련데이터", s_train)] ++ test), s.
  split; [|split; [|split]].
  - exists s_train. split; [exact Hs|].
    destruct (both x_test y_test) as [[xs ys]|].
    + destruct Ht as (s_test & Hst & ->). exists s_test. auto.
    + subst test. reflexivity.
  - destruct (both x_test y_test) as [[xs ys]|].
    + destruct Ht as (s_test & Hst & ->).
      unfold last_but_one in Hlast. simpl in *. congruence.
    + subst test. unfold last_but_one in Hlast. simpl in *. congruence.
  - reflexivity.
  - rewrite !displayed_app, Hl3.
    assert (E1 : displayed l1a = []).
    { rewrite <- Hl1. apply tableless_train_scores. }
    rewrite E1. simpl.
    assert (E9 : displayed l9 = []).
    { apply run_parts in Hconf. destruct Hconf as [<- _].
      destruct (conf_matrix o && is_print o); reflexivity. }
    assert (E11 : displayed l11 = []).
    { apply run_parts in Hcurves. destruct Hcurves as [<- _].
      apply tableless_when.
      apply tableless_bind; [apply tableless_when; reflexivity | intros].
      apply tableless_bind.
      - apply tableless_when.
        apply tableless_bind; [reflexivity | intros].
        destruct (both x_test y_test); reflexivity.
      - intros. apply tableless_when. reflexivity. }
    rewrite E9, E11, app_nil_r.
    apply run_parts in Hprint. destruct Hprint as [<- _].
    destruct (is_print o); reflexivity.
Qed.

End ReporterRun.

(** ** Multi-class scorecards *)

Section MulticlassFacts.

Context {ML : MetricsLibrary}.

Lemma more_than_two_classes (e : Estimator) :
  (2 < List.length (classes_ (fitted e)))%nat -> is_binary e = false.
Proof. unfold is_binary. intros H. apply Nat.eqb_neq. lia. Qed.

Lemma pseudo_r2_multiclass e y proba var :
  is_binary e = false -> pseudo_r2 e y proba var = ret (PyInt 0).
Proof. unfold pseudo_r2. intros ->. reflexivity. Qed.

Lemma confusion_matrix_returns (y p : Series) :
  List.length y = List.length p -> exists m, confusion_matrix y p = Ok m.
Proof.
  unfold confusion_matrix. intros ->. rewrite Nat.eqb_refl. eauto.
Qed.

(** A multi-class split returns its scorecard whenever the library hands
    back one prediction per sample and at least two probability columns. *)
Lemma multiclass_train_returns e multiclass x y proba :
  is_binary e = false ->
  List.length y = List.length (predict (fitted e) x) ->
  proba_1 e x = Ok proba ->
  outcome (train_scores e multiclass x y) =
  Ok (multiclass_auc multiclass y proba
        (multiclass_entries Micro y (predict (fitted e) x))).
Proof.
  intros B L P. unfold train_scores.
  rewrite outcome_bind, outcome_call_predict.
  rewrite outcome_bind, outcome_call_predict_proba_1, P.
  rewrite pseudo_r2_multiclass by exact B.
  rewrite outcome_bind. simpl outcome at 1. cbv iota.
  destruct (confusion_matrix_returns _ _ L) as (m & Hm).
  rewrite outcome_bind, Hm. simpl outcome at 1. cbv iota.
  rewrite B. reflexivity.
Qed.

Lemma multiclass_test_returns e multiclass x y proba :
  is_binary e = false ->
  List.length y = List.length (predict (fitted e) x) ->
  proba_1 e x = Ok proba ->
  outcome (test_scores e multiclass x y) =
  Ok (multiclass_auc multiclass y proba
        (multiclass_entries Macro y (predict (fitted e) x))).
Proof.
  intros B L P. unfold test_scores.
  rewrite outcome_bind, outcome_call_predict.
  rewrite outcome_bind, outcome_call_predict_proba_1, P.
  rewrite pseudo_r2_multiclass by exact B.
  rewrite outcome_bind. simpl outcome at 1. cbv iota.
  destruct (confusion_matrix_returns _ _ L) as (m & Hm).
  rewrite outcome_bind, Hm. simpl outcome at 1. cbv iota.
  rewrite B. reflexivity.
Qed.

(** The AUC entries are appended after the four base entries and leave
    them untouched. *)
Lemma multiclass_auc_get (k : string) multiclass y proba (d : scorecard) :
  String.eqb k K_AUC_OVO = false -> String.eqb k K_AUC_OVR = false ->
  dict_get k (multiclass_auc multiclass y proba d) = dict_get k d.
Proof.
  intros H1 H2. unfold multiclass_auc. destruct proba as [[p p1]|]; [|reflexivity].
  destruct (selects "ovo" multiclass), (selects "ovr" multiclass);
    repeat rewrite dict_get_set_other by assumption; reflexivity.
Qed.

Lemma in_optional (k a : string) (b : bool) :
  In k (if b then [a] else []) <-> b = true /\ k = a.
Proof.
  destruct b; simpl; split.
  - intros [H|[]]. auto.
  - intros [_ ->]. auto.
  - intros [].
  - intros [H _]. discriminate H.
Qed.

Lemma selects_spec (which : string) (multiclass : option string) :
  selects which multiclass = true <-> multiclass = Some which \/ multiclass = None.
Proof.
  destruct multiclass as [m|]; simpl.
  - rewrite String.eqb_eq. split; [intros ->; auto | intros [H|H]; congruence].
  - split; auto.
Qed.

Lemma multiclass_auc_keys multiclass y p p1 recall_avg y_pred :
  keys (multiclass_auc multiclass y (Some (p, p1))
          (multiclass_entries recall_avg y y_pred)) =
  [K_ACCURACY; K_PRECISION; K_RECALL; K_F1]
    ++ (if selects "ovo" multiclass then [K_AUC_OVO] else [])
    ++ (if selects "ovr" multiclass then [K_AUC_OVR] else []).
Proof.
  unfold multiclass_auc.
  destruct (selects "ovo" multiclass), (selects "ovr" multiclass); reflexivity.
Qed.

Lemma multiclass_auc_keys_none multiclass y recall_avg y_pred :
  keys (multiclass_auc multiclass y None (multiclass_entries recall_avg y y_pred)) =
  [K_ACCURACY; K_PRECISION; K_RECALL; K_F1].
Proof. reflexivity. Qed.

(** C5. For a job with more than two classes, the recall entry of the
    training scorecard is [recall_score(..., average="micro")] and the recall
    entry of the validation scorecard is [recall_score(..., average="macro")];
    precision and F1 are macro-averaged on both splits. Both scorecards are
    produced whenever the estimator returns one prediction per sample and its
    probabilities, if any, have a column 1. *)
Theorem multiclass_recall_micro_on_train_macro_on_validation
    (e : Estimator) (multiclass : option string)
    (x_train : DataFrame) (y_train : Series)
    (x_test : DataFrame) (y_test : Series)
    (p_train p_test : option (Proba * list float)) :
  (2 < List.length (classes_ (fitted e)))%nat ->
  List.length y_train = List.length (predict (fitted e) x_train) ->
  List.length y_test = List.length (predict (fitted e) x_test) ->
  proba_1 e x_train = Ok p_train ->
  proba_1 e x_test = Ok p_test ->
  exists s_train s_test,
    outcome (train_scores e multiclass x_train y_train) = Ok s_train /\
    outcome (test_scores e multiclass x_test y_test) = Ok s_test /\
    dict_get K_RECALL s_train =
      Some (PyFloat (recall_score y_train (predict (fitted e) x_train) Micro)) /\
    dict_get K_RECALL s_test =
      Some (PyFloat (recall_score y_test (predict (fitted e) x_test) Macro)) /\
    dict_get K_PRECISION s_train =
      Some (PyFloat (precision_score y_train (predict (fitted e) x_train) Macro)) /\
    dict_get K_PRECISION s_test =
      Some (PyFloat (precision_score y_test (predict (fitted e) x_test) Macro)) /\
    dict_get K_F1 s_train =
      Some (PyFloat (f1_score y_train (predict (fitted e) x_train) Macro)) /\
    dict_get K_F1 s_test =
      Some (PyFloat (f1_score y_test (predict (fitted e) x_test) Macro)).
Proof.
  intros C Ltrain Ltest Ptrain Ptest.
  apply more_than_two_classes in C.
  eexists. eexists.
  split; [apply multiclass_train_returns; eassumption|].
  split; [apply multiclass_test_returns; eassumption|].
  repeat split; rewrite multiclass_auc_get by reflexivity; reflexivity.
Qed.

End MulticlassFacts.

(** ** Binary scorecards *)

Section BinaryFacts.

Context {ML : MetricsLibrary}.

Lemma binary_result_pseudo pseudo y y_pred FP TN proba :
  dict_get K_PSEUDO_R2 (binary_result pseudo y y_pred FP TN proba) = Some pseudo.
Proof. unfold binary_result. destruct proba as [[p p1]|]; reflexivity. Qed.

Lemma binary_result_keys pseudo y y_pred FP TN proba :
  keys (binary_result pseudo y y_pred FP TN proba) =
  binary_keys ++ match proba with Some _ => [K_AUC] | None => [] end.
Proof. unfold binary_result. destruct proba as [[p p1]|]; reflexivity. Qed.

Lemma binary_result_fallout pseudo y y_pred FP TN proba :
  dict_get K_FALLOUT (binary_result pseudo y y_pred FP TN proba) =
    Some (PyFloat (np_true_divide FP (TN + FP))) /\
  dict_get K_TNR (binary_result pseudo y y_pred FP TN proba) =
    Some (PyFloat (PrimFloat.sub one (np_true_divide FP (TN + FP)))).
Proof. unfold binary_result. destruct proba as [[p p1]|]; split; reflexivity. Qed.

Lemma proba_1_Some e x p p1 :
  proba_1 e x = Ok (Some (p, p1)) ->
  exists pp, predict_proba (fitted e) = Some pp /\ p = pp x.
Proof.
  unfold proba_1. destruct (predict_proba (fitted e)) as [pp|]; [|discriminate].
  destruct (column_1 (pp x)); [|discriminate].
  intros H. injection H as <- <-. eauto.
Qed.

Lemma proba_1_has e x proba :
  proba_1 e x = Ok proba ->
  match proba with Some _ => has_predict_proba e = true | None => has_predict_proba e = false end.
Proof.
  unfold proba_1, has_predict_proba.
  destruct (predict_proba (fitted e)) as [pp|].
  - destruct (column_1 (pp x)); [|discriminate]. intros H. injection H as <-. reflexivity.
  - intros H. injection H as <-. reflexivity.
Qed.

Lemma pseudo_r2_binary e x y proba var pseudo :
  is_binary e = true ->
  proba_1 e x = Ok proba ->
  outcome (pseudo_r2 e y proba var) = Ok pseudo ->
  (is_class "LogisticRegression" e = true ->
     exists pp, predict_proba (fitted e) = Some pp /\
                pseudo = pseudo_r2_value y (pp x)) /\
  (is_class "LogisticRegression" e = false -> pseudo = PyInt 0).
Proof.
  intros B P H. unfold pseudo_r2 in H. rewrite B in H. simpl in H.
  destruct (is_class "LogisticRegression" e).
  - split; [intros _ | discriminate].
    destruct proba as [[p p1]|]; [|discriminate].
    apply proba_1_Some in P. destruct P as (pp & Hpp & ->).
    exists pp. split; [exact Hpp|].
    simpl in H. injection H as <-. unfold pseudo_r2_value.
    rewrite div_opp_opp. reflexivity.
  - split; [discriminate | intros _].
    simpl in H. injection H as <-. reflexivity.
Qed.

Lemma description_binary_has_pseudo e multiclass :
  is_binary e = true -> In K_PSEUDO_R2 (keys (description e multiclass)).
Proof.
  intros B. unfold description. rewrite B.
  destruct (has_predict_proba e); simpl; auto.
Qed.

Lemma performance_table_pseudo_column e scores names :
  In K_PSEUDO_R2 (union_keys scores) ->
  In K_PSEUDO_R2 (columns (performance_table e scores names)) <->
  is_class "LogisticRegression" e = true.
Proof.
  intros Hk. unfold performance_table.
  destruct (is_class "LogisticRegression" e); cbn [negb andb].
  - tauto.
  - assert (E : existsb (String.eqb K_PSEUDO_R2) (columns (DataFrame_of scores names)) = true).
    { apply existsb_exists. exists K_PSEUDO_R2. split; [exact Hk | apply String.eqb_refl]. }
    rewrite E. rewrite drop_column_In. split; [intros [_ H]; congruence | discriminate].
Qed.

(** A binary split stores what [pseudo_r2] computed under the pseudo-R2 key. *)
Lemma binary_split_pseudo recall_avg e multiclass x y var s :
  is_binary e = true ->
  split_scorecard recall_avg e multiclass x y var s ->
  (is_class "LogisticRegression" e = true ->
     exists pp, predict_proba (fitted e) = Some pp /\
                dict_get K_PSEUDO_R2 s = Some (pseudo_r2_value y (pp x))) /\
  (is_class "LogisticRegression" e = false ->
     dict_get K_PSEUDO_R2 s = Some (PyInt 0)).
Proof.
  intros B (proba & pseudo & P & Hp & [[_ (TN & FP & FN & TP & _ & ->)]|[B' _]]);
    [|congruence].
  rewrite binary_result_pseudo.
  destruct (pseudo_r2_binary _ _ _ _ B P Hp) as [H1 H2]. split.
  - intros L. destruct (H1 L) as (pp & Hpp & ->). eauto.
  - intros L. rewrite (H2 L). reflexivity.
Qed.

(** C6. For a binary estimator the pseudo-R2 entry of the stored scorecard
    is [1 - log_loss(fitted) / log_loss(null)], both losses unnormalized and
    the null model predicting [1 * mean(y)] for every sample, when the
    estimator is a [LogisticRegression], and [0] for any other class; and the
    table the reporter prints has the pseudo-R2 column exactly when the
    estimator is a [LogisticRegression]. *)
Theorem pseudo_r2_entry_and_display
    (e : Estimator) (x_train : DataFrame) (y_train : Series)
    (x_test : option DataFrame) (y_test : option Series) (o : Options)
    (l : list Event) (e' : Estimator) :
  is_binary e = true ->
  my_classification_result e (Some x_train) (Some y_train) x_test y_test o
    = (l, Ok e') ->
  let x := fst (stored_split x_train y_train x_test y_test) in
  let y := snd (stored_split x_train y_train x_test y_test) in
  exists s,
    est_scores e' = Some s /\
    (is_class "LogisticRegression" e = true ->
       exists pp, predict_proba (fitted e) = Some pp /\
         dict_get K_PSEUDO_R2 s =
           Some (PyFloat
                   (PrimFloat.sub one
                      (PrimFloat.div
                         (log_loss y (Arr2 (pp x)) false)
                         (log_loss y (Arr1 (ones_like_times y (series_mean y)))
                            false))))) /\
    (is_class "LogisticRegression" e = false ->
       dict_get K_PSEUDO_R2 s = Some (PyInt 0)) /\
    (forall t, In (Transposed t) (displayed l) ->
       (In K_PSEUDO_R2 (columns t) <-> is_class "LogisticRegression" e = true)) /\
    (is_print o = true -> exists t, displayed l = [Transposed t]).
Proof.
  intros B H x y. subst x y.
  apply reporter_inv in H.
  destruct H as (named & s & (s_train & Htrain & Hnamed) & Hlast & -> & Hshown).
  exists s. split; [reflexivity|].
  assert (Hs : split_scorecard
                 (match both x_test y_test with Some _ => Macro | None => Micro end)
                 e (multiclass o)
                 (fst (stored_split x_train y_train x_test y_test))
                 (snd (stored_split x_train y_train x_test y_test))
                 (match both x_test y_test with
                  | Some _ => "y_test_pred_proba"
                  | None => "y_train_pred_proba"
                  end) s).
  { unfold stored_split. destruct (both x_test y_test) as [[xs ys]|].
    - destruct Hnamed as (s_test & Htest & ->). simpl in Hlast. subst s.
      apply test_scores_inv. exact Htest.
    - subst named. simpl in Hlast. subst s.
      apply train_scores_inv. exact Htrain. }
  destruct (binary_split_pseudo B Hs) as [H1 H2].
  split; [exact H1 | split; [exact H2 | split]].
  - intros t Ht. rewrite Hshown in Ht.
    destruct (is_print o); [|destruct Ht].
    destruct Ht as [Ht|[]]. injection Ht as <-.
    apply performance_table_pseudo_column.
    apply union_keys_In. exists (description e (multiclass o)). split.
    + rewrite map_app. apply in_or_app. right. left. reflexivity.
    + apply description_binary_has_pseudo. exact B.
  - intros P. rewrite Hshown, P. eauto.
Qed.

End BinaryFacts.

(** ** The trainer *)

Lemma predictions_app (l1 l2 : list Event) :
  predictions (l1 ++ l2) = predictions l1 ++ predictions l2.
Proof. apply filter_app. Qed.

(** The scorecards only read the class and the fitted model of the
    estimator, not the attributes attached to it. *)
Lemma train_scores_ext `{MetricsLibrary} e1 e2 multiclass x y :
  cls e1 = cls e2 -> fitted e1 = fitted e2 ->
  train_scores e1 multiclass x y = train_scores e2 multiclass x y.
Proof.
  destruct e1, e2. simpl. intros -> ->. reflexivity.
Qed.

Lemma test_scores_ext `{MetricsLibrary} e1 e2 multiclass x y :
  cls e1 = cls e2 -> fitted e1 = fitted e2 ->
  test_scores e1 multiclass x y = test_scores e2 multiclass x y.
Proof.
  destruct e1, e2. simpl. intros -> ->. reflexivity.
Qed.

Section TrainerFacts.

Context {EL : EstimatorLibrary} {ML : MetricsLibrary}.

Variable coefficients :
  Estimator -> DataFrame -> Series -> option DataFrame -> option Series ->
  option string -> M unit.

Lemma search_args_quiet (c : Algorithm) :
  predictions (log (search_args c)) = [] /\ exists args, outcome (search_args c) = Ok args.
Proof.
  unfold search_args.
  destruct (accepts c "n_jobs"), (accepts c "random_state"),
    (accepts c "early_stopping"); simpl; eauto.
Qed.

Lemma direct_params_quiet (c : Algorithm) (params : Params) :
  predictions (log (direct_params c params)) = [].
Proof.
  unfold direct_params.
  destruct (accepts c "n_jobs"), (accepts c "random_state"); reflexivity.
Qed.

(** What the model-building half hands on: a fresh estimator of the
    requested class, and no prediction pass yet. *)
Lemma build_estimator_inv c xt yt o params l0 e0 :
  build_estimator c xt yt o params = (l0, Ok (Some e0)) ->
  predictions l0 = [] /\
  exists f bp, e0 = new_estimator c f bp.
Proof.
  unfold build_estimator. destruct (cv o >? 0)%Z.
  - intros H.
    apply bind_inv in H. destruct H as (l1 & args & l2 & Hargs & H & ->).
    apply bind_inv in H. destruct H as (l3 & proto & l4 & Hproto & H & ->).
    apply bind_inv in H. destruct H as (l5 & u & l6 & Hprint & H & ->).
    injection Hproto as <- _. injection Hprint as <- _.
    apply run_parts in Hargs. destruct Hargs as [<- _].
    rewrite !predictions_app, (proj1 (search_args_quiet c)). simpl.
    destruct (randomized_search_fit proto params (cv o) (-1) 500 xt yt) as [grid|ex].
    + apply bind_inv in H. destruct H as (l7 & u7 & l8 & Hp & H & ->).
      injection H as <- <-. split; [|eauto].
      apply run_parts in Hp. destruct Hp as [<- _].
      destruct (is_print o); reflexivity.
    + apply bind_inv in H. destruct H as (l7 & u7 & l8 & Hp & H & ->).
      discriminate.
  - intros H.
    apply bind_inv in H. destruct H as (l1 & p' & l2 & Hparams & H & ->).
    apply bind_inv in H. destruct H as (l3 & proto & l4 & Hproto & H & ->).
    apply bind_inv in H. destruct H as (l5 & f & l6 & Hfit & H & ->).
    injection Hproto as <- _. injection Hfit as <- _. injection H as <- <-.
    apply run_parts in Hparams. destruct Hparams as [<- _].
    rewrite !predictions_app, direct_params_quiet. split; [reflexivity | eauto].
Qed.

(** Without a search, a job either raises or returns an estimator: the
    [return None] of the trainer is reached from the search branch only. *)
Lemma direct_build_never_None c xt yt o params :
  (cv o <= 0)%Z -> outcome (build_estimator c xt yt o params) <> Ok None.
Proof.
  intros Hcv. unfold build_estimator.
  destruct (Z.gtb_spec (cv o) 0); [lia|].
  rewrite !outcome_bind.
  destruct (outcome (direct_params c params)); [|discriminate].
  simpl. destruct (construct c a); [|discriminate].
  simpl. destruct (fit a0 xt yt); discriminate.
Qed.

Lemma trainer_inv c xt yt x_test y_test o params l e' :
  __my_classification coefficients c xt yt x_test y_test o params
    = (l, Ok (Some e')) ->
  exists f bp l0 l1 l2 x_test' y_test',
    predictions l0 = [] /\
    both x_test' y_test' = both x_test y_test /\
    my_classification_result (attached c f bp xt yt x_test y_test)
      (Some xt) (Some yt) x_test' y_test' o = (l1, Ok e') /\
    l = l0 ++ Predict (or_else x_test xt) :: l2.
Proof.
  unfold __my_classification. intros H.
  apply bind_inv in H. destruct H as (l0 & built & lr & Hbuilt & H & ->).
  destruct built as [e0|]; [|discriminate].
  destruct (build_estimator_inv _ _ _ _ _ Hbuilt) as (Hq & f & bp & ->).
  apply bind_inv in H. destruct H as (la & y_pred & lb & Hpred & H & ->).
  injection Hpred as <- <-.
  apply bind_inv in H. destruct H as (lc & y_pred_prob & ld & Hprob & H & ->).
  pose proof (run_parts Hprob) as [_ Hprob'].
  rewrite outcome_call_predict_proba in Hprob'. injection Hprob' as <-.
  apply bind_inv in H. destruct H as (le & y_pred' & lf & Hpred' & H & ->).
  apply bind_inv in H. destruct H as (lg & proba' & lh & Hproba' & H & ->).
  apply bind_inv in H. destruct H as (li & est & lj & Hrep & H & ->).
  apply bind_inv in H. destruct H as (lk & u & lm & _ & H & ->).
  injection H as <- <-.
  assert (E : set_results (new_estimator c f bp) (or_else x_test xt)
                (or_else y_test yt) y_pred' proba'
              = attached c f bp xt yt x_test y_test).
  { unfold attached. destruct y_test as [ys|].
    - injection Hpred' as _ <-. injection Hproba' as _ <-. reflexivity.
    - pose proof (run_parts Hpred') as [_ Hp]. rewrite outcome_call_predict in Hp.
      injection Hp as <-.
      pose proof (run_parts Hproba') as [_ Hq']. rewrite outcome_call_predict_proba in Hq'.
      injection Hq' as <-. reflexivity. }
  rewrite E in Hrep.
  exists f, bp, l0, li.
  eexists. 
  destruct (both x_test y_test) as [[xs ys]|] eqn:Hb.
  - exists (Some xs), (Some ys). split; [exact Hq|]. split; [reflexivity|].
    split; [exact Hrep|]. simpl. reflexivity.
  - exists None, None. split; [exact Hq|]. split; [reflexivity|].
    split; [exact Hrep|]. simpl. reflexivity.
Qed.

End TrainerFacts.

Section ScorecardOfJob.

Context {EL : EstimatorLibrary} {ML : MetricsLibrary}.

Variable coefficients :
  Estimator -> DataFrame -> Series -> option DataFrame -> option Series ->
  option string -> M unit.

Lemma split_scorecard_ext recall_avg e1 e2 multiclass x y var s :
  cls e1 = cls e2 -> fitted e1 = fitted e2 ->
  split_scorecard recall_avg e1 multiclass x y var s ->
  split_scorecard recall_avg e2 multiclass x y var s.
Proof.
  destruct e1, e2. simpl. intros -> ->. exact (fun H => H).
Qed.

(** What a job that returned an estimator has stored on it: the class it
    was asked to train, and the scorecard of the stored split. *)
Lemma trainer_scorecard c xt yt x_test y_test o params l e' :
  __my_classification coefficients c xt yt x_test y_test o params
    = (l, Ok (Some e')) ->
  cls e' = c /\
  exists s recall_avg var,
    est_scores e' = Some s /\
    split_scorecard recall_avg e' (multiclass o)
      (fst (stored_split xt yt x_test y_test))
      (snd (stored_split xt yt x_test y_test)) var s.
Proof.
  intros H. apply trainer_inv in H.
  destruct H as (f & bp & l0 & l1 & l2 & xs' & ys' & _ & Hb & Hrep & _).
  apply reporter_inv in Hrep.
  destruct Hrep as (named & s & (s_train & Htrain & Hnamed) & Hlast & -> & _).
  split; [reflexivity|].
  exists s. unfold stored_split. rewrite <- Hb.
  destruct (both xs' ys') as [[xs ys]|].
  - destruct Hnamed as (s_test & Htest & ->). simpl in Hlast. subst s.
    exists Macro, "y_test_pred_proba". split; [reflexivity|].
    apply test_scores_inv in Htest.
    eapply split_scorecard_ext; [| |exact Htest]; reflexivity.
  - subst named. simpl in Hlast. subst s.
    exists Micro, "y_train_pred_proba". split; [reflexivity|].
    apply train_scores_inv in Htrain.
    eapply split_scorecard_ext; [| |exact Htrain]; reflexivity.
Qed.

(** C10. A job given validation features but no validation labels stores
    the training scorecard, and the predictions and probabilities it attaches
    are those of the training data, although its first prediction pass ran on
    the validation features. *)
Theorem labels_missing_falls_back_to_training
    (c : Algorithm) (x_train : DataFrame) (y_train : Series)
    (x_test : DataFrame) (o : Options) (params : Params)
    (l : list Event) (e' : Estimator) :
  __my_classification coefficients c x_train y_train (Some x_test) None o params
    = (l, Ok (Some e')) ->
  (exists s, est_scores e' = Some s /\
             outcome (train_scores e' (multiclass o) x_train y_train) = Ok s) /\
  est_y_pred e' = Some (predict (fitted e') x_train) /\
  est_y_pred_proba e' = option_map (fun pp => pp x_train) (predict_proba (fitted e')) /\
  hd_error (predictions l) = Some (Predict x_test).
Proof.
  intros H. apply trainer_inv in H.
  destruct H as (f & bp & l0 & l1 & l2 & xs' & ys' & Hq & Hb & Hrep & ->).
  apply reporter_inv in Hrep.
  destruct Hrep as (named & s & (s_train & Htrain & Hnamed) & Hlast & -> & _).
  simpl in Hb. rewrite Hb in Hnamed. subst named. simpl in Hlast. subst s.
  split; [|split; [|split]].
  - exists s_train. split; [reflexivity|].
    erewrite train_scores_ext; [exact Htrain | reflexivity | reflexivity].
  - reflexivity.
  - reflexivity.
  - rewrite predictions_app, Hq. reflexivity.
Qed.

End ScorecardOfJob.

(** ** The collecting loop *)

Lemma drain_Ok (completed : list Future) (acc acc' : Collected) :
  drain completed acc = Ok acc' ->
  (forall p, In p completed -> exists r, fut_result p = Ok r) /\
  estimator_names acc' =
    estimator_names acc ++ map name_of (returned_estimators completed) /\
  results acc' = results acc ++ stored_scores (returned_estimators completed) /\
  estimators acc' = insert_all (returned_estimators completed) (estimators acc) /\
  List.length (results acc') =
    (List.length (results acc) + List.length (returned_estimators completed))%nat.
Proof.
  revert acc. induction completed as [|p rest IH]; intros acc H; simpl in H.
  - injection H as <-. unfold returned_estimators, stored_scores, insert_all. simpl.
    rewrite !app_nil_r. repeat split; [intros p [] | lia].
  - unfold collect in H. unfold returned_estimators. simpl.
    fold (returned_estimators rest).
    destruct (fut_result p) as [[e|]|ex] eqn:Hp; [| |discriminate].
    + destruct (est_scores e) as [s|] eqn:Hs; [|discriminate].
      apply IH in H. simpl in H. destruct H as (Hall & Hn & Hr & He & Hlen).
      repeat split.
      * intros q [<-|Hq]; [eauto | auto].
      * rewrite Hn, <- app_assoc. reflexivity.
      * rewrite Hr, <- app_assoc. unfold stored_scores. simpl. rewrite Hs. reflexivity.
      * exact He.
      * rewrite Hlen, length_app. simpl. lia.
    + apply IH in H. destruct H as (Hall & Hn & Hr & He & Hlen).
      repeat split; try assumption.
      intros q [<-|Hq]; [eauto | auto].
Qed.

Lemma drain_returns (completed : list Future) (acc : Collected) :
  (forall p, In p completed ->
     match fut_result p with
     | Ok (Some e) => est_scores e <> None
     | Ok None => True
     | Raise _ => False
     end) ->
  exists acc', drain completed acc = Ok acc'.
Proof.
  revert acc. induction completed as [|p rest IH]; intros acc H; simpl.
  - eauto.
  - unfold collect. pose proof (H p (or_introl eq_refl)) as Hp.
    destruct (fut_result p) as [[e|]|ex]; [| |destruct Hp].
    + destruct (est_scores e); [|congruence].
      apply IH. intros q Hq. apply H. right. exact Hq.
    + apply IH. intros q Hq. apply H. right. exact Hq.
Qed.

Lemma drain_raises (completed : list Future) (acc : Collected) (p : Future) (ex : PyExn) :
  In p completed -> fut_result p = Raise ex ->
  exists ex', drain completed acc = Raise ex'.
Proof.
  revert acc. induction completed as [|q rest IH]; intros acc Hin Hp; [destruct Hin|].
  simpl. destruct Hin as [->|Hin].
  - unfold collect. rewrite Hp. eauto.
  - destruct (collect acc q); [apply IH; assumption | eauto].
Qed.

Lemma insert_all_In (n : string) (e : Estimator) (es : list Estimator)
    (d : dict Estimator) :
  In (n, e) (insert_all es d) -> In (n, e) d \/ (In e es /\ n = name_of e).
Proof.
  unfold insert_all. revert d. induction es as [|e0 es IH]; intros d H; simpl in H.
  - auto.
  - apply IH in H. destruct H as [H|[H ->]]; [|auto using in_cons].
    assert (S : forall d', In (n, e) (dict_set (name_of e0) e0 d') ->
                           In (n, e) d' \/ (e = e0 /\ n = name_of e0)).
    { induction d' as [|[k v] d' IHd]; simpl.
      - intros [E|[]]. injection E as <- <-. auto.
      - destruct (String.eqb_spec (name_of e0) k) as [->|Hne]; simpl.
        + intros [E|Hd]; [injection E as <- <-; auto | auto].
        + intros [E|Hd]; [auto | destruct (IHd Hd); auto]. }
    destruct (S _ H) as [Hd|[-> ->]]; [auto | right; split; [left|]; reflexivity].
Qed.

Lemma insert_all_keys (es : list Estimator) (d : dict Estimator) :
  NoDup (keys d ++ map name_of es) ->
  keys (insert_all es d) = keys d ++ map name_of es.
Proof.
  unfold insert_all. revert d. induction es as [|e es IH]; intros d H; simpl.
  - symmetry. apply app_nil_r.
  - simpl in H.
    assert (Hfresh : dict_has (name_of e) d = false).
    { destruct (dict_has (name_of e) d) eqn:E; [|reflexivity].
      apply dict_has_In in E. apply NoDup_remove_2 in H.
      exfalso. apply H. apply in_or_app. left. exact E. }
    rewrite IH; rewrite keys_dict_set, Hfresh.
    + rewrite <- app_assoc. reflexivity.
    + rewrite <- app_assoc. simpl.
      apply NoDup_Add with (a := name_of e) (l := keys d ++ map name_of es).
      * apply Add_app.
      * split; [apply NoDup_remove_1 in H; exact H | apply NoDup_remove_2 in H; exact H].
Qed.

(** ** The dispatcher *)

Lemma run_eta {A} (m : M A) : m = (log m, outcome m).
Proof. destruct m; reflexivity. Qed.

Lemma class_name_inj (a b : Algorithm) : class_name a = class_name b -> a = b.
Proof. destruct a, b; simpl; intros H; try reflexivity; discriminate H. Qed.

Section DispatcherFacts.

Context {EL : EstimatorLibrary} {ML : MetricsLibrary}.

Variable coefficients :
  Estimator -> DataFrame -> Series -> option DataFrame -> option Series ->
  option string -> M unit.

Lemma In_submit_if alg q ps p :
  In p (submit_if alg q ps) ->
  In p ps \/ (p = q /\ requested alg (fut_id q) = true).
Proof.
  unfold submit_if. destruct (requested alg (fut_id q)); [|auto].
  intros H. apply in_app_or in H. destruct H as [H|[<-|[]]]; auto.
Qed.

Lemma classes_submit_if alg q ps :
  map fut_class (submit_if alg q ps) =
  map fut_class ps ++ (if requested alg (fut_id q) then [fut_class q] else []).
Proof.
  unfold submit_if. destruct (requested alg (fut_id q)).
  - apply map_app.
  - symmetry. apply app_nil_r.
Qed.

Lemma ids_submit_if alg q ps :
  map fut_id (submit_if alg q ps) =
  map fut_id ps ++ (if requested alg (fut_id q) then [fut_id q] else []).
Proof.
  unfold submit_if. destruct (requested alg (fut_id q)).
  - apply map_app.
  - symmetry. apply app_nil_r.
Qed.

(** Every submitted job is the trainer run quietly on the shared data, for
    one row of [job_table], with the dispatcher's fold count and the
    selector [job_selector] gives its class. *)
Lemma submitted_job xt yt x_test y_test o alg params p :
  In p (submitted coefficients xt yt x_test y_test o alg params) ->
  requested alg (fut_id p) = true /\
  In (fut_id p, fut_class p) job_table /\
  exists o' params',
    fut_run p = __my_classification coefficients (fut_class p) xt yt x_test y_test
                  o' params' /\
    cv o' = cv o /\ is_print o' = false /\
    multiclass o' = job_selector (fut_class p) o.
Proof.
  unfold submitted. intros H.
  repeat (apply In_submit_if in H; destruct H as [H|[-> R]]);
    [destruct H | | | | | | ];
    (split; [exact R|]); (split; [simpl; tauto|]);
    eexists; eexists; (split; [reflexivity|]); simpl; auto.
Qed.

Lemma submitted_classes xt yt x_test y_test o alg params :
  map fut_class (submitted coefficients xt yt x_test y_test o alg params) =
  map snd (filter (fun j => requested alg (fst j)) job_table).
Proof.
  unfold submitted. rewrite !classes_submit_if. simpl.
  destruct (requested alg "logistic"), (requested alg "knn"),
    (requested alg "svc"), (requested alg "nb"), (requested alg "dtree"),
    (requested alg "sgd"); reflexivity.
Qed.

Lemma submitted_ids xt yt x_test y_test o alg params :
  map fut_id (submitted coefficients xt yt x_test y_test o alg params) =
  filter (requested alg) (map fst job_table).
Proof.
  unfold submitted. rewrite !ids_submit_if. simpl.
  destruct (requested alg "logistic"), (requested alg "knn"),
    (requested alg "svc"), (requested alg "nb"), (requested alg "dtree"),
    (requested alg "sgd"); reflexivity.
Qed.

Lemma NoDup_map_filter {A B} (f : A -> B) (g : A -> bool) (l : list A) :
  NoDup (map f l) -> NoDup (map f (filter g l)).
Proof.
  induction l as [|a l IH]; simpl; intros H; [constructor|].
  inversion H as [|? ? Hn Hl]; subst.
  destruct (g a); simpl; [|auto].
  constructor; [|auto].
  intros Hin. apply Hn. apply in_map_iff in Hin.
  destruct Hin as (x & Hx & Hf). apply filter_In in Hf.
  apply in_map_iff. exists x. tauto.
Qed.

Lemma submitted_names_NoDup xt yt x_test y_test o alg params :
  NoDup (map (fun p => class_name (fut_class p))
           (submitted coefficients xt yt x_test y_test o alg params)).
Proof.
  rewrite <- (map_map fut_class class_name), submitted_classes, map_map.
  apply NoDup_map_filter. simpl.
  repeat constructor; simpl; intuition discriminate.
Qed.

(** A job that returned an estimator returned one of its own class. *)
Lemma submitted_job_class xt yt x_test y_test o alg params p e :
  In p (submitted coefficients xt yt x_test y_test o alg params) ->
  fut_result p = Ok (Some e) -> cls e = fut_class p.
Proof.
  intros Hin Hr. apply submitted_job in Hin.
  destruct Hin as (_ & _ & o' & params' & Hrun & _).
  unfold fut_result in Hr. rewrite (run_eta (fut_run p)), Hr in Hrun.
  symmetry in Hrun. apply trainer_scorecard in Hrun. tauto.
Qed.

(** Past the model-building half the trainer returns its estimator or
    raises: [None] comes from the search branch alone. *)
Lemma trainer_None c xt yt x_test y_test o params :
  outcome (__my_classification coefficients c xt yt x_test y_test o params) = Ok None ->
  outcome (build_estimator c xt yt o params) = Ok None.
Proof.
  unfold __my_classification. rewrite outcome_bind.
  destruct (outcome (build_estimator c xt yt o params)) as [[e0|]|ex];
    [|reflexivity|discriminate].
  intros H. exfalso.
  repeat (apply bind_returns in H; destruct H as (? & _ & H)).
  discriminate H.
Qed.

Lemma submitted_direct_never_None xt yt x_test y_test o alg params p :
  (cv o <= 0)%Z ->
  In p (submitted coefficients xt yt x_test y_test o alg params) ->
  fut_result p <> Ok None.
Proof.
  intros Hcv Hin Hr. apply submitted_job in Hin.
  destruct Hin as (_ & _ & o' & params' & Hrun & Hcv' & _).
  unfold fut_result in Hr. rewrite Hrun in Hr.
  apply trainer_None in Hr. revert Hr. apply direct_build_never_None. lia.
Qed.

End DispatcherFacts.

(** ** Submitting the jobs *)

Lemma submit_each_Ok (params : Params) (calls processes : list Future) :
  submit_each params calls = Ok processes -> processes = calls.
Proof.
  revert processes. induction calls as [|p rest IH]; intros processes H; simpl in H.
  - injection H as <-. reflexivity.
  - unfold executor_submit in H.
    destruct (duplicate_keyword (submit_keywords (fut_class p)) params);
      [discriminate|].
    destruct (submit_each params rest) as [ps|ex]; [|discriminate].
    injection H as <-. rewrite (IH ps eq_refl). reflexivity.
Qed.

Lemma submit_each_clean (params : Params) (calls : list Future) :
  (forall p, In p calls ->
     duplicate_keyword (submit_keywords (fut_class p)) params = None) ->
  submit_each params calls = Ok calls.
Proof.
  induction calls as [|p rest IH]; intros H; [reflexivity|].
  simpl. unfold executor_submit. rewrite (H p (or_introl eq_refl)).
  rewrite IH by (intros q Hq; apply H; right; exact Hq). reflexivity.
Qed.

Lemma submit_each_Raise (params : Params) (calls : list Future) (ex : PyExn) :
  submit_each params calls = Raise ex ->
  exists p k,
    In p calls /\
    duplicate_keyword (submit_keywords (fut_class p)) params = Some k /\
    ex = duplicate_keyword_error k.
Proof.
  induction calls as [|p rest IH]; simpl; [discriminate|].
  unfold executor_submit.
  destruct (duplicate_keyword (submit_keywords (fut_class p)) params) as [k|] eqn:D.
  - intros H. injection H as <-. exists p, k. auto.
  - destruct (submit_each params rest) as [ps|ex'] eqn:E; [discriminate|].
    intros H. injection H as <-.
    destruct (IH eq_refl) as (q & k & Hq & Hk & Hex). exists q, k. auto.
Qed.

(** [is_print] is written out in every call of [executor.submit]. *)
Lemma is_print_is_duplicate (c : Algorithm) (params : Params) :
  In "is_print" (keys params) ->
  exists k, duplicate_keyword (submit_keywords c) params = Some k.
Proof.
  intros Hin. unfold duplicate_keyword.
  destruct (find (fun k => existsb (String.eqb k) (submit_keywords c)) (keys params))
    as [k|] eqn:F; [eauto|].
  exfalso. pose proof (find_none _ _ F _ Hin) as H.
  destruct c; discriminate H.
Qed.

Lemma submit_each_is_print (params : Params) (p : Future) (rest : list Future) :
  In "is_print" (keys params) ->
  exists k, submit_each params (p :: rest) = Raise (duplicate_keyword_error k).
Proof.
  intros Hin. destruct (is_print_is_duplicate (fut_class p) params Hin) as (k & D).
  exists k. simpl. unfold executor_submit. rewrite D. reflexivity.
Qed.

Section ReportFacts.

Context {EL : EstimatorLibrary} {ML : MetricsLibrary}.

Variable coefficients :
  Estimator -> DataFrame -> Series -> option DataFrame -> option Series ->
  option string -> M unit.

(** The iterator hands over every job it was given, in an order of its
    own. *)
Variable as_completed : list Future -> list Future.
Hypothesis as_completed_perm : forall ps, Permutation (as_completed ps) ps.

Lemma as_completed_nil : as_completed [] = [].
Proof. apply Permutation_nil. apply Permutation_sym. apply as_completed_perm. Qed.

Lemma my_classification_inv xt yt x_test y_test o alg params l rep v :
  my_classification coefficients as_completed xt yt x_test y_test o alg params
    = (l, Ok (rep, v)) ->
  exists acc,
    drain (as_completed (submitted coefficients xt yt x_test y_test o alg params))
      nothing_collected = Ok acc /\
    rep = mkReport (estimators acc) (DataFrame_of (results acc) (estimator_names acc)) /\
    v = mapping rep /\
    l = [PrettyTable (Plain (table rep))].
Proof.
  unfold my_classification. intros H.
  apply bind_inv in H. destruct H as (l0 & processes & lr & Hs & H & ->).
  injection Hs as <- Hs. apply submit_each_Ok in Hs. subst processes.
  apply bind_inv in H. destruct H as (l1 & acc & l2 & Hd & H & ->).
  injection Hd as <- Hd. injection H as <- <- <-.
  exists acc. repeat split. exact Hd.
Qed.

(** A call that returned had every selected call of [executor.submit]
    accepted. *)
Lemma my_classification_submitted xt yt x_test y_test o alg params l rep v :
  my_classification coefficients as_completed xt yt x_test y_test o alg params
    = (l, Ok (rep, v)) ->
  submit_each params (submitted coefficients xt yt x_test y_test o alg params)
  = Ok (submitted coefficients xt yt x_test y_test o alg params).
Proof.
  unfold my_classification. intros H.
  apply bind_inv in H. destruct H as (l0 & processes & lr & Hs & _ & _).
  injection Hs as _ Hs. rewrite Hs. f_equal. eapply submit_each_Ok. exact Hs.
Qed.

(** Whatever the call assembles, it hands back the mapping; the table is
    rendered, not returned. *)
Lemma my_classification_returns_mapping xt yt x_test y_test o alg params rep v :
  outcome (my_classification coefficients as_completed xt yt x_test y_test o alg params)
    = Ok (rep, v) ->
  v = mapping rep.
Proof.
  intros H.
  pose proof (run_eta (my_classification coefficients as_completed xt yt x_test
                         y_test o alg params)) as E.
  rewrite H in E. apply my_classification_inv in E.
  destruct E as (acc & _ & _ & Hv & _). exact Hv.
Qed.



(** An exception raised inside any one job reaches the caller of the
    dispatcher: [p.result()] raises it again and nothing catches it. *)
Lemma job_failure_escapes xt yt x_test y_test o alg params p ex :
  In p (submitted coefficients xt yt x_test y_test o alg params) ->
  fut_result p = Raise ex ->
  exists ex',
    outcome (my_classification coefficients as_completed xt yt x_test y_test o alg params)
      = Raise ex'.
Proof.
  intros Hin Hr. unfold my_classification. rewrite outcome_bind.
  destruct (submit_each params
              (submitted coefficients xt yt x_test y_test o alg params))
    as [processes|ex0] eqn:Hs; [|simpl; eauto].
  apply submit_each_Ok in Hs. subst processes.
  assert (Hin' : In p (as_completed
                         (submitted coefficients xt yt x_test y_test o alg params))).
  { eapply Permutation_in; [apply Permutation_sym, as_completed_perm | exact Hin]. }
  destruct (drain_raises _ nothing_collected _ Hin' Hr) as (ex' & E).
  simpl outcome at 1. cbv iota beta. rewrite outcome_bind.
  simpl. rewrite E. eauto.
Qed.

Lemma returned_names (completed : list Future) :
  (forall p e, In p completed -> fut_result p = Ok (Some e) -> cls e = fut_class p) ->
  map name_of (returned_estimators completed) =
  map (fun p => class_name (fut_class p)) (filter succeeded completed).
Proof.
  induction completed as [|p rest IH]; intros H; [reflexivity|].
  unfold returned_estimators, succeeded. simpl.
  fold (returned_estimators rest). fold succeeded.
  assert (IH' := IH (fun q e Hq => H q e (or_intror Hq))).
  destruct (fut_result p) as [[e|]|ex] eqn:Hp; simpl; [|exact IH'|exact IH'].
  unfold name_of at 1. rewrite (H p e (or_introl eq_refl) Hp), IH'. reflexivity.
Qed.

Lemma returned_length (completed : list Future) :
  List.length (returned_estimators completed) = List.length (filter succeeded completed).
Proof.
  induction completed as [|p rest IH]; [reflexivity|].
  unfold returned_estimators, succeeded. simpl.
  fold (returned_estimators rest). fold succeeded.
  destruct (fut_result p) as [[e|]|ex]; simpl; auto.
Qed.

Lemma returned_In (completed : list Future) (e : Estimator) :
  In e (returned_estimators completed) ->
  exists p, In p completed /\ fut_result p = Ok (Some e).
Proof.
  unfold returned_estimators. rewrite in_flat_map.
  intros (p & Hp & He). exists p. split; [exact Hp|].
  destruct (fut_result p) as [[e0|]|ex]; simpl in He; try contradiction.
  destruct He as [->|[]]. reflexivity.
Qed.

(** The assembled report has one row and one mapping entry per job that
    returned an estimator, in the order in which the iterator handed the jobs
    over, and nothing for a job whose trainer returned no result. *)
Lemma report_rows_follow_the_iterator
    (x_train : DataFrame) (y_train : Series)
    (x_test : option DataFrame) (y_test : option Series) (o : Options)
    (algorithm : option (list string)) (params : Params)
    (l : list Event) (rep : Report) (v : Returned) :
  my_classification coefficients as_completed x_train y_train x_test y_test o
    algorithm params = (l, Ok (rep, v)) ->
  let processes :=
    submitted coefficients x_train y_train x_test y_test o algorithm params in
  let done := filter succeeded (as_completed processes) in
  index (table rep) = map (fun p => class_name (fut_class p)) done /\
  keys (mapping rep) = map (fun p => class_name (fut_class p)) done /\
  List.length (rows (table rep)) = List.length done /\
  forall p, In p processes -> fut_result p = Ok None ->
    ~ In (class_name (fut_class p)) (index (table rep)) /\
    dict_get (class_name (fut_class p)) (mapping rep) = None.
Proof.
  intros H processes done.
  apply my_classification_inv in H. destruct H as (acc & Hd & -> & _ & _).
  fold processes in Hd.
  apply drain_Ok in Hd. destruct Hd as (_ & Hn & _ & He & Hlen). simpl in *.
  assert (Hcls : forall p e, In p (as_completed processes) ->
                   fut_result p = Ok (Some e) -> cls e = fut_class p).
  { intros p e Hp. apply (submitted_job_class coefficients x_train y_train x_test
                            y_test o algorithm params).
    eapply Permutation_in; [apply as_completed_perm | exact Hp]. }
  assert (Hnames : map name_of (returned_estimators (as_completed processes))
                   = map (fun p => class_name (fut_class p)) done)
    by (apply returned_names; exact Hcls).
  assert (Hnodup : NoDup (map (fun p => class_name (fut_class p)) done)).
  { apply NoDup_map_filter.
    eapply Permutation_NoDup.
    - apply Permutation_map, Permutation_sym, as_completed_perm.
    - apply submitted_names_NoDup. }
  assert (Hkeys : keys (estimators acc) = map (fun p => class_name (fut_class p)) done).
  { rewrite He, insert_all_keys; simpl; rewrite Hnames; [reflexivity | exact Hnodup]. }
  assert (Hmissing : forall p, In p processes -> fut_result p = Ok None ->
                       ~ In (class_name (fut_class p))
                           (map (fun p => class_name (fut_class p)) done)).
  { intros p Hp Hnone Hin. apply in_map_iff in Hin.
    destruct Hin as (q & Hq & Hqd). apply filter_In in Hqd. destruct Hqd as [Hqc Hqs].
    assert (Hq' : In q processes)
      by (eapply Permutation_in; [apply as_completed_perm | exact Hqc]).
    assert (E : q = p).
    { pose proof (submitted_names_NoDup coefficients x_train y_train x_test y_test
                    o algorithm params) as ND.
      fold processes in ND.
      clear - ND Hq Hq' Hp.
      induction processes as [|r rest IH]; [destruct Hp|].
      simpl in ND. inversion ND as [|? ? Hr Hrest]; subst.
      destruct Hp as [->|Hp], Hq' as [->|Hq'].
      - reflexivity.
      - exfalso. apply Hr. apply in_map_iff. exists q. auto.
      - exfalso. apply Hr. apply in_map_iff. exists p. auto.
      - auto. }
    subst q. unfold succeeded in Hqs. rewrite Hnone in Hqs. discriminate. }
  split; [rewrite Hn; exact Hnames|].
  split; [exact Hkeys|].
  split; [rewrite Hlen, returned_length; reflexivity|].
  intros p Hp Hnone. split.
  - rewrite Hn. simpl. rewrite Hnames. apply Hmissing; assumption.
  - apply dict_get_None. rewrite Hkeys. apply Hmissing; assumption.
Qed.

(** The estimator behind every mapping entry of the report was returned by
    a submitted job. *)
Lemma mapping_entry_job xt yt x_test y_test o alg params l rep v n e :
  my_classification coefficients as_completed xt yt x_test y_test o alg params
    = (l, Ok (rep, v)) ->
  In (n, e) (mapping rep) ->
  exists p,
    In p (submitted coefficients xt yt x_test y_test o alg params) /\
    fut_result p = Ok (Some e).
Proof.
  intros H Hin. apply my_classification_inv in H.
  destruct H as (acc & Hd & -> & _ & _). simpl in Hin.
  apply drain_Ok in Hd. destruct Hd as (_ & _ & _ & He & _).
  rewrite He in Hin. apply insert_all_In in Hin. simpl in Hin.
  destruct Hin as [[]|[Hin _]].
  apply returned_In in Hin. destruct Hin as (p & Hp & Hr).
  exists p. split; [|exact Hr].
  eapply Permutation_in; [apply as_completed_perm | exact Hp].
Qed.

(** The scorecard a submitted job stored on the estimator it returned. *)
Lemma submitted_job_scorecard xt yt x_test y_test o alg params p e :
  In p (submitted coefficients xt yt x_test y_test o alg params) ->
  fut_result p = Ok (Some e) ->
  exists s recall_avg var,
    est_scores e = Some s /\
    split_scorecard recall_avg e (job_selector (fut_class p) o)
      (fst (stored_split xt yt x_test y_test))
      (snd (stored_split xt yt x_test y_test)) var s.
Proof.
  intros Hin Hr. apply submitted_job in Hin.
  destruct Hin as (_ & _ & o' & params' & Hrun & _ & _ & Hsel).
  unfold fut_result in Hr. rewrite (run_eta (fut_run p)), Hr in Hrun.
  symmetry in Hrun. apply trainer_scorecard in Hrun.
  destruct Hrun as (_ & s & avg & var & Hs & Hsplit).
  rewrite Hsel in Hsplit. eauto.
Qed.

(** C4, amended. With the algorithms restricted to logistic and dtree and no
    search, a report that is assembled has exactly two rows; on a two-class
    problem every scorecard in it has the keys pseudo-R2, accuracy, precision,
    recall, fallout, specificity and F1, followed by AUC exactly when the
    estimator has [predict_proba]. *)
Theorem two_binary_jobs_scorecards
    (x_train : DataFrame) (y_train : Series)
    (x_test : option DataFrame) (y_test : option Series) (o : Options)
    (params : Params) (l : list Event) (rep : Report) (v : Returned) :
  (cv o <= 0)%Z ->
  my_classification coefficients as_completed x_train y_train x_test y_test o
    (Some ["logistic"; "dtree"]) params = (l, Ok (rep, v)) ->
  (forall n e, In (n, e) (mapping rep) -> is_binary e = true) ->
  List.length (index (table rep)) = 2%nat /\
  List.length (rows (table rep)) = 2%nat /\
  forall n e, In (n, e) (mapping rep) ->
    exists s, est_scores e = Some s /\
      keys s = binary_keys ++ (if has_predict_proba e then [K_AUC] else []).
Proof.
  intros Hcv H Hbin.
  set (processes := submitted coefficients x_train y_train x_test y_test o
                      (Some ["logistic"; "dtree"]) params) in *.
  pose proof H as H'. apply my_classification_inv in H'.
  destruct H' as (acc & Hd & Hrep & _). fold processes in Hd.
  apply drain_Ok in Hd. destruct Hd as (Hok & Hn & _ & _ & Hrows).
  assert (Hall : filter succeeded (as_completed processes) = as_completed processes).
  { apply forallb_filter_id. apply forallb_forall. intros p Hp.
    destruct (Hok p Hp) as (r & Hres). unfold succeeded. rewrite Hres.
    destruct r as [e|]; [reflexivity|]. exfalso.
    assert (Hp' : In p processes)
      by (eapply Permutation_in; [apply as_completed_perm | exact Hp]).
    eapply submitted_direct_never_None; [exact Hcv | exact Hp' | exact Hres]. }
  assert (Hlen : List.length (returned_estimators (as_completed processes)) = 2%nat).
  { rewrite returned_length, Hall.
    rewrite (Permutation_length (as_completed_perm processes)). reflexivity. }
  split; [rewrite Hrep; simpl; rewrite Hn; simpl; rewrite length_map; exact Hlen|].
  split; [rewrite Hrep; simpl; rewrite Hrows; simpl; exact Hlen|].
  intros n e Hin.
  edestruct mapping_entry_job as (p & Hp & Hres); [exact H | exact Hin |].
  edestruct submitted_job_scorecard
    as (s & avg & var & Hs & (proba & pseudo & P & _ & Hcase));
    [exact Hp | exact Hres |].
  exists s. split; [exact Hs|].
  destruct Hcase as [(_ & TN & FP & FN & TP & _ & ->)|(B & _)].
  - rewrite binary_result_keys. apply proba_1_has in P.
    destruct proba; rewrite P; reflexivity.
  - rewrite (Hbin n e Hin) in B. discriminate.
Qed.

(** C7, amended. For a multi-class job with probability estimates, the
    stored scorecard has an AUC(ovo) entry exactly when the selector the job
    runs with is "ovo" or unspecified, and an AUC(ovr) entry exactly when it is
    "ovr" or unspecified. The job runs with the dispatcher's selector, except
    the svc job, which always runs with the selector unspecified. *)
Theorem auc_entries_follow_job_selector
    (x_train : DataFrame) (y_train : Series)
    (x_test : option DataFrame) (y_test : option Series) (o : Options)
    (algorithm : option (list string)) (params : Params)
    (p : Future) (e : Estimator) :
  In p (submitted coefficients x_train y_train x_test y_test o algorithm params) ->
  fut_result p = Ok (Some e) ->
  is_binary e = false ->
  has_predict_proba e = true ->
  let selector := job_selector (fut_class p) o in
  exists s,
    est_scores e = Some s /\
    (In K_AUC_OVO (keys s) <-> selector = Some "ovo" \/ selector = None) /\
    (In K_AUC_OVR (keys s) <-> selector = Some "ovr" \/ selector = None) /\
    (selector = Some "ovr" -> In K_AUC_OVR (keys s) /\ ~ In K_AUC_OVO (keys s)).
Proof.
  intros Hp Hres B P selector.
  edestruct submitted_job_scorecard
    as (s & avg & var & Hs & (proba & pseudo & P1 & _ & Hcase));
    [exact Hp | exact Hres |].
  fold selector in Hcase.
  exists s. split; [exact Hs|].
  destruct Hcase as [(B' & _)|(_ & ->)]; [congruence|].
  apply proba_1_has in P1. destruct proba as [[pm p1]|]; [|congruence].
  rewrite multiclass_auc_keys.
  assert (Hovo : In K_AUC_OVO
                   ([K_ACCURACY; K_PRECISION; K_RECALL; K_F1]
                    ++ (if selects "ovo" selector then [K_AUC_OVO] else [])
                    ++ (if selects "ovr" selector then [K_AUC_OVR] else []))
                 <-> selects "ovo" selector = true).
  { rewrite !in_app_iff, !in_optional. split.
    - intros [H|[[H _]|[_ H]]]; [|exact H|cbv in H; discriminate H].
      simpl in H. repeat (destruct H as [H|H]; [cbv in H; discriminate H|]).
      destruct H.
    - intros H. right. left. split; [exact H | reflexivity]. }
  assert (Hovr : In K_AUC_OVR
                   ([K_ACCURACY; K_PRECISION; K_RECALL; K_F1]
                    ++ (if selects "ovo" selector then [K_AUC_OVO] else [])
                    ++ (if selects "ovr" selector then [K_AUC_OVR] else []))
                 <-> selects "ovr" selector = true).
  { rewrite !in_app_iff, !in_optional. split.
    - intros [H|[[_ H]|[H _]]]; [|cbv in H; discriminate H|exact H].
      simpl in H. repeat (destruct H as [H|H]; [cbv in H; discriminate H|]).
      destruct H.
    - intros H. right. right. split; [exact H | reflexivity]. }
  rewrite Hovo, Hovr, !selects_spec.
  split; [tauto|]. split; [tauto|].
  intros E. split; [auto|]. rewrite E. intros [H|H]; discriminate.
Qed.

(** C9, amended. An empty algorithm list is no restriction: the call is
    the same as with no list, and the six families are selected. All six are
    handed to the pool when the extra keyword arguments repeat no keyword
    written out in the calls of [executor.submit]; when they hold [is_print]
    none is, and the call raises TypeError at the first of them. A list that
    holds only identifiers the dispatcher does not know submits nothing and
    assembles an empty report without raising, whatever the extra keyword
    arguments are. *)
Theorem empty_or_unknown_algorithm_list
    (x_train : DataFrame) (y_train : Series)
    (x_test : option DataFrame) (y_test : option Series) (o : Options)
    (params : Params) :
  let all_six :=
    submitted coefficients x_train y_train x_test y_test o None params in
  my_classification coefficients as_completed x_train y_train x_test y_test o
    (Some []) params
  = my_classification coefficients as_completed x_train y_train x_test y_test o
      None params /\
  map fut_id all_six = ["logistic"; "knn"; "svc"; "nb"; "dtree"; "sgd"] /\
  ((forall c, duplicate_keyword (submit_keywords c) params = None) ->
   submit_each params all_six = Ok all_six) /\
  (In "is_print" (keys params) ->
   exists k,
     submit_each params all_six = Raise (duplicate_keyword_error k) /\
     my_classification coefficients as_completed x_train y_train x_test y_test o
       None params = ([], Raise (duplicate_keyword_error k))) /\
  forall unknown : list string,
    unknown <> [] ->
    (forall id, In id unknown -> ~ In id (map fst job_table)) ->
    submitted coefficients x_train y_train x_test y_test o (Some unknown) params = [] /\
    my_classification coefficients as_completed x_train y_train x_test y_test o
      (Some unknown) params
    = ([PrettyTable (Plain (mkTable [] [] []))],
       Ok (mkReport [] (mkTable [] [] []), [])).
Proof.
  intros all_six.
  split; [reflexivity|]. split; [reflexivity|].
  split; [intros H; apply submit_each_clean; intros p _; apply H|].
  split.
  { intros Hin. unfold my_classification. fold all_six.
    assert (E : exists p rest, all_six = p :: rest)
      by (unfold all_six, submitted, submit_if; simpl; eauto).
    destruct E as (p & rest & E). rewrite E.
    destruct (@submit_each_is_print params p rest Hin) as (k & Hk).
    exists k. rewrite Hk. split; reflexivity. }
  intros unknown Hne Hunknown.
  assert (R : forall id, In id (map fst job_table) -> requested (Some unknown) id = false).
  { intros id Hid. unfold requested. destruct unknown as [|u us]; [congruence|].
    destruct (existsb (String.eqb id) (u :: us)) eqn:E; [|reflexivity].
    apply existsb_exists in E. destruct E as (x & Hx & E).
    apply String.eqb_eq in E. subst x. exfalso. exact (Hunknown id Hx Hid). }
  assert (S : submitted coefficients x_train y_train x_test y_test o (Some unknown) params = []).
  { unfold submitted, submit_if. simpl fut_id.
    rewrite !R by (simpl; tauto). reflexivity. }
  split; [exact S|].
  unfold my_classification. rewrite S. simpl submit_each. simpl bind.
  rewrite as_completed_nil. reflexivity.
Qed.

End ReportFacts.

(** ** The order of the rows *)

Lemma futures_as_completed_perm (s : Schedule) :
  (forall fs, Permutation (finishing s fs) fs) ->
  (forall fs, Permutation (set_order s fs) fs) ->
  forall fs, Permutation (futures_as_completed s fs) fs.
Proof.
  intros Hf Hs fs. unfold futures_as_completed, yielded_first, yielded_as_finished.
  etransitivity; [|apply Hf].
  rewrite <- (firstn_skipn (finished_at_entry s) (finishing s fs)) at 3.
  apply Permutation_app_tail. apply Hs.
Qed.

Section RowOrder.

Context {EL : EstimatorLibrary} {ML : MetricsLibrary}.

Variable coefficients :
  Estimator -> DataFrame -> Series -> option DataFrame -> option Series ->
  option string -> M unit.

(** The pool finishes every job it was given, and a set is walked through
    all of its members. *)
Variable s : Schedule.
Hypothesis finishing_perm : forall fs, Permutation (finishing s fs) fs.
Hypothesis set_order_perm : forall fs, Permutation (set_order s fs) fs.

(** C2, amended. The assembled report has no row and no mapping entry for a
    job that returned no result, and one row and one entry for every other
    job, in the order in which [futures.as_completed] yields the jobs: first
    the jobs that had already finished when the collecting loop reached it, in
    the order of a set, then the others in the order in which they finish. The
    rows are in completion order when no job had finished by then. *)
Theorem report_rows_follow_as_completed
    (x_train : DataFrame) (y_train : Series)
    (x_test : option DataFrame) (y_test : option Series) (o : Options)
    (algorithm : option (list string)) (params : Params)
    (l : list Event) (rep : Report) (v : Returned) :
  my_classification coefficients (futures_as_completed s) x_train y_train x_test
    y_test o algorithm params = (l, Ok (rep, v)) ->
  let processes :=
    submitted coefficients x_train y_train x_test y_test o algorithm params in
  let name := fun p => class_name (fut_class p) in
  index (table rep)
  = map name (filter succeeded (yielded_first s processes))
    ++ map name (filter succeeded (yielded_as_finished s processes)) /\
  keys (mapping rep) = index (table rep) /\
  List.length (rows (table rep)) = List.length (index (table rep)) /\
  (finished_at_entry s = 0%nat ->
   index (table rep) = map name (filter succeeded (finishing s processes))) /\
  forall p, In p processes -> fut_result p = Ok None ->
    ~ In (name p) (index (table rep)) /\
    dict_get (name p) (mapping rep) = None.
Proof.
  intros H processes name.
  destruct (@report_rows_follow_the_iterator EL ML coefficients
              (futures_as_completed s)
              (@futures_as_completed_perm s finishing_perm set_order_perm)
              x_train y_train x_test y_test o algorithm params l rep v H)
    as (Hindex & Hkeys & Hrows & Hnone).
  fold processes in Hindex, Hkeys, Hrows, Hnone.
  assert (E : index (table rep)
              = map name (filter succeeded (yielded_first s processes))
                ++ map name (filter succeeded (yielded_as_finished s processes))).
  { rewrite Hindex. unfold futures_as_completed.
    rewrite filter_app, map_app. reflexivity. }
  split; [exact E|].
  split; [rewrite Hkeys, Hindex; reflexivity|].
  split; [rewrite Hrows, Hindex, length_map; reflexivity|].
  split; [|exact Hnone].
  intros H0. rewrite E. unfold yielded_first, yielded_as_finished. rewrite H0.
  simpl firstn. simpl skipn.
  rewrite (Permutation_nil (Permutation_sym (set_order_perm []))). reflexivity.
Qed.

End RowOrder.

(** ** Degenerate validation splits *)

Lemma count_pairs_nonneg (y p : Series) (a b : Z) : (0 <= count_pairs y p a b)%Z.
Proof. unfold count_pairs. lia. Qed.

Lemma confusion_matrix_nonneg (y p : Series) (m : list (list Z)) :
  confusion_matrix y p = Ok m ->
  Forall (Forall (fun z => (0 <= z)%Z)) m.
Proof.
  unfold confusion_matrix. destruct (Nat.eqb _ _); [|discriminate].
  intros H. injection H as <-.
  apply Forall_forall. intros row Hrow. apply in_map_iff in Hrow.
  destruct Hrow as (a & <- & _).
  apply Forall_forall. intros z Hz. apply in_map_iff in Hz.
  destruct Hz as (b & <- & _). apply count_pairs_nonneg.
Qed.

Section DegenerateSplits.

Context {ML : MetricsLibrary}.

(** When the scorecard of a binary split is produced and its confusion
    matrix has no sample of the negative class, fallout and specificity are
    NaN: the division [FP / (TN + FP)] is [0 / 0]. *)
Lemma fallout_nan_without_negatives recall_avg e multiclass x y var s TN FP FN TP :
  split_scorecard recall_avg e multiclass x y var s ->
  is_binary e = true ->
  confusion_matrix y (predict (fitted e) x) = Ok [[TN; FP]; [FN; TP]] ->
  (TN + FP = 0)%Z ->
  dict_get K_FALLOUT s = Some (PyFloat nan) /\
  dict_get K_TNR s = Some (PyFloat nan).
Proof.
  intros (proba & pseudo & _ & _ & Hcase) B Hm Hz.
  destruct Hcase as [(_ & TN' & FP' & FN' & TP' & Hm' & ->)|(B' & _)]; [|congruence].
  rewrite Hm in Hm'. injection Hm' as <- <- <- <-.
  apply confusion_matrix_nonneg in Hm.
  inversion Hm as [|? ? Hrow _]; subst.
  inversion Hrow as [|? ? HTN Hrest]; subst.
  inversion Hrest as [|? ? HFP _]; subst.
  assert (TN = 0%Z) by lia. assert (FP = 0%Z) by lia. subst TN FP.
  destruct (binary_result_fallout pseudo y (predict (fitted e) x) 0 0 proba) as [H1 H2].
  rewrite H1, H2. split; reflexivity.
Qed.

(** The labels of a two-class problem in which both classes occur. *)
Lemma unique_labels_two (a b : Z) (l : Series) :
  (a < b)%Z ->
  (forall z, In z l -> z = a \/ z = b) ->
  fold_right insert_label [] l =
  (if existsb (Z.eqb a) l then [a] else []) ++ (if existsb (Z.eqb b) l then [b] else []).
Proof.
  intros Hab. induction l as [|z l IH]; intros Hl; [reflexivity|].
  simpl. rewrite IH by (intros; apply Hl; right; assumption).
  assert (Hba : (b =? a)%Z = false) by (apply Z.eqb_neq; lia).
  assert (Hab' : (a =? b)%Z = false) by (apply Z.eqb_neq; lia).
  assert (Lab : (a <? b)%Z = true) by (apply Z.ltb_lt; lia).
  assert (Lba : (b <? a)%Z = false) by (apply Z.ltb_ge; lia).
  destruct (Hl z (or_introl eq_refl)) as [->| ->].
  - rewrite Z.eqb_refl, Hba. simpl.
    destruct (existsb (Z.eqb a) l), (existsb (Z.eqb b) l); simpl;
      rewrite ?Z.ltb_irrefl, ?Z.eqb_refl, ?Lab; reflexivity.
  - rewrite Z.eqb_refl, Hab'. simpl.
    destruct (existsb (Z.eqb a) l), (existsb (Z.eqb b) l); simpl;
      rewrite ?Lba, ?Hba, ?Z.ltb_irrefl, ?Z.eqb_refl; simpl;
      rewrite ?Z.ltb_irrefl, ?Z.eqb_refl; reflexivity.
Qed.

Lemma existsb_In_Z (a : Z) (l : Series) : In a l -> existsb (Z.eqb a) l = true.
Proof.
  intros H. apply existsb_exists. exists a. split; [exact H | apply Z.eqb_refl].
Qed.

(** With both classes among the true labels the confusion matrix is 2 by 2
    and the binary split returns its scorecard: nothing in the reporter's own
    steps raises. *)
Lemma binary_split_returns e multiclass x y (a b : Z) proba :
  is_binary e = true ->
  (a < b)%Z -> In a y -> In b y ->
  (forall z, In z y -> z = a \/ z = b) ->
  (forall z, In z (predict (fitted e) x) -> z = a \/ z = b) ->
  List.length y = List.length (predict (fitted e) x) ->
  proba_1 e x = Ok proba ->
  (is_class "LogisticRegression" e = true -> has_predict_proba e = true) ->
  exists s_train s_test,
    outcome (train_scores e multiclass x y) = Ok s_train /\
    outcome (test_scores e multiclass x y) = Ok s_test.
Proof.
  intros B Hab Ha Hb Hy Hp L P Hlog.
  assert (Hps : exists pseudo, forall var, outcome (pseudo_r2 e y proba var) = Ok pseudo).
  { unfold pseudo_r2. rewrite B. simpl.
    destruct (is_class "LogisticRegression" e) eqn:E;
      [|eexists; intros; reflexivity].
    apply proba_1_has in P.
    destruct proba as [[pm p1]|]; [eexists; intros; reflexivity|].
    rewrite (Hlog eq_refl) in P. discriminate. }
  destruct Hps as (pseudo & Hps).
  assert (Hm : exists TN FP FN TP,
            confusion_matrix y (predict (fitted e) x) = Ok [[TN; FP]; [FN; TP]]).
  { unfold confusion_matrix, unique_labels. rewrite L, Nat.eqb_refl.
    rewrite unique_labels_two with (a := a) (b := b).
    - rewrite !existsb_In_Z by (apply in_or_app; left; assumption).
      simpl. eauto.
    - exact Hab.
    - intros z Hz. apply in_app_or in Hz. destruct Hz; auto. }
  destruct Hm as (TN & FP & FN & TP & Hm).
  eexists. eexists. split.
  - unfold train_scores.
    rewrite outcome_bind, outcome_call_predict.
    rewrite outcome_bind, outcome_call_predict_proba_1, P.
    rewrite outcome_bind, Hps.
    rewrite outcome_bind. simpl outcome at 1. rewrite Hm, B. reflexivity.
  - unfold test_scores.
    rewrite outcome_bind, outcome_call_predict.
    rewrite outcome_bind, outcome_call_predict_proba_1, P.
    rewrite outcome_bind, Hps.
    rewrite outcome_bind. simpl outcome at 1. rewrite Hm, B. reflexivity.
Qed.

End DegenerateSplits.

(** * Further properties of the harness *)

(** ** The trainer *)

Section TrainerProperties.

Context {EL : EstimatorLibrary} {ML : MetricsLibrary}.

Variable coefficients :
  Estimator -> DataFrame -> Series -> option DataFrame -> option Series ->
  option string -> M unit.

Lemma search_args_returns (c : Algorithm) :
  exists args, outcome (search_args c) = Ok args.
Proof. exact (proj2 (search_args_quiet c)). Qed.

(** X1. A job returns no result ([None]) exactly when it ran a search
    ([cv > 0]), its prototype was constructed, and the search raised: that is
    the only exception the trainer catches. *)
Theorem no_result_iff_search_failed
    (c : Algorithm) (x_train : DataFrame) (y_train : Series)
    (x_test : option DataFrame) (y_test : option Series)
    (o : Options) (params : Params) :
  outcome (__my_classification coefficients c x_train y_train x_test y_test o params)
    = Ok None
  <->
  (cv o > 0)%Z /\
  exists args proto ex,
    outcome (search_args c) = Ok args /\
    construct c args = Ok proto /\
    randomized_search_fit proto params (cv o) (-1) 500 x_train y_train = Raise ex.
Proof.
  split.
  - intros H. apply trainer_None in H.
    pose proof (@direct_build_never_None EL c x_train y_train o params) as Hdirect.
    unfold build_estimator in H.
    destruct (Z.gtb_spec (cv o) 0) as [Hcv|Hcv].
    + split; [lia|].
      split_run H. exists a.
      split_run H. simpl in Ha0. exists a0.
      split_run H.
      destruct (randomized_search_fit a0 params (cv o) (-1) 500 x_train y_train)
        as [grid|ex].
      * split_run H. discriminate H.
      * exists ex. auto.
    + exfalso. apply (Hdirect Hcv). unfold build_estimator.
      destruct (Z.gtb_spec (cv o) 0); [lia | exact H].
  - intros (Hcv & args & proto & ex & Hargs & Hproto & Hsearch).
    unfold __my_classification, build_estimator.
    destruct (Z.gtb_spec (cv o) 0) as [_|Hle]; [|lia].
    rewrite !outcome_bind, Hargs. simpl. rewrite Hproto. simpl.
    rewrite Hsearch. reflexivity.
Qed.

End TrainerProperties.

(** ** What a job stores on the estimator it returns *)

Section JobProperties.

Context {EL : EstimatorLibrary} {ML : MetricsLibrary}.

Variable coefficients :
  Estimator -> DataFrame -> Series -> option DataFrame -> option Series ->
  option string -> M unit.

(** A returned estimator is the one the model-building half produced, with
    the attributes and then the scorecard set on it. *)
Lemma trainer_run_inv c xt yt x_test y_test o params l e' :
  __my_classification coefficients c xt yt x_test y_test o params
    = (l, Ok (Some e')) ->
  exists f bp l0 s,
    build_estimator c xt yt o params = (l0, Ok (Some (new_estimator c f bp))) /\
    e' = set_scores (attached c f bp xt yt x_test y_test) s.
Proof.
  unfold __my_classification. intros H.
  apply bind_inv in H. destruct H as (l0 & built & lr & Hbuilt & H & _).
  destruct built as [e0|]; [|discriminate].
  destruct (build_estimator_inv _ _ _ _ _ Hbuilt) as (_ & f & bp & ->).
  apply bind_inv in H. destruct H as (la & y_pred & lb & Hpred & H & _).
  injection Hpred as _ <-.
  apply bind_inv in H. destruct H as (lc & y_pred_prob & ld & Hprob & H & _).
  pose proof (run_parts Hprob) as [_ Hprob'].
  rewrite outcome_call_predict_proba in Hprob'. injection Hprob' as <-.
  apply bind_inv in H. destruct H as (le & y_pred' & lf & Hpred' & H & _).
  apply bind_inv in H. destruct H as (lg & proba' & lh & Hproba' & H & _).
  apply bind_inv in H. destruct H as (li & est & lj & Hrep & H & _).
  apply bind_inv in H. destruct H as (lk & u & lm & _ & H & _).
  injection H as _ <-.
  assert (E : set_results (new_estimator c f bp) (or_else x_test xt)
                (or_else y_test yt) y_pred' proba'
              = attached c f bp xt yt x_test y_test).
  { unfold attached. destruct y_test as [ys|].
    - injection Hpred' as _ <-. injection Hproba' as _ <-. reflexivity.
    - pose proof (run_parts Hpred') as [_ Hp]. rewrite outcome_call_predict in Hp.
      injection Hp as <-.
      pose proof (run_parts Hproba') as [_ Hq']. rewrite outcome_call_predict_proba in Hq'.
      injection Hq' as <-. reflexivity. }
  rewrite E in Hrep.
  assert (Hs : exists s, est = set_scores (attached c f bp xt yt x_test y_test) s).
  { destruct (both x_test y_test) as [[xs ys]|];
      apply reporter_inv in Hrep;
      destruct Hrep as (named & s & _ & _ & -> & _); eauto. }
  destruct Hs as (s & ->).
  exists f, bp, l0, s. auto.
Qed.

Lemma build_estimator_best_params c xt yt o params l0 f bp :
  build_estimator c xt yt o params = (l0, Ok (Some (new_estimator c f bp))) ->
  ((cv o > 0)%Z -> bp <> None) /\ ((cv o <= 0)%Z -> bp = None).
Proof.
  unfold build_estimator. destruct (Z.gtb_spec (cv o) 0) as [Hcv|Hcv]; intros H.
  - split; [intros _ | lia].
    apply bind_inv in H. destruct H as (l1 & args & l2 & _ & H & _).
    apply bind_inv in H. destruct H as (l3 & proto & l4 & _ & H & _).
    apply bind_inv in H. destruct H as (l5 & u & l6 & _ & H & _).
    destruct (randomized_search_fit proto params (cv o) (-1) 500 xt yt) as [grid|ex].
    + apply bind_inv in H. destruct H as (l7 & u7 & l8 & _ & H & _).
      injection H as _ _ H. rewrite <- H. discriminate.
    + apply bind_inv in H. destruct H as (l7 & u7 & l8 & _ & H & _). discriminate.
  - split; [lia | intros _].
    apply bind_inv in H. destruct H as (l1 & p' & l2 & _ & H & _).
    apply bind_inv in H. destruct H as (l3 & proto & l4 & _ & H & _).
    apply bind_inv in H. destruct H as (l5 & f' & l6 & _ & H & _).
    injection H as _ _ H. symmetry. exact H.
Qed.

(** X2. The estimator a job returns carries the class it was asked to
    train, [x] and [y] are the validation data where given and the training
    data otherwise, each on its own; the attached predictions and probabilities
    are computed on the validation features only when validation labels are
    given too, and [best_params] is set exactly when a search ran. *)
Theorem attached_attributes
    (c : Algorithm) (x_train : DataFrame) (y_train : Series)
    (x_test : option DataFrame) (y_test : option Series)
    (o : Options) (params : Params) (l : list Event) (e : Estimator) :
  __my_classification coefficients c x_train y_train x_test y_test o params
    = (l, Ok (Some e)) ->
  cls e = c /\
  est_x e = Some (or_else x_test x_train) /\
  est_y e = Some (or_else y_test y_train) /\
  est_y_pred e
    = Some (predict (fitted e) (attached_input x_train x_test y_test)) /\
  est_y_pred_proba e
    = option_map (fun pp => pp (attached_input x_train x_test y_test))
        (predict_proba (fitted e)) /\
  ((cv o > 0)%Z -> est_best_params e <> None) /\
  ((cv o <= 0)%Z -> est_best_params e = None).
Proof.
  intros H. apply trainer_run_inv in H.
  destruct H as (f & bp & l0 & s & Hbuild & ->).
  apply build_estimator_best_params in Hbuild. destruct Hbuild as [Hs Hn].
  unfold attached_input. simpl.
  repeat split; try assumption; destruct y_test; reflexivity.
Qed.

(** X3. The keys of the stored scorecard depend only on whether the
    estimator is binary, whether it has [predict_proba], and the selector:
    seven keys and AUC for a binary estimator, four keys and the selected
    AUC(ovo)/AUC(ovr) otherwise. No pseudo-R2, fallout or specificity key is
    ever stored for a multi-class estimator. *)
Theorem stored_scorecard_keys
    (c : Algorithm) (x_train : DataFrame) (y_train : Series)
    (x_test : option DataFrame) (y_test : option Series)
    (o : Options) (params : Params) (l : list Event) (e : Estimator) :
  __my_classification coefficients c x_train y_train x_test y_test o params
    = (l, Ok (Some e)) ->
  exists s,
    est_scores e = Some s /\
    keys s = if is_binary e
             then binary_keys ++ (if has_predict_proba e then [K_AUC] else [])
             else multiclass_keys (has_predict_proba e) (multiclass o).
Proof.
  intros H. apply trainer_scorecard in H.
  destruct H as (_ & s & avg & var & Hs & (proba & pseudo & P & _ & Hcase)).
  exists s. split; [exact Hs|].
  apply proba_1_has in P.
  destruct Hcase as [(B & TN & FP & FN & TP & _ & ->)|(B & ->)]; rewrite B.
  - rewrite binary_result_keys. destruct proba; rewrite P; reflexivity.
  - unfold multiclass_keys. destruct proba as [[pm p1]|]; rewrite P.
    + apply multiclass_auc_keys.
    + reflexivity.
Qed.

(** X4. For a binary estimator the stored fallout is [FP / (TN + FP)] and
    the stored specificity is one minus that same quotient, with the counts
    taken from the confusion matrix of the stored split: the validation split
    when both validation features and labels are given, the training split
    otherwise. When that split has no sample of the negative class, both
    entries are NaN. *)
Theorem stored_fallout_and_specificity
    (c : Algorithm) (x_train : DataFrame) (y_train : Series)
    (x_test : option DataFrame) (y_test : option Series)
    (o : Options) (params : Params) (l : list Event) (e : Estimator) :
  __my_classification coefficients c x_train y_train x_test y_test o params
    = (l, Ok (Some e)) ->
  is_binary e = true ->
  let x := fst (stored_split x_train y_train x_test y_test) in
  let y := snd (stored_split x_train y_train x_test y_test) in
  exists s TN FP FN TP,
    est_scores e = Some s /\
    confusion_matrix y (predict (fitted e) x) = Ok [[TN; FP]; [FN; TP]] /\
    dict_get K_FALLOUT s = Some (PyFloat (np_true_divide FP (TN + FP))) /\
    dict_get K_TNR s
      = Some (PyFloat (PrimFloat.sub one (np_true_divide FP (TN + FP)))) /\
    ((TN + FP = 0)%Z ->
       dict_get K_FALLOUT s = Some (PyFloat nan) /\
       dict_get K_TNR s = Some (PyFloat nan)).
Proof.
  intros H B. cbv zeta. apply trainer_scorecard in H.
  destruct H as (_ & s & avg & var & Hs & Hsplit).
  pose proof Hsplit as (proba & pseudo & _ & _ & Hcase).
  destruct Hcase as [(_ & TN & FP & FN & TP & Hm & E)|(B' & _)]; [|congruence].
  exists s, TN, FP, FN, TP.
  split; [exact Hs|]. split; [exact Hm|].
  split; [rewrite E; apply binary_result_fallout|].
  split; [rewrite E; apply binary_result_fallout|].
  intros Hz. eapply fallout_nan_without_negatives; eassumption.
Qed.

End JobProperties.

(** ** The hyperparameters that reach the constructor *)

Section Overrides.

Context {EL : EstimatorLibrary}.

Lemma neq_eqb (k k' : string) : k <> k' -> String.eqb k k' = false.
Proof. intros H. apply String.eqb_neq. exact H. Qed.

(** X5. Without a search ([cv <= 0]) the constructor receives the caller's
    hyperparameters with [n_jobs] forced to -1 and [random_state] forced to
    1234 whenever the class accepts them: a value the caller gave for either is
    overwritten, every other hyperparameter is passed on unchanged, and the
    estimator is the constructor's prototype fitted once on the training data. *)
Theorem direct_fit_overrides
    (c : Algorithm) (x_train : DataFrame) (y_train : Series)
    (o : Options) (params : Params) :
  (cv o <= 0)%Z ->
  exists p',
    outcome (direct_params c params) = Ok p' /\
    dict_get "n_jobs" p'
      = (if accepts c "n_jobs" then Some (PInt (-1)) else dict_get "n_jobs" params) /\
    dict_get "random_state" p'
      = (if accepts c "random_state" then Some (PInt 1234)
         else dict_get "random_state" params) /\
    (forall k, k <> "n_jobs" -> k <> "random_state" ->
       dict_get k p' = dict_get k params) /\
    outcome (build_estimator c x_train y_train o params)
      = match construct c p' with
        | Ok prototype =>
            match fit prototype x_train y_train with
            | Ok f => Ok (Some (new_estimator c f None))
            | Raise ex => Raise ex
            end
        | Raise ex => Raise ex
        end.
Proof.
  intros Hcv.
  assert (Hp : exists p', outcome (direct_params c params) = Ok p' /\
             p' = (let p1 := if accepts c "n_jobs"
                             then dict_set "n_jobs" (PInt (-1)) params else params in
                   if accepts c "random_state"
                   then dict_set "random_state" (PInt 1234) p1 else p1)).
  { unfold direct_params.
    destruct (accepts c "n_jobs"), (accepts c "random_state"); simpl; eauto. }
  destruct Hp as (p' & Hout & Hp'). exists p'. split; [exact Hout|].
  split; [|split; [|split]].
  - subst p'. cbv zeta.
    destruct (accepts c "n_jobs"), (accepts c "random_state");
      rewrite ?dict_get_set_other by reflexivity;
      rewrite ?dict_get_set_same; reflexivity.
  - subst p'. cbv zeta.
    destruct (accepts c "n_jobs"), (accepts c "random_state");
      rewrite ?dict_get_set_same;
      rewrite ?dict_get_set_other by reflexivity; reflexivity.
  - intros k H1 H2. subst p'. cbv zeta.
    destruct (accepts c "n_jobs"), (accepts c "random_state");
      rewrite ?dict_get_set_other by (apply neq_eqb; assumption); reflexivity.
  - unfold build_estimator. destruct (Z.gtb_spec (cv o) 0); [lia|].
    rewrite outcome_bind, Hout. rewrite outcome_bind. simpl outcome at 1.
    destruct (construct c p') as [proto|ex]; [|reflexivity].
    rewrite outcome_bind. simpl outcome at 1.
    destruct (fit proto x_train y_train); reflexivity.
Qed.

(** X6. With a search ([cv > 0]) the constructor never sees the caller's
    hyperparameters: it receives [n_jobs=-1], [random_state=1234] and
    [early_stopping=True], each only if the class accepts it, and nothing
    else. The caller's hyperparameters are the search space, searched with the
    caller's fold count, [n_jobs=-1] and 500 iterations; a search that raises
    gives no result, and a search that returns gives its best estimator with its
    best parameters attached. *)
Theorem search_overrides
    (c : Algorithm) (x_train : DataFrame) (y_train : Series)
    (o : Options) (params : Params) :
  (cv o > 0)%Z ->
  exists args,
    outcome (search_args c) = Ok args /\
    dict_get "n_jobs" args
      = (if accepts c "n_jobs" then Some (PInt (-1)) else None) /\
    dict_get "random_state" args
      = (if accepts c "random_state" then Some (PInt 1234) else None) /\
    dict_get "early_stopping" args
      = (if accepts c "early_stopping" then Some (PBool true) else None) /\
    (forall k, In k (keys args) ->
       k = "n_jobs" \/ k = "random_state" \/ k = "early_stopping") /\
    outcome (build_estimator c x_train y_train o params)
      = match construct c args with
        | Ok prototype =>
            match randomized_search_fit prototype params (cv o) (-1) 500
                    x_train y_train with
            | Ok grid =>
                Ok (Some (new_estimator c (best_estimator_ grid)
                            (Some (best_params_ grid))))
            | Raise _ => Ok None
            end
        | Raise ex => Raise ex
        end.
Proof.
  intros Hcv.
  assert (Ha : exists args, outcome (search_args c) = Ok args /\
             args = (if accepts c "n_jobs" then [("n_jobs", PInt (-1))] else [])
                    ++ (if accepts c "random_state"
                        then [("random_state", PInt 1234)] else [])
                    ++ (if accepts c "early_stopping"
                        then [("early_stopping", PBool true)] else [])).
  { unfold search_args.
    destruct (accepts c "n_jobs"), (accepts c "random_state"),
      (accepts c "early_stopping"); simpl; eauto. }
  destruct Ha as (args & Hout & Hargs). exists args. split; [exact Hout|].
  split; [|split; [|split; [|split]]].
  - subst args. destruct (accepts c "n_jobs"), (accepts c "random_state"),
      (accepts c "early_stopping"); reflexivity.
  - subst args. destruct (accepts c "n_jobs"), (accepts c "random_state"),
      (accepts c "early_stopping"); reflexivity.
  - subst args. destruct (accepts c "n_jobs"), (accepts c "random_state"),
      (accepts c "early_stopping"); reflexivity.
  - intros k. subst args.
    destruct (accepts c "n_jobs"), (accepts c "random_state"),
      (accepts c "early_stopping"); simpl; intuition auto.
  - unfold build_estimator. destruct (Z.gtb_spec (cv o) 0); [|lia].
    rewrite outcome_bind, Hout. rewrite outcome_bind. simpl outcome at 1.
    destruct (construct c args) as [proto|ex]; [|reflexivity].
    rewrite outcome_bind. simpl outcome at 1.
    destruct (randomized_search_fit proto params (cv o) (-1) 500 x_train y_train);
      [|reflexivity].
    rewrite outcome_bind, outcome_when. destruct (is_print o); reflexivity.
Qed.

End Overrides.

(** ** The reporter called on its own *)

Section ReporterEdges.

Context {ML : MetricsLibrary}.

(** X7. Called without a complete split (no training pair and no validation
    pair), the reporter raises IndexError at [scores[-2]]: the only entry of
    [scores] is the explanatory row, which it has printed first when
    [is_print] is set. *)
Theorem reporter_without_data_raises
    (e : Estimator) (x_train : option DataFrame) (y_train : option Series)
    (x_test : option DataFrame) (y_test : option Series) (o : Options) :
  both x_train y_train = None ->
  both x_test y_test = None ->
  my_classification_result e x_train y_train x_test y_test o
  = ((if is_print o
      then [Print "[분류분석 성능평가]";
            PrettyTable (Transposed
              (performance_table e [description e (multiclass o)] ["설명"]))]
      else []),
     Raise (IndexError "list index out of range")).
Proof.
  intros Htrain Htest. unfold my_classification_result.
  rewrite Htrain, Htest. destruct (is_print o); reflexivity.
Qed.

(** X8. Called with a validation pair but no training labels, the reporter
    scores the validation split alone. With [is_print] and [learning_curve]
    both set it then raises AttributeError at [y_train.name], after the
    scorecard was computed; otherwise it stores the validation scorecard and
    returns. *)
Theorem reporter_with_validation_only
    (e : Estimator) (x_train : option DataFrame)
    (x_test : DataFrame) (y_test : Series) (o : Options) (s : scorecard) :
  outcome (test_scores e (multiclass o) x_test y_test) = Ok s ->
  outcome (my_classification_result e x_train None (Some x_test) (Some y_test) o)
  = if is_print o && learning_curve o
    then Raise (AttributeError "name")
    else Ok (set_scores e s).
Proof.
  intros Hs. unfold my_classification_result.
  assert (B : both x_train (@None Series) = None) by (destruct x_train; reflexivity).
  rewrite B. simpl both. cbv iota beta.
  rewrite outcome_bind. simpl outcome at 1. cbv iota beta.
  rewrite outcome_bind, outcome_bind, Hs. simpl outcome at 1. cbv iota beta.
  rewrite outcome_bind, outcome_when.
  destruct (is_print o); simpl.
  - destruct (conf_matrix o), (has_predict_proba (set_scores e s)),
      (learning_curve o), (is_class "DecisionTreeClassifier" (set_scores e s));
      reflexivity.
  - destruct (conf_matrix o); reflexivity.
Qed.

End ReporterEdges.

(** ** What the dispatcher's quiet mode switches off *)

Lemma silent_bind {A B} (m : M A) (f : A -> M B) :
  silent m -> (forall a, silent (f a)) -> silent (bind m f).
Proof.
  unfold silent. intros Hm Hf. rewrite log_bind, filter_app, Hm.
  destruct (outcome m); [apply Hf | reflexivity].
Qed.

Lemma bind_ext {A B} (m : M A) (f g : A -> M B) :
  (forall a, f a = g a) -> bind m f = bind m g.
Proof. intros H. destruct m as [l [a|e]]; simpl; [rewrite H|]; reflexivity. Qed.

Section QuietJobs.

Context {EL : EstimatorLibrary} {ML : MetricsLibrary}.

Lemma silent_call_predict_proba_1 e x : silent (call_predict_proba_1 e x).
Proof.
  unfold call_predict_proba_1, call_predict_proba.
  destruct (predict_proba (fitted e)) as [pp|]; [|reflexivity].
  unfold silent. simpl. destruct (column_1 (pp x)); reflexivity.
Qed.

Lemma silent_pseudo_r2 e y proba var : silent (pseudo_r2 e y proba var).
Proof.
  unfold pseudo_r2.
  destruct (is_binary e && is_class "LogisticRegression" e);
    [destruct proba as [[? ?]|] |]; reflexivity.
Qed.

Lemma silent_train_scores e multiclass x y : silent (train_scores e multiclass x y).
Proof.
  unfold train_scores.
  apply silent_bind; [reflexivity | intros].
  apply silent_bind; [apply silent_call_predict_proba_1 | intros].
  apply silent_bind; [apply silent_pseudo_r2 | intros].
  apply silent_bind; [reflexivity | intros].
  destruct (is_binary e); [|reflexivity].
  apply silent_bind; [reflexivity | intros [[[? ?] ?] ?]; reflexivity].
Qed.

Lemma silent_test_scores e multiclass x y : silent (test_scores e multiclass x y).
Proof.
  unfold test_scores.
  apply silent_bind; [reflexivity | intros].
  apply silent_bind; [apply silent_call_predict_proba_1 | intros].
  apply silent_bind; [apply silent_pseudo_r2 | intros].
  apply silent_bind; [reflexivity | intros].
  destruct (is_binary e); [|reflexivity].
  apply silent_bind; [reflexivity | intros [[[? ?] ?] ?]; reflexivity].
Qed.

Lemma silent_reporter e x_train y_train x_test y_test o :
  is_print o = false ->
  silent (my_classification_result e x_train y_train x_test y_test o).
Proof.
  intros Hq. unfold my_classification_result. rewrite Hq, andb_false_r.
  apply silent_bind.
  { destruct (both x_train y_train) as [[xt yt]|]; [|reflexivity].
    apply silent_bind; [apply silent_train_scores | reflexivity]. }
  intros train. apply silent_bind.
  { destruct (both x_test y_test) as [[xs ys]|]; [|reflexivity].
    apply silent_bind; [apply silent_test_scores | reflexivity]. }
  intros test. apply silent_bind; [reflexivity | intros].
  apply silent_bind; [reflexivity | intros]. reflexivity.
Qed.

Lemma silent_build c x_train y_train o params :
  is_print o = false -> silent (build_estimator c x_train y_train o params).
Proof.
  intros Hq. unfold build_estimator. rewrite Hq. destruct (cv o >? 0)%Z.
  - apply silent_bind.
    { unfold search_args.
      destruct (accepts c "n_jobs"), (accepts c "random_state"),
        (accepts c "early_stopping"); reflexivity. }
    intros args. apply silent_bind; [reflexivity | intros proto].
    apply silent_bind; [reflexivity | intros].
    destruct (randomized_search_fit proto params (cv o) (-1) 500 x_train y_train);
      reflexivity.
  - apply silent_bind.
    { unfold direct_params.
      destruct (accepts c "n_jobs"), (accepts c "random_state"); reflexivity. }
    intros p'. apply silent_bind; [reflexivity | intros proto].
    apply silent_bind; [reflexivity | intros]. reflexivity.
Qed.

Variable coefficients :
  Estimator -> DataFrame -> Series -> option DataFrame -> option Series ->
  option string -> M unit.

Lemma silent_trainer c x_train y_train x_test y_test o params :
  is_print o = false ->
  silent (__my_classification coefficients c x_train y_train x_test y_test o params).
Proof.
  intros Hq. unfold __my_classification. rewrite Hq, andb_false_r.
  apply silent_bind; [apply silent_build; exact Hq | intros [e0|]; [|reflexivity]].
  apply silent_bind; [reflexivity | intros].
  apply silent_bind;
    [unfold call_predict_proba; destruct (predict_proba (fitted e0)); reflexivity
    | intros].
  apply silent_bind; [destruct y_test; reflexivity | intros].
  apply silent_bind;
    [destruct y_test; [reflexivity|];
     unfold call_predict_proba; destruct (predict_proba (fitted e0)); reflexivity
    | intros].
  apply silent_bind.
  { destruct (both x_test y_test) as [[xs ys]|]; apply silent_reporter; exact Hq. }
  intros. reflexivity.
Qed.

(** X9. A job run by the dispatcher renders nothing, whatever display
    options the dispatcher was called with: no table (no performance table, no
    cross-validation ranking), no plot (confusion matrix, ROC curve, learning
    curve, tree), and the coefficient report is not run, even with
    [report=True]. Only the dispatcher's own comparison table is rendered. *)
Theorem dispatched_jobs_render_nothing
    (x_train : DataFrame) (y_train : Series)
    (x_test : option DataFrame) (y_test : option Series) (o : Options)
    (algorithm : option (list string)) (params : Params) (p : Future) :
  In p (submitted coefficients x_train y_train x_test y_test o algorithm params) ->
  silent (fut_run p).
Proof.
  intros Hin. apply submitted_job in Hin.
  destruct Hin as (_ & _ & o' & params' & -> & _ & Hq & _).
  apply silent_trainer. exact Hq.
Qed.

End QuietJobs.

Section InertOptions.

Context {EL : EstimatorLibrary} {ML : MetricsLibrary}.

Lemma reporter_quiet_ext e x_train y_train x_test y_test o1 o2 :
  is_print o1 = false -> is_print o2 = false ->
  multiclass o1 = multiclass o2 ->
  my_classification_result e x_train y_train x_test y_test o1
  = my_classification_result e x_train y_train x_test y_test o2.
Proof.
  intros H1 H2 Hm. unfold my_classification_result.
  rewrite H1, H2, Hm, !andb_false_r. reflexivity.
Qed.

Lemma build_quiet_ext c x_train y_train o1 o2 params :
  is_print o1 = false -> is_print o2 = false -> cv o1 = cv o2 ->
  build_estimator c x_train y_train o1 params
  = build_estimator c x_train y_train o2 params.
Proof.
  intros H1 H2 Hcv. unfold build_estimator. rewrite H1, H2, Hcv. reflexivity.
Qed.

Lemma trainer_quiet_ext R1 R2 c x_train y_train x_test y_test o1 o2 p1 p2 :
  is_print o1 = false -> is_print o2 = false ->
  cv o1 = cv o2 -> multiclass o1 = multiclass o2 -> p1 = p2 ->
  __my_classification R1 c x_train y_train x_test y_test o1 p1
  = __my_classification R2 c x_train y_train x_test y_test o2 p2.
Proof.
  intros H1 H2 Hcv Hm <-. unfold __my_classification.
  rewrite (build_quiet_ext c x_train y_train o1 o2 p1 H1 H2 Hcv).
  rewrite H1, H2, !andb_false_r.
  apply bind_ext. intros [e0|]; [|reflexivity].
  apply bind_ext. intros y_pred. apply bind_ext. intros y_pred_prob.
  apply bind_ext. intros y_pred'. apply bind_ext. intros y_pred_proba'.
  destruct (both x_test y_test) as [[xs ys]|];
    rewrite (reporter_quiet_ext _ _ _ _ _ o1 o2 H1 H2 Hm); reflexivity.
Qed.

(** X10. Through the dispatcher only [cv] and [multiclass] of the keyword
    options matter: two calls that agree on them submit the same jobs, with
    the same runs, and assemble the same report, whatever their [conf_matrix],
    [hist], [roc], [pr], [learning_curve], [report], [figsize], [dpi], [sort]
    and [is_print] are and whatever the coefficient report would do. *)
Theorem display_options_do_not_reach_the_jobs
    (R1 R2 : Estimator -> DataFrame -> Series -> option DataFrame ->
             option Series -> option string -> M unit)
    (as_completed : list Future -> list Future)
    (x_train : DataFrame) (y_train : Series)
    (x_test : option DataFrame) (y_test : option Series) (o1 o2 : Options)
    (algorithm : option (list string)) (params : Params) :
  cv o1 = cv o2 ->
  multiclass o1 = multiclass o2 ->
  submitted R1 x_train y_train x_test y_test o1 algorithm params
  = submitted R2 x_train y_train x_test y_test o2 algorithm params /\
  my_classification R1 as_completed x_train y_train x_test y_test o1 algorithm params
  = my_classification R2 as_completed x_train y_train x_test y_test o2 algorithm params.
Proof.
  intros Hcv Hm.
  assert (Hg : forall ps grid,
             default_grid (quiet o1) ps grid = default_grid (quiet o2) ps grid).
  { intros. unfold default_grid. simpl. rewrite Hcv. reflexivity. }
  assert (Hs : forall ps grid,
             default_grid (svm_options (quiet o1)) ps grid
             = default_grid (svm_options (quiet o2)) ps grid).
  { intros. unfold default_grid. simpl. rewrite Hcv. reflexivity. }
  assert (E : submitted R1 x_train y_train x_test y_test o1 algorithm params
              = submitted R2 x_train y_train x_test y_test o2 algorithm params).
  { unfold submitted, my_logistic_classification, my_knn_classification,
      my_svc_classification, my_nb_classification, my_dtree_classification,
      my_sgd_classification. cbv zeta.
    rewrite !Hg.
    rewrite (trainer_quiet_ext R1 R2 LogisticRegression x_train y_train x_test y_test
               (quiet o1) (quiet o2) (p1 := default_grid (quiet o2) params _) eq_refl eq_refl Hcv Hm eq_refl).
    rewrite (trainer_quiet_ext R1 R2 KNeighborsClassifier x_train y_train x_test y_test
               (quiet o1) (quiet o2) (p1 := default_grid (quiet o2) params _) eq_refl eq_refl Hcv Hm eq_refl).
    rewrite (trainer_quiet_ext R1 R2 DecisionTreeClassifier x_train y_train x_test y_test
               (quiet o1) (quiet o2) (p1 := default_grid (quiet o2) params _) eq_refl eq_refl Hcv Hm eq_refl).
    rewrite (trainer_quiet_ext R1 R2 SGDClassifier x_train y_train x_test y_test
               (quiet o1) (quiet o2) (p1 := default_grid (quiet o2) params _) eq_refl eq_refl Hcv Hm eq_refl).
    rewrite (trainer_quiet_ext R1 R2 SVC x_train y_train x_test y_test
               (svm_options (quiet o1)) (svm_options (quiet o2))
               (p1 := default_grid (quiet o2) (drop_display_keys params) _)
               eq_refl eq_refl Hcv eq_refl eq_refl).
    match goal with
    | |- context [__my_classification R1 GaussianNB _ _ _ _ ?oa ?pa] =>
        rewrite (trainer_quiet_ext R1 R2 GaussianNB x_train y_train x_test y_test
                   oa ({| conf_matrix := conf_matrix (trainer_defaults (quiet o2));
                         cv := cv (quiet o2); hist := hist (quiet o2);
                         roc := roc (quiet o2); pr := pr (quiet o2);
                         multiclass := multiclass (quiet o2);
                         learning_curve := learning_curve (quiet o2);
                         report := report (quiet o2); figsize := figsize (quiet o2);
                         dpi := dpi (quiet o2); sort := sort (quiet o2);
                         is_print := is_print (quiet o2) |})
                   (p1 := pa) eq_refl eq_refl Hcv Hm eq_refl)
    end.
    reflexivity. }
  split; [exact E|].
  unfold my_classification. rewrite E. reflexivity.
Qed.

End InertOptions.

(** ** The collecting loop and the assembled report *)

Lemma first_failure_None (completed : list Future) :
  first_failure completed = None <->
  forall p, In p completed -> forall ex, fut_result p <> Raise ex.
Proof.
  induction completed as [|q rest IH]; simpl.
  - split; [intros _ p [] | reflexivity].
  - destruct (fut_result q) as [r|ex0] eqn:E.
    + rewrite IH. split.
      * intros H p [<-|Hp] ex; [rewrite E; discriminate | apply H; exact Hp].
      * intros H p Hp. apply H. right. exact Hp.
    + split; [discriminate|]. intros H. exfalso. apply (H q (or_introl eq_refl) ex0 E).
Qed.

Lemma first_failure_Some (completed : list Future) (ex : PyExn) :
  first_failure completed = Some ex ->
  exists p, In p completed /\ fut_result p = Raise ex.
Proof.
  induction completed as [|q rest IH]; simpl; [discriminate|].
  destruct (fut_result q) as [r|ex0] eqn:E.
  - intros H. destruct (IH H) as (p & Hp & Hr). eauto.
  - intros H. injection H as <-. eauto.
Qed.

Lemma drain_first_failure (completed : list Future) (acc : Collected) :
  (forall p e, In p completed -> fut_result p = Ok (Some e) -> est_scores e <> None) ->
  match first_failure completed with
  | Some ex => drain completed acc = Raise ex
  | None => exists acc', drain completed acc = Ok acc'
  end.
Proof.
  revert acc. induction completed as [|q rest IH]; intros acc H; simpl.
  - eauto.
  - unfold collect.
    assert (IH' := fun acc' => IH acc' (fun p e Hp => H p e (or_intror Hp))).
    destruct (fut_result q) as [[e|]|ex] eqn:E; [| apply IH' | reflexivity].
    destruct (est_scores e) eqn:Hs; [apply IH'|].
    exfalso. exact (H q e (or_introl eq_refl) E Hs).
Qed.

Lemma insert_all_get_other (k : string) (es : list Estimator) (d : dict Estimator) :
  ~ In k (map name_of es) -> dict_get k (insert_all es d) = dict_get k d.
Proof.
  unfold insert_all. revert d. induction es as [|e es IH]; intros d H; simpl.
  - reflexivity.
  - rewrite IH by (intros Hin; apply H; right; exact Hin).
    apply dict_get_set_other. apply String.eqb_neq.
    intros ->. apply H. left. reflexivity.
Qed.

Lemma insert_all_get (e : Estimator) (es : list Estimator) (d : dict Estimator) :
  NoDup (map name_of es) -> In e es ->
  dict_get (name_of e) (insert_all es d) = Some e.
Proof.
  revert d. induction es as [|e0 es IH]; intros d ND Hin; [destruct Hin|].
  simpl in ND. inversion ND as [|? ? Hfresh ND']; subst.
  destruct Hin as [->|Hin].
  - change (insert_all (e :: es) d) with (insert_all es (dict_set (name_of e) e d)).
    rewrite insert_all_get_other by exact Hfresh. apply dict_get_set_same.
  - change (insert_all (e0 :: es) d) with (insert_all es (dict_set (name_of e0) e0 d)).
    apply IH; assumption.
Qed.

Lemma stored_scores_all (es : list Estimator) :
  (forall e, In e es -> est_scores e <> None) ->
  map est_scores es = map Some (stored_scores es).
Proof.
  induction es as [|e es IH]; intros H; [reflexivity|].
  unfold stored_scores. simpl. fold (stored_scores es).
  pose proof (H e (or_introl eq_refl)) as He.
  destruct (est_scores e) as [s|]; [|congruence].
  simpl. rewrite IH by (intros e' He'; apply H; right; exact He'). reflexivity.
Qed.

Lemma stored_scores_In (e : Estimator) (s : scorecard) (es : list Estimator) :
  In e es -> est_scores e = Some s -> In s (stored_scores es).
Proof.
  intros Hin Hs. unfold stored_scores. apply in_flat_map.
  exists e. split; [exact Hin|]. rewrite Hs. left. reflexivity.
Qed.

Section DispatcherProperties.

Context {EL : EstimatorLibrary} {ML : MetricsLibrary}.

Variable coefficients :
  Estimator -> DataFrame -> Series -> option DataFrame -> option Series ->
  option string -> M unit.

(** The iterator hands over every job it was given, in an order of its
    own. *)
Variable as_completed : list Future -> list Future.
Hypothesis as_completed_perm : forall ps, Permutation (as_completed ps) ps.

Lemma completed_scores xt yt x_test y_test o alg params p e :
  In p (as_completed (submitted coefficients xt yt x_test y_test o alg params)) ->
  fut_result p = Ok (Some e) -> est_scores e <> None.
Proof.
  intros Hp Hr.
  assert (Hp' : In p (submitted coefficients xt yt x_test y_test o alg params))
    by (eapply Permutation_in; [apply as_completed_perm | exact Hp]).
  edestruct submitted_job_scorecard as (s & avg & var & Hs & _);
    [exact Hp' | exact Hr |].
  congruence.
Qed.

(** X11. The dispatcher raises in exactly two ways: with the TypeError of
    a selected call of [executor.submit] whose written keywords the extra
    keyword arguments repeat, before any job is collected; or, every selected
    call accepted, with the exception of the first job that raised, in the
    order in which the iterator hands the jobs over. Nothing is rendered in
    either case. Otherwise it renders the assembled table and returns the
    mapping. *)
Theorem dispatcher_raises_in_two_ways
    (x_train : DataFrame) (y_train : Series)
    (x_test : option DataFrame) (y_test : option Series) (o : Options)
    (algorithm : option (list string)) (params : Params) :
  let calls :=
    submitted coefficients x_train y_train x_test y_test o algorithm params in
  let call :=
    my_classification coefficients as_completed x_train y_train x_test y_test o
      algorithm params in
  match submit_each params calls with
  | Raise ex =>
      call = ([], Raise ex) /\
      exists p k,
        In p calls /\
        duplicate_keyword (submit_keywords (fut_class p)) params = Some k /\
        ex = duplicate_keyword_error k
  | Ok processes =>
      processes = calls /\
      match first_failure (as_completed processes) with
      | Some ex =>
          call = ([], Raise ex) /\
          exists p, In p processes /\ fut_result p = Raise ex
      | None =>
          (forall p, In p processes -> forall ex, fut_result p <> Raise ex) /\
          exists rep,
            call = ([PrettyTable (Plain (table rep))], Ok (rep, mapping rep))
      end
  end.
Proof.
  intros calls call.
  destruct (submit_each params calls) as [processes|ex0] eqn:Hs.
  - pose proof (submit_each_Ok _ _ Hs) as E. subst processes.
    split; [reflexivity|].
    pose proof (drain_first_failure (as_completed calls) nothing_collected
                  (fun p e => @completed_scores x_train y_train x_test y_test o
                                algorithm params p e)) as Hd.
    fold calls in Hd.
    destruct (first_failure (as_completed calls)) as [ex|] eqn:F.
    + split.
      * unfold call, my_classification. fold calls. rewrite Hs. simpl bind.
        rewrite Hd. reflexivity.
      * apply first_failure_Some in F. destruct F as (p & Hp & Hr).
        exists p. split; [|exact Hr].
        eapply Permutation_in; [apply as_completed_perm | exact Hp].
    + split.
      * intros p Hp. apply (proj1 (first_failure_None _) F).
        eapply Permutation_in; [apply Permutation_sym, as_completed_perm | exact Hp].
      * destruct Hd as (acc & Hd).
        unfold call, my_classification. fold calls. rewrite Hs. simpl bind.
        rewrite Hd.
        exists (mkReport (estimators acc)
                  (DataFrame_of (results acc) (estimator_names acc))).
        reflexivity.
  - split.
    + unfold call, my_classification. fold calls. rewrite Hs. reflexivity.
    + apply submit_each_Raise. exact Hs.
Qed.

(** X12. When the call returns, the returned value is the mapping, the row
    labels of the rendered table are pairwise distinct and are the keys of the
    mapping in the same order, and row i of the table is the scorecard stored
    on the estimator that the mapping holds under label i: the table and the
    mapping never disagree. *)
Theorem report_rows_are_the_mapped_scorecards
    (x_train : DataFrame) (y_train : Series)
    (x_test : option DataFrame) (y_test : option Series) (o : Options)
    (algorithm : option (list string)) (params : Params)
    (l : list Event) (rep : Report) (v : Returned) :
  my_classification coefficients as_completed x_train y_train x_test y_test o
    algorithm params = (l, Ok (rep, v)) ->
  v = mapping rep /\
  NoDup (index (table rep)) /\
  keys (mapping rep) = index (table rep) /\
  map (mapped_scores rep) (index (table rep)) = map Some (rows (table rep)).
Proof.
  intros H. apply my_classification_inv in H.
  destruct H as (acc & Hd & -> & -> & _).
  split; [reflexivity|].
  set (processes := submitted coefficients x_train y_train x_test y_test o
                      algorithm params) in *.
  apply drain_Ok in Hd. destruct Hd as (_ & Hn & Hr & He & _). simpl in *.
  set (es := returned_estimators (as_completed processes)) in *.
  assert (Hcls : forall p e, In p (as_completed processes) ->
                   fut_result p = Ok (Some e) -> cls e = fut_class p).
  { intros p e Hp. apply (submitted_job_class coefficients x_train y_train x_test
                            y_test o algorithm params).
    eapply Permutation_in; [apply as_completed_perm | exact Hp]. }
  assert (ND : NoDup (map name_of es)).
  { unfold es. rewrite (returned_names _ Hcls). apply NoDup_map_filter.
    eapply Permutation_NoDup.
    - apply Permutation_map, Permutation_sym, as_completed_perm.
    - apply submitted_names_NoDup. }
  assert (Hsc : forall e, In e es -> est_scores e <> None).
  { intros e Hin. apply returned_In in Hin. destruct Hin as (p & Hp & Hres).
    eapply completed_scores; eassumption. }
  rewrite Hn, Hr, He. simpl.
  split; [exact ND|].
  split; [rewrite insert_all_keys; simpl; [reflexivity | exact ND]|].
  rewrite <- stored_scores_all by exact Hsc.
  rewrite map_map. apply map_ext_in. intros e Hin.
  unfold mapped_scores. simpl. rewrite insert_all_get; auto.
Qed.

(** X13. The comparison table of the dispatcher keeps the pseudo-R2 column
    that the per-model table drops: as soon as the report holds one binary
    model the rendered table has the column, and the row of every binary model
    that is not a [LogisticRegression] carries the integer 0 in it. *)
Theorem comparison_table_keeps_pseudo_r2
    (x_train : DataFrame) (y_train : Series)
    (x_test : option DataFrame) (y_test : option Series) (o : Options)
    (algorithm : option (list string)) (params : Params)
    (l : list Event) (rep : Report) (v : Returned) (n : string) (e : Estimator) :
  my_classification coefficients as_completed x_train y_train x_test y_test o
    algorithm params = (l, Ok (rep, v)) ->
  In (n, e) (mapping rep) ->
  is_binary e = true ->
  displayed l = [Plain (table rep)] /\
  In K_PSEUDO_R2 (columns (table rep)) /\
  exists s,
    est_scores e = Some s /\ In s (rows (table rep)) /\
    (is_class "LogisticRegression" e = false ->
       dict_get K_PSEUDO_R2 s = Some (PyInt 0)).
Proof.
  intros H Hin B.
  edestruct mapping_entry_job as (p & Hp & Hres);
    [exact as_completed_perm | exact H | exact Hin |].
  edestruct submitted_job_scorecard as (s & avg & var & Hs & Hsplit);
    [exact Hp | exact Hres |].
  apply my_classification_inv in H.
  destruct H as (acc & Hd & -> & _ & ->). simpl in *.
  apply drain_Ok in Hd. destruct Hd as (_ & _ & Hr & He & _). simpl in *.
  assert (Hrow : In s (results acc)).
  { rewrite Hr. rewrite He in Hin. apply insert_all_In in Hin.
    destruct Hin as [[]|[Hin _]]. eapply stored_scores_In; eassumption. }
  assert (Hkey : In K_PSEUDO_R2 (keys s)).
  { destruct Hsplit as (proba & pseudo & _ & _ & Hcase).
    destruct Hcase as [(_ & TN & FP & FN & TP & _ & ->)|(B' & _)]; [|congruence].
    rewrite binary_result_keys. apply in_or_app. left. left. reflexivity. }
  split; [reflexivity|].
  split; [apply union_keys_In; exists s; auto|].
  exists s. split; [exact Hs|]. split; [exact Hrow|].
  apply (binary_split_pseudo B Hsplit).
Qed.

End DispatcherProperties.

(** ** The algorithm list *)

Lemma requested_members (alg1 alg2 : list string) (id : string) :
  (forall k, In k alg1 <-> In k alg2) ->
  requested (Some alg1) id = requested (Some alg2) id.
Proof.
  intros H. destruct alg1 as [|a l1], alg2 as [|b l2].
  - reflexivity.
  - exfalso. apply (proj2 (H b)). left. reflexivity.
  - exfalso. apply (proj1 (H a)). left. reflexivity.
  - unfold requested. apply Bool.eq_true_iff_eq. rewrite !existsb_exists.
    split; intros (x & Hx & E); exists x; (split; [apply H; exact Hx | exact E]).
Qed.

Section AlgorithmList.

Context {EL : EstimatorLibrary} {ML : MetricsLibrary}.

Variable coefficients :
  Estimator -> DataFrame -> Series -> option DataFrame -> option Series ->
  option string -> M unit.

(** X14. The algorithm list is used as a set: two lists with the same
    members, in any order and with any repetitions, submit the same jobs and
    give the same call. The jobs are always submitted in the order logistic,
    knn, svc, nb, dtree, sgd, at most once each, whatever the order of the
    list. *)
Theorem algorithm_list_is_a_set
    (as_completed : list Future -> list Future)
    (x_train : DataFrame) (y_train : Series)
    (x_test : option DataFrame) (y_test : option Series) (o : Options)
    (alg1 alg2 : list string) (params : Params) :
  (forall id, In id alg1 <-> In id alg2) ->
  submitted coefficients x_train y_train x_test y_test o (Some alg1) params
  = submitted coefficients x_train y_train x_test y_test o (Some alg2) params /\
  my_classification coefficients as_completed x_train y_train x_test y_test o
    (Some alg1) params
  = my_classification coefficients as_completed x_train y_train x_test y_test o
      (Some alg2) params /\
  map fut_id (submitted coefficients x_train y_train x_test y_test o (Some alg1) params)
  = filter (requested (Some alg1)) ["logistic"; "knn"; "svc"; "nb"; "dtree"; "sgd"].
Proof.
  intros H.
  assert (E : submitted coefficients x_train y_train x_test y_test o (Some alg1) params
              = submitted coefficients x_train y_train x_test y_test o (Some alg2) params).
  { unfold submitted, submit_if. simpl fut_id.
    rewrite !(fun id => @requested_members alg1 alg2 id H). reflexivity. }
  split; [exact E|]. split.
  - unfold my_classification. rewrite E. reflexivity.
  - apply submitted_ids.
Qed.

End AlgorithmList.

(** ** Hyperparameters shared by the jobs *)

Lemma drop_display_keys_cons (kv : string * ParamVal) (params : Params) :
  drop_display_keys (kv :: params)
  = if display_keyword (fst kv) then drop_display_keys params
    else kv :: drop_display_keys params.
Proof.
  unfold drop_display_keys, dict_del, display_keyword. simpl.
  destruct (String.eqb (fst kv) "hist"); simpl; [reflexivity|].
  destruct (String.eqb (fst kv) "roc"); simpl; [reflexivity|].
  destruct (String.eqb (fst kv) "pr"); simpl; [reflexivity|].
  destruct (String.eqb (fst kv) "report"); reflexivity.
Qed.

Lemma drop_display_keys_idem (params : Params) :
  drop_display_keys (drop_display_keys params) = drop_display_keys params.
Proof.
  induction params as [|kv params IH]; [reflexivity|].
  rewrite drop_display_keys_cons.
  destruct (display_keyword (fst kv)) eqn:E; [exact IH|].
  rewrite drop_display_keys_cons, E, IH. reflexivity.
Qed.

Lemma drop_display_keys_get (k : string) (params : Params) :
  dict_get k (drop_display_keys params)
  = if display_keyword k then None else dict_get k params.
Proof.
  induction params as [|[k0 v0] params IH].
  - destruct (display_keyword k); reflexivity.
  - rewrite drop_display_keys_cons. simpl fst.
    destruct (display_keyword k0) eqn:E0; simpl.
    + rewrite IH. destruct (String.eqb_spec k k0) as [->|Hne]; [|reflexivity].
      rewrite E0. reflexivity.
    + rewrite IH. destruct (String.eqb_spec k k0) as [->|Hne]; [|reflexivity].
      rewrite E0. reflexivity.
Qed.

Lemma drop_display_keys_only (params : Params) :
  (forall k, In k (keys params) -> display_keyword k = true) ->
  drop_display_keys params = [].
Proof.
  induction params as [|kv params IH]; intros H; [reflexivity|].
  rewrite drop_display_keys_cons, (H (fst kv) (or_introl eq_refl)).
  apply IH. intros k Hk. apply H. right. exact Hk.
Qed.

Section SharedHyperparameters.

Context {EL : EstimatorLibrary} {ML : MetricsLibrary}.

Variable coefficients :
  Estimator -> DataFrame -> Series -> option DataFrame -> option Series ->
  option string -> M unit.

(** X15. The two SVM wrappers accept the keywords [hist], [roc], [pr] and
    [report] and discard them: the trainer finds no value under any of them
    and every other hyperparameter unchanged, so a call with them is the call
    without them, and a call with only them is the call with no
    hyperparameters at all (with [cv > 0], the search over the default grid). *)
Theorem svm_wrappers_discard_display_keywords
    (x_train : DataFrame) (y_train : Series)
    (x_test : option DataFrame) (y_test : option Series) (o : Options)
    (params : Params) :
  (forall k, dict_get k (drop_display_keys params)
             = if display_keyword k then None else dict_get k params) /\
  my_svc_classification coefficients x_train y_train x_test y_test o params
  = my_svc_classification coefficients x_train y_train x_test y_test o
      (drop_display_keys params) /\
  my_linear_svc_classification coefficients x_train y_train x_test y_test o params
  = my_linear_svc_classification coefficients x_train y_train x_test y_test o
      (drop_display_keys params) /\
  ((forall k, In k (keys params) -> display_keyword k = true) ->
   my_svc_classification coefficients x_train y_train x_test y_test o params
   = my_svc_classification coefficients x_train y_train x_test y_test o [] /\
   my_linear_svc_classification coefficients x_train y_train x_test y_test o params
   = my_linear_svc_classification coefficients x_train y_train x_test y_test o []).
Proof.
  split; [intros k; apply drop_display_keys_get|].
  unfold my_svc_classification, my_linear_svc_classification. cbv zeta.
  rewrite drop_display_keys_idem.
  split; [reflexivity|]. split; [reflexivity|].
  intros H. rewrite (drop_display_keys_only _ H). split; reflexivity.
Qed.

Lemma direct_build_outcome c x_train y_train o params args :
  (cv o <= 0)%Z ->
  outcome (direct_params c params) = Ok args ->
  outcome (build_estimator c x_train y_train o params)
  = match construct c args with
    | Ok prototype =>
        match fit prototype x_train y_train with
        | Ok f => Ok (Some (new_estimator c f None))
        | Raise ex => Raise ex
        end
    | Raise ex => Raise ex
    end.
Proof.
  intros Hcv Hout. unfold build_estimator. destruct (Z.gtb_spec (cv o) 0); [lia|].
  rewrite outcome_bind, Hout. rewrite outcome_bind. simpl outcome at 1.
  destruct (construct c args) as [proto|ex]; [|reflexivity].
  rewrite outcome_bind. simpl outcome at 1.
  destruct (fit proto x_train y_train); reflexivity.
Qed.

(** Without a search every submitted job hands the caller's hyperparameters
    to the trainer: the default grids play no role. *)
Lemma submitted_job_direct xt yt x_test y_test o alg params p :
  (cv o <= 0)%Z ->
  In p (submitted coefficients xt yt x_test y_test o alg params) ->
  exists o',
    fut_run p = __my_classification coefficients (fut_class p) xt yt x_test y_test
                  o' (job_params (fut_class p) params) /\
    cv o' = cv o.
Proof.
  intros Hcv H.
  assert (G : forall ps grid, default_grid (quiet o) ps grid = ps).
  { intros. unfold default_grid. simpl.
    destruct (Z.gtb_spec (cv o) 0); [lia | reflexivity]. }
  unfold submitted in H.
  repeat (apply In_submit_if in H; destruct H as [H|[-> R]]);
    [destruct H | | | | | | ];
    simpl fut_run; simpl fut_class;
    unfold my_logistic_classification, my_knn_classification, my_svc_classification,
      my_nb_classification, my_dtree_classification, my_sgd_classification;
    cbv zeta; rewrite G; eexists; (split; [reflexivity | reflexivity]).
Qed.

(** The iterator hands over every job it was given, in an order of its
    own. *)
Variable as_completed : list Future -> list Future.
Hypothesis as_completed_perm : forall ps, Permutation (as_completed ps) ps.

(** X16. Without a search ([cv <= 0]) the dispatcher gives the caller's
    hyperparameters to the constructor of every selected class alike (less the
    display keywords for SVC, plus the forced [n_jobs] and [random_state]): a
    keyword that the constructor of one selected class refuses makes that job
    raise, and with it the whole call, whatever the other jobs do. *)
Theorem rejected_hyperparameter_fails_the_call
    (x_train : DataFrame) (y_train : Series)
    (x_test : option DataFrame) (y_test : option Series) (o : Options)
    (algorithm : option (list string)) (params : Params)
    (p : Future) (args : Params) (ex : PyExn) :
  (cv o <= 0)%Z ->
  In p (submitted coefficients x_train y_train x_test y_test o algorithm params) ->
  outcome (direct_params (fut_class p) (job_params (fut_class p) params)) = Ok args ->
  construct (fut_class p) args = Raise ex ->
  fut_result p = Raise ex /\
  exists ex',
    outcome (my_classification coefficients as_completed x_train y_train x_test
               y_test o algorithm params) = Raise ex'.
Proof.
  intros Hcv Hin Hargs Hc.
  assert (Hr : fut_result p = Raise ex).
  { destruct (submitted_job_direct _ _ _ _ _ _ _ _ Hcv Hin) as (o' & Hrun & Hcv').
    unfold fut_result. rewrite Hrun. unfold __my_classification.
    rewrite outcome_bind.
    rewrite (direct_build_outcome _ x_train y_train o' _ (args := args));
      [|lia|exact Hargs].
    rewrite Hc. reflexivity. }
  split; [exact Hr|].
  eapply job_failure_escapes; [exact as_completed_perm | exact Hin | exact Hr].
Qed.

End SharedHyperparameters.

(** ** Probabilities with a single column *)

Section SingleColumn.

Context {ML : MetricsLibrary}.

(** X17. The reporter takes column 1 of the predicted probabilities of every
    estimator that has [predict_proba], binary or not: when a probability row
    has fewer than two columns (a model fitted on a single class) it raises
    IndexError right after the two prediction passes on the training data,
    before any score is computed or printed. *)
Theorem reporter_needs_two_probability_columns
    (e : Estimator) (x_train : DataFrame) (y_train : Series)
    (x_test : option DataFrame) (y_test : option Series) (o : Options)
    (pp : DataFrame -> Proba) (row : list float) :
  predict_proba (fitted e) = Some pp ->
  In row (pp x_train) ->
  (List.length row < 2)%nat ->
  my_classification_result e (Some x_train) (Some y_train) x_test y_test o
  = ([Predict x_train; PredictProba x_train],
     Raise (IndexError "index 1 is out of bounds for axis 1")).
Proof.
  intros Hpp Hrow Hlen.
  assert (Hcol : column_1 (pp x_train)
                 = Raise (IndexError "index 1 is out of bounds for axis 1")).
  { unfold column_1.
    destruct (forallb (fun r => Nat.ltb 1 (List.length r)) (pp x_train)) eqn:E;
      [|reflexivity].
    rewrite forallb_forall in E. specialize (E row Hrow).
    apply Nat.ltb_lt in E. lia. }
  unfold my_classification_result, train_scores, call_predict,
    call_predict_proba_1, call_predict_proba.
  simpl both. rewrite Hpp. simpl. rewrite Hcol. reflexivity.
Qed.

End SingleColumn.

(** ** The explanatory row and the outcome of the reporter *)

Section ReporterOutcome.

Context {ML : MetricsLibrary}.

Lemma split_scorecard_keys recall_avg e multiclass x y var s :
  split_scorecard recall_avg e multiclass x y var s ->
  keys s = keys (description e multiclass).
Proof.
  intros (proba & pseudo & P & _ & Hcase).
  apply proba_1_has in P. unfold description.
  destruct Hcase as [(B & TN & FP & FN & TP & _ & ->)|(B & ->)]; rewrite B.
  - rewrite binary_result_keys. destruct proba; rewrite P; reflexivity.
  - destruct proba as [[pm p1]|]; rewrite P; [|reflexivity].
    rewrite multiclass_auc_keys.
    destruct (selects "ovo" multiclass), (selects "ovr" multiclass); reflexivity.
Qed.

(** X18. Every scorecard the reporter computes, for the training split or
    for the validation split, has exactly the keys of the explanatory row it
    appends, in the same order: each stored metric has an explanation and no
    explanation is left without its metric. *)
Theorem explanations_match_the_scorecards
    (e : Estimator) (multiclass : option string)
    (x : DataFrame) (y : Series) (s : scorecard) :
  outcome (train_scores e multiclass x y) = Ok s \/
  outcome (test_scores e multiclass x y) = Ok s ->
  keys s = keys (description e multiclass).
Proof.
  intros [H|H].
  - apply train_scores_inv in H. eapply split_scorecard_keys. exact H.
  - apply test_scores_inv in H. eapply split_scorecard_keys. exact H.
Qed.

Lemma reporter_outcome e xt yt x_test y_test o :
  outcome (my_classification_result e (Some xt) (Some yt) x_test y_test o)
  = match outcome (train_scores e (multiclass o) xt yt) with
    | Raise ex => Raise ex
    | Ok s_train =>
        match both x_test y_test with
        | None => Ok (set_scores e s_train)
        | Some (xs, ys) =>
            match outcome (test_scores e (multiclass o) xs ys) with
            | Ok s_test => Ok (set_scores e s_test)
            | Raise ex => Raise ex
            end
        end
    end.
Proof.
  unfold my_classification_result. simpl both at 1. cbv iota beta.
  rewrite outcome_bind, outcome_bind.
  destruct (outcome (train_scores e (multiclass o) xt yt)) as [s_train|ex];
    [|reflexivity].
  simpl outcome at 1. cbv iota beta. rewrite outcome_bind.
  destruct (both x_test y_test) as [[xs ys]|] eqn:Hb.
  - rewrite outcome_bind.
    destruct (outcome (test_scores e (multiclass o) xs ys)) as [s_test|ex];
      [|reflexivity].
    simpl outcome at 1. cbv iota beta.
    rewrite outcome_bind, outcome_when.
    destruct (is_print o); simpl.
    + destruct (conf_matrix o), (has_predict_proba (set_scores e s_test)),
        (learning_curve o),
        (is_class "DecisionTreeClassifier" (set_scores e s_test)); reflexivity.
    + destruct (conf_matrix o); reflexivity.
  - simpl outcome at 1. cbv iota beta.
    rewrite outcome_bind, outcome_when.
    destruct (is_print o); simpl.
    + destruct (conf_matrix o), (has_predict_proba (set_scores e s_train)),
        (learning_curve o),
        (is_class "DecisionTreeClassifier" (set_scores e s_train)); reflexivity.
    + destruct (conf_matrix o); reflexivity.
Qed.

(** X19. With training data given, what the reporter stores and whether it
    raises do not depend on [is_print], [conf_matrix], [learning_curve] or any
    other display option: two calls that agree on [multiclass] have the same
    outcome. The reporter's own steps under [is_print] only add to what is
    shown (the table and plot helpers being taken to return). *)
Theorem reporter_outcome_ignores_display_options
    (e : Estimator) (x_train : DataFrame) (y_train : Series)
    (x_test : option DataFrame) (y_test : option Series) (o1 o2 : Options) :
  multiclass o1 = multiclass o2 ->
  outcome (my_classification_result e (Some x_train) (Some y_train) x_test y_test o1)
  = outcome (my_classification_result e (Some x_train) (Some y_train) x_test y_test o2).
Proof.
  intros Hm. rewrite !reporter_outcome, Hm. reflexivity.
Qed.

End ReporterOutcome.

(** ** The predictions a job makes *)

Lemma call_predict_proba_run (e : Estimator) (x : DataFrame) :
  call_predict_proba e x
  = ((if has_predict_proba e then [PredictProba x] else []),
     Ok (option_map (fun pp => pp x) (predict_proba (fitted e)))).
Proof.
  unfold call_predict_proba, has_predict_proba.
  destruct (predict_proba (fitted e)); reflexivity.
Qed.

Section Passes.

Context {ML : MetricsLibrary}.

Lemma pass_ext (e1 e2 : Estimator) (x : DataFrame) :
  fitted e1 = fitted e2 -> pass e1 x = pass e2 x.
Proof. unfold pass, has_predict_proba. intros ->. reflexivity. Qed.

Lemma train_scores_passes e multiclass x y s :
  outcome (train_scores e multiclass x y) = Ok s ->
  predictions (log (train_scores e multiclass x y)) = pass e x.
Proof.
  unfold train_scores, call_predict_proba_1, pseudo_r2, pass, call_predict.
  rewrite call_predict_proba_run. unfold has_predict_proba.
  destruct (predict_proba (fitted e)) as [pp|]; simpl.
  - destruct (column_1 (pp x)); simpl; [|discriminate].
    destruct (is_binary e); simpl.
    + destruct (is_class "LogisticRegression" e); simpl;
        destruct (confusion_matrix y (predict (fitted e) x)); simpl; try discriminate;
        destruct (unpack_2x2 a0) as [[[[? ?] ?] ?]|]; simpl; try discriminate;
        reflexivity.
    + destruct (confusion_matrix y (predict (fitted e) x)); simpl; try discriminate;
        reflexivity.
  - destruct (is_binary e); simpl.
    + destruct (is_class "LogisticRegression" e); simpl; try discriminate.
      destruct (confusion_matrix y (predict (fitted e) x)); simpl; try discriminate.
      destruct (unpack_2x2 a) as [[[[? ?] ?] ?]|]; simpl; try discriminate.
      reflexivity.
    + destruct (confusion_matrix y (predict (fitted e) x)); simpl; try discriminate;
        reflexivity.
Qed.

Lemma test_scores_passes e multiclass x y s :
  outcome (test_scores e multiclass x y) = Ok s ->
  predictions (log (test_scores e multiclass x y)) = pass e x.
Proof.
  unfold test_scores, call_predict_proba_1, pseudo_r2, pass, call_predict.
  rewrite call_predict_proba_run. unfold has_predict_proba.
  destruct (predict_proba (fitted e)) as [pp|]; simpl.
  - destruct (column_1 (pp x)); simpl; [|discriminate].
    destruct (is_binary e); simpl.
    + destruct (is_class "LogisticRegression" e); simpl;
        destruct (confusion_matrix y (predict (fitted e) x)); simpl; try discriminate;
        destruct (unpack_2x2 a0) as [[[[? ?] ?] ?]|]; simpl; try discriminate;
        reflexivity.
    + destruct (confusion_matrix y (predict (fitted e) x)); simpl; try discriminate;
        reflexivity.
  - destruct (is_binary e); simpl.
    + destruct (is_class "LogisticRegression" e); simpl; try discriminate.
      destruct (confusion_matrix y (predict (fitted e) x)); simpl; try discriminate.
      destruct (unpack_2x2 a) as [[[[? ?] ?] ?]|]; simpl; try discriminate.
      reflexivity.
    + destruct (confusion_matrix y (predict (fitted e) x)); simpl; try discriminate;
        reflexivity.
Qed.

Lemma reporter_passes e xt yt x_test y_test o l e' :
  is_print o = false ->
  my_classification_result e (Some xt) (Some yt) x_test y_test o = (l, Ok e') ->
  predictions l
  = pass e xt ++ match both x_test y_test with
                 | Some (xs, _) => pass e xs
                 | None => []
                 end.
Proof.
  intros Hq. unfold my_classification_result. rewrite Hq, andb_false_r.
  simpl both at 1. intros H.
  apply bind_inv in H. destruct H as (l1 & train & l2 & Htrain & H & ->).
  apply bind_inv in Htrain. destruct Htrain as (l1a & s_train & l1b & Hs & Hret & ->).
  injection Hret as <- <-.
  apply run_parts in Hs. destruct Hs as [Hl1 Hs].
  apply train_scores_passes in Hs. rewrite Hl1 in Hs.
  apply bind_inv in H. destruct H as (l3 & test & l4 & Htest & H & ->).
  apply bind_inv in H. destruct H as (l5 & u & l6 & Hprint & H & ->).
  apply bind_inv in H. destruct H as (l7 & s & l8 & Hlast & H & ->).
  injection Hprint as <- _. injection Hlast as <- _.
  apply bind_inv in H. destruct H as (l9 & u1 & l10 & Hconf & H & ->).
  apply bind_inv in H. destruct H as (l11 & u2 & l12 & Hcurves & H & ->).
  injection Hconf as <- _. injection Hcurves as <- _. injection H as <- _.
  rewrite !predictions_app, Hs.
  change (predictions []) with (@nil Event). rewrite !app_nil_r. f_equal.
  destruct (both x_test y_test) as [[xs ys]|].
  - apply bind_inv in Htest. destruct Htest as (la & s_test & lb & Hs' & Hret & ->).
    injection Hret as <- _. apply run_parts in Hs'. destruct Hs' as [Hl Hs'].
    apply test_scores_passes in Hs'. rewrite Hl in Hs'.
    rewrite predictions_app. change (predictions []) with (@nil Event).
    rewrite app_nil_r. exact Hs'.
  - injection Htest as <- _. reflexivity.
Qed.

End Passes.

Section JobPasses.

Context {EL : EstimatorLibrary} {ML : MetricsLibrary}.

Variable coefficients :
  Estimator -> DataFrame -> Series -> option DataFrame -> option Series ->
  option string -> M unit.

(** X20. The prediction passes of a job run in quiet mode, as the dispatcher
    runs it: one round on the validation features when they are given, on the
    training features otherwise; a second round on the training features when
    no validation labels are given, for the attached predictions; then the
    reporter predicts again on the training data and on the validation data.
    With validation data a job so predicts twice on the validation set, and
    without it three times on the training set. *)
Theorem quiet_job_prediction_passes
    (c : Algorithm) (x_train : DataFrame) (y_train : Series)
    (x_test : option DataFrame) (y_test : option Series)
    (o : Options) (params : Params) (l : list Event) (e : Estimator) :
  is_print o = false ->
  __my_classification coefficients c x_train y_train x_test y_test o params
    = (l, Ok (Some e)) ->
  predictions l
  = pass e (or_else x_test x_train)
    ++ match y_test with
       | Some _ => []
       | None => pass e x_train
       end
    ++ pass e x_train
    ++ match both x_test y_test with
       | Some (xs, _) => pass e xs
       | None => []
       end.
Proof.
  intros Hq. unfold __my_classification. rewrite Hq, andb_false_r. intros H.
  apply bind_inv in H. destruct H as (l0 & built & lr & Hbuilt & H & ->).
  destruct built as [e0|]; [|discriminate].
  destruct (build_estimator_inv _ _ _ _ _ Hbuilt) as (Hl0 & f & bp & ->).
  set (e0 := new_estimator c f bp) in *.
  apply bind_inv in H. destruct H as (la & y_pred & lb & Hpred & H & ->).
  assert (Pa : predictions la = [Predict (or_else x_test x_train)])
    by (injection Hpred as <- _; reflexivity).
  apply bind_inv in H. destruct H as (lc & y_pred_prob & ld & Hprob & H & ->).
  assert (Pc : predictions lc
               = if has_predict_proba e0
                 then [PredictProba (or_else x_test x_train)] else []).
  { rewrite call_predict_proba_run in Hprob. injection Hprob as <- _.
    destruct (has_predict_proba e0); reflexivity. }
  apply bind_inv in H. destruct H as (le & y_pred' & lf & Hpred' & H & ->).
  apply bind_inv in H. destruct H as (lg & proba' & lh & Hproba' & H & ->).
  apply bind_inv in H. destruct H as (li & est & lj & Hrep & H & ->).
  injection H as <- <-.
  assert (Hsecond : predictions le ++ predictions lg
                    = match y_test with
                      | Some _ => []
                      | None => pass e0 x_train
                      end).
  { destruct y_test as [ys|].
    - injection Hpred' as <- _. injection Hproba' as <- _. reflexivity.
    - injection Hpred' as <- _. rewrite call_predict_proba_run in Hproba'.
      injection Hproba' as <- _. unfold pass.
      destruct (has_predict_proba e0); reflexivity. }
  assert (Hthird : fitted est = f /\
             predictions li
             = pass e0 x_train ++ match both x_test y_test with
                                  | Some (xs, _) => pass e0 xs
                                  | None => []
                                  end).
  { destruct (both x_test y_test) as [[xs ys]|] eqn:Hb.
    - pose proof Hrep as Hrep'. apply reporter_passes in Hrep; [|exact Hq].
      apply reporter_inv in Hrep'.
      destruct Hrep' as (named & s & _ & _ & -> & _).
      split; [reflexivity|]. rewrite Hrep. reflexivity.
    - pose proof Hrep as Hrep'. apply reporter_passes in Hrep; [|exact Hq].
      apply reporter_inv in Hrep'.
      destruct Hrep' as (named & s & _ & _ & -> & _).
      split; [reflexivity|]. rewrite Hrep. reflexivity. }
  destruct Hthird as (Hfe & Hthird).
  assert (P0 : forall x, pass est x = pass e0 x)
    by (intros; apply pass_ext; rewrite Hfe; reflexivity).
  rewrite !predictions_app, Hl0, Pa, Pc, Hthird.
  change (predictions []) with (@nil Event). rewrite !app_nil_r, !P0.
  rewrite (app_assoc (predictions le)), Hsecond.
  destruct (both x_test y_test) as [[xs ys]|]; rewrite ?P0;
    unfold pass; simpl; reflexivity.
Qed.

End JobPasses.

(** ** The table the reporter prints *)

Section PrintedTable.

Context {ML : MetricsLibrary}.

(** X22. Under [is_print] the reporter renders exactly one table,
    transposed. Its rows before transposition are the training scorecard, the
    validation scorecard when validation data is given, and the explanatory
    row, labelled in that order; its columns are the keys of the explanatory
    row, without the pseudo-R2 key unless the estimator is a
    [LogisticRegression]. *)
Theorem printed_table_layout
    (e : Estimator) (x_train : DataFrame) (y_train : Series)
    (x_test : option DataFrame) (y_test : option Series) (o : Options)
    (l : list Event) (e' : Estimator) :
  is_print o = true ->
  my_classification_result e (Some x_train) (Some y_train) x_test y_test o
    = (l, Ok e') ->
  exists t,
    displayed l = [Transposed t] /\
    index t = "훈련데이터"
              :: match both x_test y_test with
                 | Some _ => ["검증데이터"]
                 | None => []
                 end ++ ["설명"] /\
    List.length (rows t) = List.length (index t) /\
    columns t
    = if is_class "LogisticRegression" e
      then keys (description e (multiclass o))
      else filter (fun k => negb (String.eqb k K_PSEUDO_R2))
             (keys (description e (multiclass o))).
Proof.
  intros Hp H. apply reporter_inv in H.
  destruct H as (named & s & (s_train & Htrain & Hnamed) & _ & _ & Hshown).
  rewrite Hp in Hshown. eexists. split; [exact Hshown|].
  apply train_scores_inv in Htrain. apply split_scorecard_keys in Htrain.
  assert (Hidx : forall scores names,
             index (performance_table e scores names) = names).
  { intros. unfold performance_table.
    destruct (negb _ && _); reflexivity. }
  assert (Hlen : forall scores names,
             List.length (rows (performance_table e scores names))
             = List.length scores).
  { intros. unfold performance_table.
    destruct (negb _ && _); simpl; [apply length_map | reflexivity]. }
  rewrite Hidx, Hlen.
  destruct (both x_test y_test) as [[xs ys]|].
  - destruct Hnamed as (s_test & Htest & ->).
    apply test_scores_inv in Htest. apply split_scorecard_keys in Htest.
    split; [reflexivity|]. split; [reflexivity|].
    unfold performance_table, DataFrame_of, union_keys.
    cbn [map snd fst app fold_left columns].
    rewrite Htrain, Htest. unfold description.
    destruct (is_binary e), (has_predict_proba e),
      (selects "ovo" (multiclass o)), (selects "ovr" (multiclass o)),
      (is_class "LogisticRegression" e); reflexivity.
  - subst named.
    split; [reflexivity|]. split; [reflexivity|].
    unfold performance_table, DataFrame_of, union_keys.
    cbn [map snd fst app fold_left columns].
    rewrite Htrain. unfold description.
    destruct (is_binary e), (has_predict_proba e),
      (selects "ovo" (multiclass o)), (selects "ovr" (multiclass o)),
      (is_class "LogisticRegression" e); reflexivity.
Qed.

End PrintedTable.

(** ** The rows of a report without a search *)

Section RowsWithoutSearch.

Context {EL : EstimatorLibrary} {ML : MetricsLibrary}.

Variable coefficients :
  Estimator -> DataFrame -> Series -> option DataFrame -> option Series ->
  option string -> M unit.

(** The iterator hands over every job it was given, in an order of its
    own. *)
Variable as_completed : list Future -> list Future.
Hypothesis as_completed_perm : forall ps, Permutation (as_completed ps) ps.

(** X23. Without a search ([cv <= 0]) no job can come back empty, so a
    report that is assembled has exactly one row and one mapping entry for
    every selected algorithm the dispatcher knows: its row labels are the class
    names of the selected rows of the job table, in the order in which the
    iterator handed the jobs over. *)
Theorem without_search_every_selected_class_has_a_row
    (x_train : DataFrame) (y_train : Series)
    (x_test : option DataFrame) (y_test : option Series) (o : Options)
    (algorithm : option (list string)) (params : Params)
    (l : list Event) (rep : Report) (v : Returned) :
  (cv o <= 0)%Z ->
  my_classification coefficients as_completed x_train y_train x_test y_test o
    algorithm params = (l, Ok (rep, v)) ->
  let selected := filter (fun j => requested algorithm (fst j)) job_table in
  Permutation (index (table rep)) (map (fun j => class_name (snd j)) selected) /\
  List.length (rows (table rep)) = List.length selected /\
  forall id c, In (id, c) selected ->
    exists e, dict_get (class_name c) (mapping rep) = Some e /\ cls e = c.
Proof.
  intros Hcv H selected.
  apply my_classification_inv in H. destruct H as (acc & Hd & -> & _ & _).
  set (processes := submitted coefficients x_train y_train x_test y_test o
                      algorithm params) in *.
  apply drain_Ok in Hd. destruct Hd as (Hok & Hn & _ & He & Hlen). simpl in *.
  set (es := returned_estimators (as_completed processes)) in *.
  assert (Hall : filter succeeded (as_completed processes) = as_completed processes).
  { apply forallb_filter_id. apply forallb_forall. intros p Hp.
    destruct (Hok p Hp) as (r & Hres). unfold succeeded. rewrite Hres.
    destruct r as [e|]; [reflexivity|]. exfalso.
    assert (Hp' : In p processes)
      by (eapply Permutation_in; [apply as_completed_perm | exact Hp]).
    eapply submitted_direct_never_None; [exact Hcv | exact Hp' | exact Hres]. }
  assert (Hcls : forall p e, In p (as_completed processes) ->
                   fut_result p = Ok (Some e) -> cls e = fut_class p).
  { intros p e Hp. apply (submitted_job_class coefficients x_train y_train x_test
                            y_test o algorithm params).
    eapply Permutation_in; [apply as_completed_perm | exact Hp]. }
  assert (Hnames : map name_of es
                   = map (fun p => class_name (fut_class p)) (as_completed processes)).
  { unfold es. rewrite (returned_names _ Hcls), Hall. reflexivity. }
  assert (Hsel : map (fun p => class_name (fut_class p)) processes
                 = map (fun j => class_name (snd j)) selected).
  { rewrite <- (map_map fut_class class_name). unfold processes.
    rewrite submitted_classes, map_map. reflexivity. }
  assert (Hperm : Permutation (map name_of es)
                    (map (fun j => class_name (snd j)) selected)).
  { rewrite Hnames, <- Hsel. apply Permutation_map, as_completed_perm. }
  assert (ND : NoDup (map name_of es)).
  { eapply Permutation_NoDup; [apply Permutation_sym; exact Hperm|].
    rewrite <- Hsel. apply submitted_names_NoDup. }
  split; [rewrite Hn; exact Hperm|].
  split.
  - rewrite Hlen. simpl. fold es.
    rewrite <- (length_map name_of es), (Permutation_length Hperm), length_map.
    reflexivity.
  - intros id c Hin.
    assert (Hc : In (class_name c) (map name_of es)).
    { eapply Permutation_in; [apply Permutation_sym; exact Hperm|].
      apply in_map_iff. exists (id, c). auto. }
    apply in_map_iff in Hc. destruct Hc as (e & Hname & He').
    exists e. split.
    + rewrite He, <- Hname. apply insert_all_get; assumption.
    + apply class_name_inj. exact Hname.
Qed.

End RowsWithoutSearch.

(** * The harness run on the stand-in library *)

Import Demo.

Lemma lifo_perm (ps : list Future) : Permutation (Demo.lifo ps) ps.
Proof. apply Permutation_sym, Permutation_rev. Qed.

Lemma fifo_perm (ps : list Future) : Permutation (Demo.fifo ps) ps.
Proof. apply Permutation_refl. Qed.

(** ** Failures inside a job *)

(** C1. Fitting a logistic regression with [C=-1.0] raises. Without a search
    ([cv=0]) nothing catches the exception: it leaves the job, and
    [p.result()] raises it again out of [my_classification]. With a search
    ([cv=5]) the same failure is caught inside the job, which returns no
    result, and the dispatcher returns normally. *)
Theorem fit_failure_escapes_the_dispatcher :
  outcome (Demo.run Demo.x4 Demo.y4 None None (Demo.with_cv 0 Demo.defaults)
             (Some ["logistic"]) [("C", PFloat (-1))])
  = Raise (ValueError "The C parameter must be a float in the range (0.0, inf)")
  /\
  outcome (Demo.run Demo.x4 Demo.y4 None None Demo.defaults
             (Some ["logistic"]) [("C", PList [PFloat (-1)])])
  = Ok (mkReport [] (mkTable [] [] []), []).
Proof. split; vm_compute; reflexivity. Qed.


(** C8. A binary estimator scored on a validation split that holds positive
    samples only, all of them predicted positive: the confusion matrix is 1 by
    1, the unpacking into [((TN, FP), (FN, TP))] raises, and no fallout or
    specificity entry is produced. With one sample predicted negative the
    matrix is 2 by 2 and both entries are NaN. *)
Theorem all_positive_split_raises :
  outcome (test_scores (new_estimator SVC Demo.always_positive None) None
             Demo.x4 [1; 1; 1; 1]%Z)
  = Raise (ValueError "not enough values to unpack, or too many")
  /\
  (exists s,
     outcome (test_scores (new_estimator SVC Demo.negative_first None) None
                Demo.x4 [1; 1; 1; 1]%Z) = Ok s /\
     dict_get K_FALLOUT s = Some (PyFloat nan) /\
     dict_get K_TNR s = Some (PyFloat nan)).
Proof.
  split; [vm_compute; reflexivity|].
  eexists. split; [vm_compute; reflexivity|].
  split; reflexivity.
Qed.

(** ** The general theorems at concrete inputs *)

Lemma multiclass_recall_witness :
  exists s_train s_test,
    outcome (train_scores Demo.logistic6 None Demo.x6 Demo.y6) = Ok s_train /\
    outcome (test_scores Demo.logistic6 None Demo.x6 Demo.y6) = Ok s_test /\
    dict_get K_RECALL s_train =
      Some (PyFloat (recall_score Demo.y6
                       (predict (fitted Demo.logistic6) Demo.x6) Micro)) /\
    dict_get K_RECALL s_test =
      Some (PyFloat (recall_score Demo.y6
                       (predict (fitted Demo.logistic6) Demo.x6) Macro)).
Proof.
  edestruct (@multiclass_recall_micro_on_train_macro_on_validation Demo.metrics
               Demo.logistic6 None Demo.x6 Demo.y6 Demo.x6 Demo.y6)
    as (s1 & s2 & H1 & H2 & H3 & H4 & _).
  - vm_compute. lia.
  - reflexivity.
  - reflexivity.
  - reflexivity.
  - reflexivity.
  - exists s1, s2. auto.
Defined.

Lemma pseudo_r2_witness :
  exists t,
    displayed (log (my_classification_result logistic4 (Some x4) (Some y4)
                      None None defaults)) = [Transposed t] /\
    In K_PSEUDO_R2 (columns t).
Proof.
  edestruct (@pseudo_r2_entry_and_display metrics logistic4 x4 y4 None None defaults)
    as (s & Hs & Hlogistic & Hother & Hcolumn & Hshown).
  - reflexivity.
  - vm_compute. reflexivity.
  - destruct (Hshown eq_refl) as (t & Ht). exists t. split; [exact Ht|].
    apply Hcolumn; [rewrite Ht; left; reflexivity | reflexivity].
Defined.

Lemma labels_missing_witness :
  hd_error (predictions (log (__my_classification coefficient_report
                                LogisticRegression x6 y6 (Some x4) None
                                (with_cv 0 defaults) [])))
  = Some (Predict x4).
Proof.
  edestruct (@labels_missing_falls_back_to_training sklearn metrics
               coefficient_report LogisticRegression x6 y6 x4
               (with_cv 0 defaults) [])
    as (_ & _ & _ & H).
  - vm_compute. reflexivity.
  - exact H.
Defined.

Lemma completion_order_witness :
  index (table (report_of
                  (my_classification coefficient_report
                     (futures_as_completed last_in_first_out) x4 y4 None None
                     defaults None [("random_state", PList [PInt 1])])))
  = ["SGDClassifier"; "DecisionTreeClassifier"; "SVC"; "LogisticRegression"].
Proof.
  edestruct (@report_rows_follow_as_completed sklearn metrics
               coefficient_report last_in_first_out lifo_perm fifo_perm
               x4 y4 None None defaults None
               [("random_state", PList [PInt 1])])
    as (_ & _ & _ & Horder & _).
  - vm_compute. reflexivity.
  - etransitivity; [apply Horder; reflexivity | vm_compute; reflexivity].
Defined.

Lemma two_binary_jobs_witness :
  List.length (index (table (report_of (run x4 y4 None None (with_cv 0 defaults)
                                          (Some ["logistic"; "dtree"]) []))))
  = 2%nat.
Proof.
  edestruct (@two_binary_jobs_scorecards sklearn metrics coefficient_report
               fifo fifo_perm x4 y4 None None (with_cv 0 defaults) [])
    as (Hrows & _).
  - simpl. lia.
  - vm_compute. reflexivity.
  - intros n e [E|[E|[]]]; injection E as _ <-; reflexivity.
  - exact Hrows.
Defined.

Lemma auc_selector_witness :
  exists e s,
    fut_result (logistic_job (with_multiclass (Some "ovr") (with_cv 0 defaults)))
      = Ok (Some e) /\
    est_scores e = Some s /\
    In K_AUC_OVR (keys s) /\ ~ In K_AUC_OVO (keys s).
Proof.
  edestruct (@auc_entries_follow_job_selector sklearn metrics coefficient_report
               x6 y6 None None (with_multiclass (Some "ovr") (with_cv 0 defaults))
               None []
               (logistic_job (with_multiclass (Some "ovr") (with_cv 0 defaults))))
    as (s & Hs & _ & _ & Hovr).
  - left. reflexivity.
  - vm_compute. reflexivity.
  - reflexivity.
  - reflexivity.
  - eexists. exists s. split; [reflexivity|]. split; [exact Hs|].
    apply Hovr. reflexivity.
Defined.

Lemma unknown_algorithms_witness :
  run x4 y4 None None defaults (Some ["lsvc"; "xgboost"]) []
  = ([PrettyTable (Plain (mkTable [] [] []))],
     Ok (mkReport [] (mkTable [] [] []), [])).
Proof.
  destruct (@empty_or_unknown_algorithm_list sklearn metrics coefficient_report
              fifo fifo_perm x4 y4 None None defaults [])
    as (_ & _ & _ & _ & H).
  destruct (H ["lsvc"; "xgboost"]) as (_ & E).
  - discriminate.
  - intros id [<-|[<-|[]]]; simpl; intuition discriminate.
  - exact E.
Defined.

(** ** Scenarios that do not hold *)

(** On a two-class problem with [algorithm=["logistic", "dtree"]] and
    [cv=0], both scorecards hold the pseudo-R2 key, and the decision tree's
    holds AUC as well: neither is the expected key set. *)
Lemma binary_scorecards_have_pseudo_r2_and_auc :
  let rep := report_of (run x4 y4 None None (with_cv 0 defaults)
                          (Some ["logistic"; "dtree"]) []) in
  stored_keys rep "LogisticRegression" = Some (binary_keys ++ [K_AUC]) /\
  stored_keys rep "DecisionTreeClassifier" = Some (binary_keys ++ [K_AUC]) /\
  ~ (forall n e s, In (n, e) (mapping rep) -> est_scores e = Some s ->
       forall k, In k (keys s) <-> In k (scenario_keys (cls e))).
Proof.
  split; [vm_compute; reflexivity|]. split; [vm_compute; reflexivity|].
  intros H.
  pose proof (H "DecisionTreeClassifier" _ _
                (or_intror (or_introl eq_refl)) eq_refl K_PSEUDO_R2) as [Hk _].
  assert (Hin : In K_PSEUDO_R2 (scenario_keys DecisionTreeClassifier))
    by (apply Hk; left; reflexivity).
  simpl in Hin. repeat (destruct Hin as [Hin|Hin]; [cbv in Hin; discriminate Hin|]).
  exact Hin.
Qed.

(** With [multiclass="ovr"] and a search space that sets
    [probability=True], the svc job is the only one to succeed on the
    three-class problem; it has probability estimates, and its scorecard holds
    AUC(ovo) beside AUC(ovr). *)
Lemma svc_job_ignores_the_ovr_selector :
  let rep := report_of (run x6 y6 None None
                          (with_multiclass (Some "ovr") defaults) None
                          [("probability", PList [PBool true])]) in
  stored_keys rep "SVC"
    = Some [K_ACCURACY; K_PRECISION; K_RECALL; K_F1; K_AUC_OVO; K_AUC_OVR] /\
  ~ (forall n e s, In (n, e) (mapping rep) ->
       is_binary e = false -> has_predict_proba e = true ->
       est_scores e = Some s ->
       In K_AUC_OVR (keys s) /\ ~ In K_AUC_OVO (keys s)).
Proof.
  split; [vm_compute; reflexivity|].
  intros H.
  destruct (H "SVC" _ _ (or_introl eq_refl) eq_refl eq_refl eq_refl) as [_ Hno].
  apply Hno. do 4 right. left. reflexivity.
Qed.

(** Two jobs that finish in submission order, both before the collecting
    loop starts: the iterator hands them over in the order of a set, here the
    other way round, and the rows are not in completion order. *)
Lemma rows_can_leave_completion_order :
  let processes :=
    submitted coefficient_report x4 y4 None None (with_cv 0 defaults)
      (Some ["logistic"; "dtree"]) [] in
  let rep :=
    report_of (my_classification coefficient_report
                 (futures_as_completed two_finished_early) x4 y4 None None
                 (with_cv 0 defaults) (Some ["logistic"; "dtree"]) []) in
  map (fun p => class_name (fut_class p))
    (filter succeeded (finishing two_finished_early processes))
  = ["LogisticRegression"; "DecisionTreeClassifier"] /\
  index (table rep) = ["DecisionTreeClassifier"; "LogisticRegression"] /\
  keys (mapping rep) = ["DecisionTreeClassifier"; "LogisticRegression"].
Proof. repeat split; vm_compute; reflexivity. Qed.


(** With [is_print] among the extra keyword arguments and an empty
    algorithm list, the first call of [executor.submit] raises: none of the
    six families is dispatched. *)
Lemma empty_list_with_is_print_dispatches_nothing :
  let params := [("is_print", PBool false)] in
  submit_each params
    (submitted coefficient_report x4 y4 None None defaults (Some []) params)
  = Raise (duplicate_keyword_error "is_print") /\
  ~ (exists processes,
       submit_each params
         (submitted coefficient_report x4 y4 None None defaults (Some []) params)
       = Ok processes /\
       map fut_id processes = ["logistic"; "knn"; "svc"; "nb"; "dtree"; "sgd"]) /\
  run x4 y4 None None defaults (Some []) params
  = ([], Raise (duplicate_keyword_error "is_print")).
Proof.
  split; [vm_compute; reflexivity|]. split.
  - intros (processes & H & _). vm_compute in H. discriminate H.
  - vm_compute. reflexivity.
Qed.


(** ** The further properties at concrete inputs *)

Lemma attached_attributes_witness :
  exists e,
    outcome (__my_classification coefficient_report LogisticRegression x6 y6
               (Some x4) None (with_cv 0 defaults) []) = Ok (Some e) /\
    est_x e = Some x4 /\ est_y e = Some y6 /\
    est_y_pred e = Some (predict (fitted e) x6).
Proof.
  edestruct (@attached_attributes sklearn metrics coefficient_report
               LogisticRegression x6 y6 (Some x4) None (with_cv 0 defaults) [])
    as (_ & Hx & Hy & Hp & _).
  - vm_compute. reflexivity.
  - eexists. split; [reflexivity|]. split; [exact Hx|]. split; [exact Hy | exact Hp].
Defined.

Lemma stored_scorecard_keys_witness :
  exists e s,
    outcome (__my_classification coefficient_report DecisionTreeClassifier x4 y4
               None None (with_cv 0 defaults) []) = Ok (Some e) /\
    est_scores e = Some s /\
    keys s = binary_keys ++ [K_AUC].
Proof.
  edestruct (@stored_scorecard_keys sklearn metrics coefficient_report
               DecisionTreeClassifier x4 y4 None None (with_cv 0 defaults) [])
    as (s & Hs & Hk).
  - vm_compute. reflexivity.
  - eexists. exists s. split; [reflexivity|]. split; [exact Hs | exact Hk].
Defined.

Lemma stored_fallout_witness :
  exists e s TN FP,
    outcome (__my_classification coefficient_report LogisticRegression x4 y4
               None None (with_cv 0 defaults) []) = Ok (Some e) /\
    est_scores e = Some s /\
    dict_get K_FALLOUT s = Some (PyFloat (np_true_divide FP (TN + FP))).
Proof.
  edestruct (@stored_fallout_and_specificity sklearn metrics coefficient_report
               LogisticRegression x4 y4 None None (with_cv 0 defaults) [])
    as (s & TN & FP & FN & TP & Hs & _ & Hf & _).
  - vm_compute. reflexivity.
  - reflexivity.
  - eexists. exists s, TN, FP. split; [reflexivity|]. split; [exact Hs | exact Hf].
Defined.

Lemma direct_fit_overrides_witness :
  exists args,
    outcome (direct_params LogisticRegression [("n_jobs", PInt 4); ("C", PInt 2)])
      = Ok args /\
    dict_get "n_jobs" args = Some (PInt (-1)) /\
    dict_get "random_state" args = Some (PInt 1234) /\
    dict_get "C" args = Some (PInt 2).
Proof.
  destruct (@direct_fit_overrides sklearn LogisticRegression x4 y4
              (with_cv 0 defaults) [("n_jobs", PInt 4); ("C", PInt 2)])
    as (args & Hout & Hn & Hr & Hk & _).
  - simpl. lia.
  - exists args. split; [exact Hout|]. split; [exact Hn|]. split; [exact Hr|].
    rewrite Hk; [reflexivity | discriminate | discriminate].
Defined.

Lemma search_overrides_witness :
  exists args,
    outcome (search_args SGDClassifier) = Ok args /\
    dict_get "early_stopping" args = Some (PBool true) /\
    outcome (build_estimator SGDClassifier x4 y4 defaults
               [("criterion", PList [PStr "gini"])]) = Ok None.
Proof.
  destruct (@search_overrides sklearn SGDClassifier x4 y4 defaults
              [("criterion", PList [PStr "gini"])])
    as (args & Hout & _ & _ & He & _ & Hb).
  - simpl. lia.
  - exists args. split; [exact Hout|]. split; [exact He|].
    rewrite Hb. vm_compute in Hout. injection Hout as <-. reflexivity.
Defined.

Lemma reporter_without_data_witness :
  outcome (my_classification_result logistic4 (Some x4) None None (Some y4) defaults)
  = Raise (IndexError "list index out of range").
Proof.
  rewrite (@reporter_without_data_raises metrics logistic4 (Some x4) None None
             (Some y4) defaults eq_refl eq_refl).
  reflexivity.
Defined.

Lemma reporter_with_validation_only_witness :
  exists s,
    outcome (my_classification_result logistic4 (Some x4) None (Some x4) (Some y4)
               defaults) = Ok (set_scores logistic4 s).
Proof.
  eexists. etransitivity.
  - apply (@reporter_with_validation_only metrics logistic4 (Some x4) x4 y4 defaults).
    vm_compute. reflexivity.
  - reflexivity.
Defined.

Lemma dispatched_jobs_render_nothing_witness :
  filter is_rendering (log (fut_run (logistic_job defaults))) = [].
Proof.
  apply (@dispatched_jobs_render_nothing sklearn metrics coefficient_report
           x6 y6 None None defaults None [] (logistic_job defaults)).
  left. reflexivity.
Defined.

Lemma display_options_witness :
  run x4 y4 None None defaults (Some ["logistic"]) []
  = my_classification (fun _ _ _ _ _ _ => raise (TypeError "unused")) fifo
      x4 y4 None None
      {| conf_matrix := false; cv := 5; hist := true; roc := true; pr := true;
         multiclass := None; learning_curve := true; report := true;
         figsize := (1, 1)%Z; dpi := 10; sort := Some "v"; is_print := false |}
      (Some ["logistic"]) [].
Proof.
  apply (@display_options_do_not_reach_the_jobs sklearn metrics); reflexivity.
Defined.

Lemma first_job_failure_witness :
  run x4 y4 None None (with_cv 0 defaults) (Some ["logistic"; "knn"])
    [("C", PFloat (-1))]
  = ([], Raise (ValueError "The C parameter must be a float in the range (0.0, inf)")).
Proof.
  pose proof (@dispatcher_raises_in_two_ways sklearn metrics
                coefficient_report fifo fifo_perm x4 y4 None None
                (with_cv 0 defaults) (Some ["logistic"; "knn"])
                [("C", PFloat (-1))]) as H.
  cbv zeta in H.
  assert (S : submit_each [("C", PFloat (-1))]
                (submitted coefficient_report x4 y4 None None
                   (with_cv 0 defaults) (Some ["logistic"; "knn"])
                   [("C", PFloat (-1))])
              = Ok (submitted coefficient_report x4 y4 None None
                      (with_cv 0 defaults) (Some ["logistic"; "knn"])
                      [("C", PFloat (-1))]))
    by reflexivity.
  rewrite S in H. destruct H as (_ & H).
  assert (F : first_failure
                (fifo (submitted coefficient_report x4 y4 None None
                         (with_cv 0 defaults) (Some ["logistic"; "knn"])
                         [("C", PFloat (-1))]))
              = Some (ValueError
                        "The C parameter must be a float in the range (0.0, inf)"))
    by (vm_compute; reflexivity).
  rewrite F in H. exact (proj1 H).
Defined.

Lemma mapped_scorecards_witness :
  let rep := report_of (run x4 y4 None None (with_cv 0 defaults)
                          (Some ["logistic"; "dtree"]) []) in
  map (mapped_scores rep) ["LogisticRegression"; "DecisionTreeClassifier"]
  = map Some (rows (table rep)).
Proof.
  edestruct (@report_rows_are_the_mapped_scorecards sklearn metrics
               coefficient_report fifo fifo_perm x4 y4 None None
               (with_cv 0 defaults) (Some ["logistic"; "dtree"]) [])
    as (_ & _ & _ & Hrows).
  - vm_compute. reflexivity.
  - exact Hrows.
Defined.

Lemma comparison_table_witness :
  In K_PSEUDO_R2
    (columns (table (report_of (run x4 y4 None None (with_cv 0 defaults)
                                  (Some ["dtree"]) [])))).
Proof.
  edestruct (@comparison_table_keeps_pseudo_r2 sklearn metrics coefficient_report
               fifo fifo_perm x4 y4 None None (with_cv 0 defaults)
               (Some ["dtree"]) [])
    as (_ & Hc & _).
  - vm_compute. reflexivity.
  - left. reflexivity.
  - reflexivity.
  - exact Hc.
Defined.

Lemma algorithm_list_witness :
  run x4 y4 None None defaults (Some ["dtree"; "logistic"; "dtree"]) []
  = run x4 y4 None None defaults (Some ["logistic"; "dtree"]) [].
Proof.
  apply (@algorithm_list_is_a_set sklearn metrics coefficient_report fifo
           x4 y4 None None defaults ["dtree"; "logistic"; "dtree"]
           ["logistic"; "dtree"] []).
  intros id. simpl. tauto.
Defined.

Lemma svm_display_keywords_witness :
  my_svc_classification coefficient_report x4 y4 None None defaults
    [("hist", PBool true); ("report", PBool false)]
  = my_svc_classification coefficient_report x4 y4 None None defaults [].
Proof.
  apply (@svm_wrappers_discard_display_keywords sklearn metrics coefficient_report
           x4 y4 None None defaults [("hist", PBool true); ("report", PBool false)]).
  intros k [<-|[<-|[]]]; reflexivity.
Defined.

Lemma rejected_hyperparameter_witness :
  exists ex,
    outcome (run x4 y4 None None (with_cv 0 defaults) (Some ["logistic"; "knn"])
               [("C", PFloat 1)]) = Raise ex.
Proof.
  edestruct (@rejected_hyperparameter_fails_the_call sklearn metrics
               coefficient_report fifo fifo_perm x4 y4 None None
               (with_cv 0 defaults) (Some ["logistic"; "knn"]) [("C", PFloat 1)]
               (mkFuture "knn" KNeighborsClassifier
                  (my_knn_classification coefficient_report x4 y4 None None
                     (quiet (with_cv 0 defaults)) [("C", PFloat 1)])))
    as (_ & ex' & H).
  - simpl. lia.
  - right. left. reflexivity.
  - vm_compute. reflexivity.
  - vm_compute. reflexivity.
  - exists ex'. exact H.
Defined.

Lemma single_column_witness :
  outcome (my_classification_result
             (new_estimator DecisionTreeClassifier
                (demo_model (mkPrototype DecisionTreeClassifier []) [1; 1; 1; 1]%Z)
                None)
             (Some x4) (Some [1; 1; 1; 1]%Z) None None defaults)
  = Raise (IndexError "index 1 is out of bounds for axis 1").
Proof.
  erewrite (@reporter_needs_two_probability_columns metrics).
  - reflexivity.
  - reflexivity.
  - left. reflexivity.
  - simpl. lia.
Defined.

Lemma explanations_witness :
  exists s,
    outcome (train_scores logistic6 (Some "ovr") x6 y6) = Ok s /\
    keys s = keys (description logistic6 (Some "ovr")).
Proof.
  eexists. split; [vm_compute; reflexivity|].
  apply (@explanations_match_the_scorecards metrics logistic6 (Some "ovr") x6 y6).
  left. vm_compute. reflexivity.
Defined.

Lemma reporter_outcome_witness :
  outcome (my_classification_result logistic4 (Some x4) (Some y4) None None defaults)
  = outcome (my_classification_result logistic4 (Some x4) (Some y4) None None
               (quiet defaults)).
Proof.
  apply (@reporter_outcome_ignores_display_options metrics). reflexivity.
Defined.

Lemma prediction_passes_witness :
  predictions (log (__my_classification coefficient_report LogisticRegression
                      x6 y6 (Some x4) (Some y4) (quiet (with_cv 0 defaults)) []))
  = [Predict x4; PredictProba x4; Predict x6; PredictProba x6;
     Predict x4; PredictProba x4].
Proof.
  etransitivity.
  - eapply (@quiet_job_prediction_passes sklearn metrics coefficient_report
              LogisticRegression x6 y6 (Some x4) (Some y4)
              (quiet (with_cv 0 defaults)) []).
    + reflexivity.
    + vm_compute. reflexivity.
  - reflexivity.
Defined.

Lemma printed_table_witness :
  exists t,
    displayed (log (my_classification_result logistic4 (Some x4) (Some y4)
                      (Some x4) (Some y4) defaults)) = [Transposed t] /\
    index t = ["훈련데이터"; "검증데이터"; "설명"].
Proof.
  edestruct (@printed_table_layout metrics logistic4 x4 y4 (Some x4) (Some y4)
               defaults)
    as (t & Ht & Hi & _).
  - reflexivity.
  - vm_compute. reflexivity.
  - exists t. split; [exact Ht | exact Hi].
Defined.

Lemma rows_without_search_witness :
  List.length (rows (table (report_of (run x4 y4 None None (with_cv 0 defaults)
                                         (Some ["knn"; "nb"; "sgd"]) []))))
  = 3%nat.
Proof.
  edestruct (@without_search_every_selected_class_has_a_row sklearn metrics
               coefficient_report fifo fifo_perm x4 y4 None None
               (with_cv 0 defaults) (Some ["knn"; "nb"; "sgd"]) [])
    as (_ & Hrows & _).
  - simpl. lia.
  - vm_compute. reflexivity.
  - exact Hrows.
Defined.
